(** * Comment log and score aggregation of the admin application detail page

    A shallow embedding of the comment service
    ([src/services/shortFilmCommentsService.ts], and the extended copy of the
    same service that travels with [AdminApplicationDetailPage.tsx]) and of
    the score-saving handler of the page, over a small model of the document
    store the code talks to.

    Conventions.
    - Numbers are the integer scores of the data model, embedded in [Z];
      timestamps are milliseconds, also in [Z].
    - A JavaScript object used as a record is a [Record]; an optional field
      is an [option]; [Record<string, any>] is a finite map.
    - A rejected promise / thrown [Error] is the [Throw] arm of [result]; the
      message is the one the source passes to [new Error].
    - [console.error] calls are not observable by callers and are left out. *)

From stdpp Require Import gmap strings list fin_maps sorting.
From Stdlib Require Import ZArith Lia.

(** ** Data model *)

(** [ShortFilmComment['type']]. *)
Inductive CommentType := general | scoring | status_change | flag.

Global Instance CommentType_eq_dec : EqDecision CommentType.
Proof. solve_decision. Defined.

(** [ScoringCommentData] (the [scores] object of a scoring comment). *)
Record ScoringCommentData := mkScores {
  technical : Z;
  story : Z;
  creativity : Z;
  chiangmai : Z;
  humanEffort : Z;
  totalScore : Z
}.

(** The values the services put in a [metadata] mapping. *)
Inductive MetaValue := MNull | MBool (b : bool) | MString (s : string).

(** The object handed to [addDoc] and returned by [doc.data()].  The
    [createdAt] and [updatedAt] fields hold the server time that replaced the
    [serverTimestamp()] sentinel when the write was committed. *)
Record DocumentData := mkDoc {
  d_submissionId : string;
  d_adminId : string;
  d_adminName : string;
  d_adminEmail : string;
  d_content : string;
  d_type : CommentType;
  d_scores : option ScoringCommentData;
  d_metadata : option (gmap string MetaValue);
  d_createdAt : Z;
  d_updatedAt : option Z;
  d_isEdited : bool;
  d_isDeleted : bool
}.

(** [ShortFilmComment], the value readers hand to the page. *)
Record ShortFilmComment := mkComment {
  c_id : string;
  c_submissionId : string;
  c_adminId : string;
  c_adminName : string;
  c_adminEmail : string;
  c_content : string;
  c_type : CommentType;
  c_scores : option ScoringCommentData;
  c_metadata : option (gmap string MetaValue);
  c_createdAt : Z;
  c_updatedAt : option Z;
  c_isEdited : bool;
  c_isDeleted : bool
}.

(** A field that holds a date: either a [Date], or the [serverTimestamp()]
    sentinel that the store replaces by its own clock on commit. *)
Inductive FieldTime := DateAt (t : Z) | ServerTimestamp.

(** An optional text property of a score object ([comments]).  The object
    may lack the property, hold it with the value [undefined] (as the object
    built by [{..., comments: userScore.comments}] does when the score read
    has no comments), or hold a text.  Reading the property gives
    [undefined] in the first two cases.  The SDK tells them apart when it
    checks the data of a write: it skips a property that is absent and
    refuses one whose value is [undefined]. *)
Inductive OptionalText := Absent | Undefined | Text (s : string).

(** [score.comments], the value read. *)
Definition readText (o : OptionalText) : option string :=
  match o with
  | Text s => Some s
  | Absent | Undefined => None
  end.

(** Modelled from the spec: the declaration of [ScoringCriteria]
    (types/admin.types) is not among the sources.  The record has the five
    sub-scores and the total of the data model, and the fields the page reads
    or writes on it: [adminId], [adminName], [comments], [scoredAt]. *)
Record ScoringCriteria := mkCriteria {
  sc_technical : Z;
  sc_story : Z;
  sc_creativity : Z;
  sc_chiangmai : Z;
  sc_humanEffort : Z;
  sc_totalScore : Z;
  sc_comments : OptionalText;
  sc_adminId : string;
  sc_adminName : string;
  sc_scoredAt : FieldTime
}.

(** The fields of a [submissions/{id}] document that the score-saving
    handler writes. *)
Record SubmissionDoc := mkSubmission {
  sub_scores : list ScoringCriteria;
  sub_lastModified : option Z;
  sub_lastReviewedAt : option Z
}.

(** ** The document store

    [comments] holds the documents of every
    [submissions/{submissionId}/ShortFilmComments] sub-collection, keyed by
    (submissionId, commentId).  [clock] is the server time a write is stamped
    with, [reachable] says whether the backend accepts requests. *)
Record Firestore := mkStore {
  comments : gmap (string * string) DocumentData;
  submissions : gmap string SubmissionDoc;
  clock : Z;
  reachable : bool
}.

Inductive result (A : Type) := Ok (a : A) | Throw (msg : string).
Global Arguments Ok {A} a.
Global Arguments Throw {A} msg.

Definition set_comments (m : gmap (string * string) DocumentData)
    (fs : Firestore) : Firestore :=
  mkStore m (submissions fs) (clock fs) (reachable fs).

Definition set_submissions (m : gmap string SubmissionDoc)
    (fs : Firestore) : Firestore :=
  mkStore (comments fs) m (clock fs) (reachable fs).

(** [serverTimestamp()]: the value the sentinel has once the write commits. *)
Definition serverTimestamp (fs : Firestore) : Z := clock fs.

(** The identifiers already used by comment documents. *)
Definition usedIds (fs : Firestore) : gset string :=
  set_map snd (dom (comments fs)).

(** [addDoc(collection(db,'submissions',sid,'ShortFilmComments'), data)]:
    stores [data] under an identifier no document has, and returns it. *)
Definition addDoc (fs : Firestore) (sid : string) (data : DocumentData)
    : result (string * Firestore) :=
  if reachable fs then
    let cid := fresh (usedIds fs) in
    Ok (cid, set_comments (<[(sid, cid) := data]> (comments fs)) fs)
  else Throw "unavailable".

(** [updateDoc(doc(db,'submissions',sid,'ShortFilmComments',cid), fields)]:
    merges the fields ([upd]) into an existing document; rejects when the
    document does not exist. *)
Definition updateDoc (fs : Firestore) (sid cid : string)
    (upd : DocumentData → DocumentData) : result Firestore :=
  if reachable fs then
    match comments fs !! (sid, cid) with
    | Some d => Ok (set_comments (<[(sid, cid) := upd d]> (comments fs)) fs)
    | None => Throw "not-found"
    end
  else Throw "unavailable".

(** The SDK checks the data of a write before sending it.  It refuses a
    [serverTimestamp()] sentinel inside an array ("serverTimestamp() is not
    currently supported inside arrays") and, with the settings a Firestore
    instance has unless told otherwise ([../firebase] is not among the
    sources), a field whose value is [undefined] ("Unsupported field value:
    undefined"). *)
Definition isSentinel (s : ScoringCriteria) : bool :=
  match sc_scoredAt s with
  | ServerTimestamp => true
  | DateAt _ => false
  end.

Definition hasUndefined (s : ScoringCriteria) : bool :=
  match sc_comments s with
  | Undefined => true
  | Absent | Text _ => false
  end.

(** [updateDoc(doc(db,'submissions',sid), {scores, lastModified:
    serverTimestamp(), lastReviewedAt: serverTimestamp()})]. *)
Definition updateSubmissionScores (fs : Firestore) (sid : string)
    (newScores : list ScoringCriteria) : result Firestore :=
  if existsb isSentinel newScores || existsb hasUndefined newScores
  then Throw "invalid-argument"
  else if reachable fs then
    match submissions fs !! sid with
    | Some _ =>
        Ok (set_submissions
              (<[sid := mkSubmission newScores
                          (Some (serverTimestamp fs))
                          (Some (serverTimestamp fs))]> (submissions fs)) fs)
    | None => Throw "not-found"
    end
  else Throw "unavailable".

(** *** Queries *)

Inductive QueryConstraint :=
  | where_adminId (a : string)
  | where_type (t : CommentType)
  | where_isDeleted (b : bool)
  | orderBy_createdAt_desc
  | limit (n : nat).

(** A query snapshot: (doc.id, doc.data()) in result order. *)
Abbreviation Snapshot := (list (string * DocumentData)).

(** The documents of one sub-collection. *)
Definition collection (fs : Firestore) (sid : string) : Snapshot :=
  (λ kv : string * string * DocumentData, (kv.1.2, kv.2)) <$>
  filter (λ kv : string * string * DocumentData, kv.1.1 = sid)
         (map_to_list (comments fs)).

Definition satisfies (c : QueryConstraint) (d : DocumentData) : bool :=
  match c with
  | where_adminId a => bool_decide (d_adminId d = a)
  | where_type t => bool_decide (d_type d = t)
  | where_isDeleted b => bool_decide (d_isDeleted d = b)
  | orderBy_createdAt_desc => true
  | limit _ => true
  end.

Definition matches (cs : list QueryConstraint) (d : DocumentData) : bool :=
  forallb (λ c, satisfies c d) cs.

(** [x] comes no later than [y] in a listing ordered by [createdAt]
    descending.  Documents with equal [createdAt] may come in either order. *)
Definition newer (x y : string * DocumentData) : Prop :=
  (d_createdAt y.2 ≤ d_createdAt x.2)%Z.

Global Instance newer_dec x y : Decision (newer x y).
Proof. unfold newer. apply _. Defined.

Definition is_orderBy (c : QueryConstraint) : bool :=
  match c with orderBy_createdAt_desc => true | _ => false end.

Fixpoint queryLimit (cs : list QueryConstraint) : option nat :=
  match cs with
  | [] => None
  | limit n :: _ => Some n
  | _ :: cs' => queryLimit cs'
  end.

Definition runQuery (cs : list QueryConstraint) (docs : Snapshot) : Snapshot :=
  let selected := filter (λ x : string * DocumentData, matches cs x.2 = true) docs in
  let ordered := if existsb is_orderBy cs then merge_sort newer selected
                 else selected in
  match queryLimit cs with
  | Some n => take n ordered
  | None => ordered
  end.

(** [getDocs(query(collection(...), ...constraints))]. *)
Definition getDocs (fs : Firestore) (sid : string) (cs : list QueryConstraint)
    : result Snapshot :=
  if reachable fs then Ok (runQuery cs (collection fs sid))
  else Throw "unavailable".

(** The object every reader builds from a document snapshot.  The store
    above commits a write at once, so [createdAt] is always set when a
    document is read and the reader's fallback to the local clock
    ([data.createdAt?.toDate() || new Date()]) is never taken. *)
Definition toComment (snap : string * DocumentData) : ShortFilmComment :=
  let data := snap.2 in
  {| c_id := snap.1;
     c_submissionId := d_submissionId data;
     c_adminId := d_adminId data;
     c_adminName := d_adminName data;
     c_adminEmail := d_adminEmail data;
     c_content := d_content data;
     c_type := d_type data;
     c_scores := d_scores data;
     c_metadata := d_metadata data;
     c_createdAt := d_createdAt data;
     c_updatedAt := d_updatedAt data;
     c_isEdited := d_isEdited data || false;
     c_isDeleted := d_isDeleted data || false |}.

(** [a || b] on an optional string: the first operand unless it is
    [undefined]/[null] or the empty string. *)
Definition or_else (a : option string) (b : string) : string :=
  match a with
  | Some s => if decide (s = EmptyString) then b else s
  | None => b
  end.

(** The three fields [updateComment] of the service file writes. *)
Definition editFields (content : string) (now : Z) (d : DocumentData)
    : DocumentData :=
  mkDoc (d_submissionId d) (d_adminId d) (d_adminName d) (d_adminEmail d)
        content (d_type d) (d_scores d) (d_metadata d) (d_createdAt d)
        (Some now) true (d_isDeleted d).

(** The four fields [updateComment] of the extended service writes. *)
Definition editFieldsMeta (content : string) (meta : gmap string MetaValue)
    (now : Z) (d : DocumentData) : DocumentData :=
  mkDoc (d_submissionId d) (d_adminId d) (d_adminName d) (d_adminEmail d)
        content (d_type d) (d_scores d) (Some meta) (d_createdAt d)
        (Some now) true (d_isDeleted d).

(** The two fields [deleteComment] writes. *)
Definition deleteFields (now : Z) (d : DocumentData) : DocumentData :=
  mkDoc (d_submissionId d) (d_adminId d) (d_adminName d) (d_adminEmail d)
        (d_content d) (d_type d) (d_scores d) (d_metadata d) (d_createdAt d)
        (Some now) (d_isEdited d) true.

(** A live query as the services set it up with [onSnapshot]: the
    collection and constraints, and the two handlers, acting on the state
    [S] of whoever owns the callback. *)
Record Subscription (S : Type) := mkSubscription {
  sub_collection : string;
  sub_query : list QueryConstraint;
  onNext : Snapshot → S → S;
  onError : string → S → S
}.
Global Arguments mkSubscription {S}.
Global Arguments sub_collection {S}.
Global Arguments sub_query {S}.
Global Arguments onNext {S}.
Global Arguments onError {S}.

(** What the store does for a listener whenever the collection changes:
    the current result of the query goes to the first handler, a failure of
    the stream to the second. *)
Definition deliver {S : Type} (sub : Subscription S) (fs : Firestore) (s : S)
    : S :=
  match getDocs fs (sub_collection sub) (sub_query sub) with
  | Ok snapshot => onNext sub snapshot s
  | Throw e => onError sub e s
  end.

(** The double-quote character of the status-change template. *)
Definition dquote : string :=
  String (Ascii.Ascii false true false false false true false false) EmptyString.

(** A string or [undefined] in a condition: set and not empty. *)
Definition truthy (a : option string) : bool :=
  match a with
  | Some s => negb (bool_decide (s = EmptyString))
  | None => false
  end.

(** [reason || null] inside a metadata object. *)
Definition reasonOrNull (reason : option string) : MetaValue :=
  match reason with
  | Some s => if decide (s = EmptyString) then MNull else MString s
  | None => MNull
  end.

(** ** The service of [src/services/shortFilmCommentsService.ts] *)
Module Service.

Definition addGeneralComment (fs : Firestore)
    (submissionId adminId adminName adminEmail content : string)
    (metadata : option (gmap string MetaValue)) : result string * Firestore :=
  let commentData :=
    mkDoc submissionId adminId adminName adminEmail content general None
          (Some (default ∅ metadata)) (serverTimestamp fs) None false false in
  match addDoc fs submissionId commentData with
  | Ok (id, fs') => (Ok id, fs')
  | Throw _ => (Throw "Failed to add comment", fs)
  end.

Definition addScoringComment (fs : Firestore)
    (submissionId adminId adminName adminEmail : string)
    (scores : ScoringCommentData) (content : option string)
    : result string * Firestore :=
  let commentData :=
    mkDoc submissionId adminId adminName adminEmail
          (or_else content "Scoring evaluation completed") scoring
          (Some scores) None (serverTimestamp fs) None false false in
  match addDoc fs submissionId commentData with
  | Ok (id, fs') => (Ok id, fs')
  | Throw _ => (Throw "Failed to save scores and comment", fs)
  end.

Definition getComments (fs : Firestore) (submissionId : string)
    : result (list ShortFilmComment) :=
  match getDocs fs submissionId
          [where_isDeleted false; orderBy_createdAt_desc] with
  | Ok snapshot => Ok (toComment <$> snapshot)
  | Throw _ => Throw "Failed to load comments"
  end.

Definition subscribeToComments {S : Type} (submissionId : string)
    (callback : list ShortFilmComment → S → S) : Subscription S :=
  mkSubscription submissionId
    [where_isDeleted false; orderBy_createdAt_desc]
    (λ snapshot, callback (toComment <$> snapshot))
    (λ _, callback []).

Definition updateComment (fs : Firestore)
    (submissionId commentId content : string) : result unit * Firestore :=
  match updateDoc fs submissionId commentId
          (editFields content (serverTimestamp fs)) with
  | Ok fs' => (Ok tt, fs')
  | Throw _ => (Throw "Failed to update comment", fs)
  end.

Definition deleteComment (fs : Firestore) (submissionId commentId : string)
    : result unit * Firestore :=
  match updateDoc fs submissionId commentId
          (deleteFields (serverTimestamp fs)) with
  | Ok fs' => (Ok tt, fs')
  | Throw _ => (Throw "Failed to delete comment", fs)
  end.

Definition getLatestScoreByAdmin (fs : Firestore)
    (submissionId adminId : string) : option ShortFilmComment :=
  match getDocs fs submissionId
          [where_adminId adminId; where_type scoring; where_isDeleted false;
           orderBy_createdAt_desc; limit 1] with
  | Ok snapshot =>
      match snapshot with
      | [] => None
      | doc :: _ => Some (toComment doc)
      end
  | Throw _ => None
  end.

Definition getCommentsByType (fs : Firestore) (submissionId : string)
    (type : CommentType) : result (list ShortFilmComment) :=
  match getDocs fs submissionId
          [where_type type; where_isDeleted false; orderBy_createdAt_desc] with
  | Ok snapshot => Ok (toComment <$> snapshot)
  | Throw _ => Throw "Failed to load comments"
  end.

End Service.

(** ** The extended service (second part of [AdminApplicationDetailPage.tsx])

    The copy of the service that the page of [unnamed/part_000] imports: it
    adds [ScoringCommentData], [getScoringComments],
    [addStatusChangeComment] and [addFlagComment], and differs from the
    service file in [addScoringComment], [subscribeToComments] and
    [updateComment]. *)
Module ServiceX.

Definition addGeneralComment (fs : Firestore)
    (submissionId adminId adminName adminEmail content : string)
    (metadata : option (gmap string MetaValue)) : result string * Firestore :=
  let commentData :=
    mkDoc submissionId adminId adminName adminEmail content general None
          (Some (default ∅ metadata)) (serverTimestamp fs) None false false in
  match addDoc fs submissionId commentData with
  | Ok (id, fs') => (Ok id, fs')
  | Throw _ => (Throw "Failed to add comment", fs)
  end.

Definition addScoringComment (fs : Firestore)
    (submissionId adminId adminName adminEmail : string)
    (scores : ScoringCommentData) (content : option string)
    (metadata : option (gmap string MetaValue)) : result string * Firestore :=
  let commentData :=
    mkDoc submissionId adminId adminName adminEmail
          (or_else content EmptyString) scoring
          (Some scores) (Some (default ∅ metadata)) (serverTimestamp fs) None
          false false in
  match addDoc fs submissionId commentData with
  | Ok (id, fs') => (Ok id, fs')
  | Throw _ => (Throw "Failed to add scoring comment", fs)
  end.

Definition getComments (fs : Firestore) (submissionId : string)
    : result (list ShortFilmComment) :=
  match getDocs fs submissionId
          [where_isDeleted false; orderBy_createdAt_desc] with
  | Ok querySnapshot => Ok (toComment <$> querySnapshot)
  | Throw _ => Throw "Failed to fetch comments"
  end.

(** The error handler of this copy only logs. *)
Definition subscribeToComments {S : Type} (submissionId : string)
    (onCommentsUpdate : list ShortFilmComment → S → S) : Subscription S :=
  mkSubscription submissionId
    [where_isDeleted false; orderBy_createdAt_desc]
    (λ querySnapshot, onCommentsUpdate (toComment <$> querySnapshot))
    (λ _ s, s).

Definition updateComment (fs : Firestore)
    (submissionId commentId content : string)
    (metadata : option (gmap string MetaValue)) : result unit * Firestore :=
  match updateDoc fs submissionId commentId
          (editFieldsMeta content (default ∅ metadata) (serverTimestamp fs)) with
  | Ok fs' => (Ok tt, fs')
  | Throw _ => (Throw "Failed to update comment", fs)
  end.

Definition deleteComment (fs : Firestore) (submissionId commentId : string)
    : result unit * Firestore :=
  match updateDoc fs submissionId commentId
          (deleteFields (serverTimestamp fs)) with
  | Ok fs' => (Ok tt, fs')
  | Throw _ => (Throw "Failed to delete comment", fs)
  end.

Definition getLatestScoreByAdmin (fs : Firestore)
    (submissionId adminId : string) : option ShortFilmComment :=
  match getDocs fs submissionId
          [where_adminId adminId; where_type scoring; where_isDeleted false;
           orderBy_createdAt_desc; limit 1] with
  | Ok querySnapshot =>
      match querySnapshot with
      | [] => None
      | doc :: _ => Some (toComment doc)
      end
  | Throw _ => None
  end.

Definition getScoringComments (fs : Firestore) (submissionId : string)
    : result (list ShortFilmComment) :=
  match getDocs fs submissionId
          [where_type scoring; where_isDeleted false; orderBy_createdAt_desc] with
  | Ok querySnapshot => Ok (toComment <$> querySnapshot)
  | Throw _ => Throw "Failed to fetch scoring comments"
  end.

Definition addStatusChangeComment (fs : Firestore)
    (submissionId adminId adminName adminEmail oldStatus newStatus : string)
    (reason : option string) : result string * Firestore :=
  let base :=
    "Status changed from " +:+ dquote +:+ oldStatus +:+ dquote +:+ " to "
      +:+ dquote +:+ newStatus +:+ dquote +:+ "." in
  let content :=
    if truthy reason then base +:+ " Reason: " +:+ default EmptyString reason
    else base in
  let commentData :=
    mkDoc submissionId adminId adminName adminEmail content status_change None
          (Some (<["oldStatus" := MString oldStatus]>
                   (<["newStatus" := MString newStatus]>
                      (<["reason" := reasonOrNull reason]> ∅))))
          (serverTimestamp fs) None false false in
  match addDoc fs submissionId commentData with
  | Ok (id, fs') => (Ok id, fs')
  | Throw _ => (Throw "Failed to add status change comment", fs)
  end.

Definition addFlagComment (fs : Firestore)
    (submissionId adminId adminName adminEmail : string) (flagged : bool)
    (reason : option string) : result string * Firestore :=
  let content :=
    if flagged then
      "Application flagged. " +:+
        (if truthy reason then "Reason: " +:+ default EmptyString reason
         else EmptyString)
    else "Application unflagged." in
  let commentData :=
    mkDoc submissionId adminId adminName adminEmail content flag None
          (Some (<["flagged" := MBool flagged]>
                   (<["reason" := reasonOrNull reason]> ∅)))
          (serverTimestamp fs) None false false in
  match addDoc fs submissionId commentData with
  | Ok (id, fs') => (Ok id, fs')
  | Throw _ => (Throw "Failed to add flag comment", fs)
  end.

End ServiceX.

(** ** The page: state shared by both versions *)

(** The signed-in user as [useAuth] gives it. *)
Record User := mkUser {
  uid : string;
  displayName : option string;
  email : option string
}.

(** Modelled from the spec: the declaration of [AdminApplicationData]
    (types/admin.types) is not among the sources.  The score-saving handler
    reads and writes only its [scores] array. *)
Record AdminApplicationData := mkApplication {
  app_id : string;
  app_scores : list ScoringCriteria
}.

(** A call of the notification helpers; the text depends on the language
    and is left out. *)
Inductive Toast := showSuccess | showError.

(** The filter-then-push step of [handleSaveScore]:
    [application.scores.filter(score => score.adminId !== user.uid)]
    followed by [updatedScores.push(newScore)]. *)
Definition replaceAuthorScore (submissionScoreList : list ScoringCriteria)
    (authorId : string) (newScore : ScoringCriteria) : list ScoringCriteria :=
  filter (λ score, sc_adminId score ≠ authorId) submissionScoreList
    ++ [newScore].

(** The total as the handler of [unnamed/part_000] computes it (line 289). *)
Definition recomputeTotal (scores : ScoringCriteria) : Z :=
  (sc_technical scores + sc_story scores + sc_creativity scores
   + sc_chiangmai scores + sc_humanEffort scores)%Z.

(** ** The page of [AdminApplicationDetailPage.tsx] (first part)

    It uses only the functions both copies of the service have; its calls
    are bound here to the service file. *)
Module Page.

Record State := mkState {
  application : option AdminApplicationData;
  comments : list ShortFilmComment;
  loadingComments : bool;
  allScores : list ScoringCriteria;
  isSubmittingScore : bool;
  toasts : list Toast
}.

Definition setApplicationScores (updatedScores : list ScoringCriteria)
    (st : State) : State :=
  mkState
    (match application st with
     | Some prev => Some (mkApplication (app_id prev) updatedScores)
     | None => None
     end)
    (comments st) (loadingComments st) updatedScores (isSubmittingScore st)
    (toasts st).

Definition finish (t : Toast) (st : State) : State :=
  mkState (application st) (comments st) (loadingComments st) (allScores st)
          false (toasts st ++ [t]).

(** The callback the page passes to [subscribeToComments]. *)
Definition onComments (newComments : list ShortFilmComment) (st : State)
    : State :=
  mkState (application st) newComments false (allScores st)
          (isSubmittingScore st) (toasts st).

(** The effect that subscribes: [setLoadingComments(true)], then the
    subscription. *)
Definition subscribe (applicationId : string) (st : State)
    : State * Subscription State :=
  (mkState (application st) (comments st) true (allScores st)
           (isSubmittingScore st) (toasts st),
   Service.subscribeToComments applicationId onComments).

(** The object the handler passes to [addScoringComment] (lines 256-263). *)
Definition scoringCommentData (scores : ScoringCriteria)
    : ScoringCommentData :=
  mkScores (sc_technical scores) (sc_story scores) (sc_creativity scores)
           (sc_chiangmai scores) (sc_humanEffort scores)
           (sc_totalScore scores).

Definition handleSaveScore (user : option User) (applicationId : string)
    (scores : ScoringCriteria) (st : State) (fs : Firestore)
    : State * Firestore :=
  match application st, user with
  | Some app, Some user =>
      let updatedScores :=
        replaceAuthorScore (app_scores app) (uid user) scores in
      match updateSubmissionScores fs applicationId updatedScores with
      | Ok fs1 =>
          let st1 := setApplicationScores updatedScores st in
          match Service.addScoringComment fs1 applicationId (uid user)
                  (or_else (displayName user) (or_else (email user) "Admin"))
                  (or_else (email user) EmptyString)
                  (scoringCommentData scores) (readText (sc_comments scores)) with
          | (Ok _, fs2) => (finish showSuccess st1, fs2)
          | (Throw _, fs2) => (finish showError st1, fs2)
          end
      | Throw _ => (finish showError st, fs)
      end
  | _, _ => (st, fs)
  end.

End Page.

(** ** The page of [unnamed/part_000] *)
Module PageX.

Record State := mkState {
  application : option AdminApplicationData;
  comments : list ShortFilmComment;
  loadingComments : bool;
  isSubmittingScore : bool;
  toasts : list Toast
}.

(** [score.scoredAt instanceof Date ? score.scoredAt : new Date()]. *)
Definition localScoredAt (now : Z) (score : ScoringCriteria)
    : ScoringCriteria :=
  match sc_scoredAt score with
  | DateAt _ => score
  | ServerTimestamp =>
      mkCriteria (sc_technical score) (sc_story score) (sc_creativity score)
        (sc_chiangmai score) (sc_humanEffort score) (sc_totalScore score)
        (sc_comments score) (sc_adminId score) (sc_adminName score)
        (DateAt now)
  end.

Definition setApplicationScores (now : Z)
    (updatedScores : list ScoringCriteria) (st : State) : State :=
  mkState
    (match application st with
     | Some prev =>
         Some (mkApplication (app_id prev) (localScoredAt now <$> updatedScores))
     | None => None
     end)
    (comments st) (loadingComments st) (isSubmittingScore st) (toasts st).

Definition finish (t : Toast) (st : State) : State :=
  mkState (application st) (comments st) (loadingComments st) false
          (toasts st ++ [t]).

Definition onComments (newComments : list ShortFilmComment) (st : State)
    : State :=
  mkState (application st) newComments false (isSubmittingScore st)
          (toasts st).

Definition subscribe (applicationId : string) (st : State)
    : State * Subscription State :=
  (mkState (application st) (comments st) true (isSubmittingScore st)
           (toasts st),
   ServiceX.subscribeToComments applicationId onComments).

(** [{...scores, adminId: user.uid, adminName: ..., scoredAt:
    serverTimestamp()}]. *)
Definition newScoreOf (user : User) (scores : ScoringCriteria)
    : ScoringCriteria :=
  mkCriteria (sc_technical scores) (sc_story scores) (sc_creativity scores)
    (sc_chiangmai scores) (sc_humanEffort scores) (sc_totalScore scores)
    (sc_comments scores) (uid user)
    (or_else (displayName user) (or_else (email user) "Admin"))
    ServerTimestamp.

(** The object the handler passes to [addScoringComment] (lines 283-290). *)
Definition scoringCommentData (scores : ScoringCriteria)
    : ScoringCommentData :=
  mkScores (sc_technical scores) (sc_story scores) (sc_creativity scores)
           (sc_chiangmai scores) (sc_humanEffort scores)
           (recomputeTotal scores).

(** [now] is the local clock read by [new Date()]. *)
Definition handleSaveScore (now : Z) (user : option User)
    (applicationId : string) (scores : ScoringCriteria) (st : State)
    (fs : Firestore) : State * Firestore :=
  match user, application st with
  | Some user, Some app =>
      let updatedScores :=
        replaceAuthorScore (app_scores app) (uid user) (newScoreOf user scores) in
      match updateSubmissionScores fs applicationId updatedScores with
      | Ok fs1 =>
          match ServiceX.addScoringComment fs1 applicationId (uid user)
                  (or_else (displayName user) (or_else (email user) "Admin"))
                  (or_else (email user) EmptyString)
                  (scoringCommentData scores) (readText (sc_comments scores)) None with
          | (Ok _, fs2) =>
              (finish showSuccess (setApplicationScores now updatedScores st),
               fs2)
          | (Throw _, fs2) => (finish showError st, fs2)
          end
      | Throw _ => (finish showError st, fs)
      end
  | _, _ => (st, fs)
  end.

End PageX.

(** ** Histories of the comment log

    Everything that can happen to the comment documents: a call of one of
    the service functions (of either copy), or the world moving on (time
    passes, the backend becomes reachable or not). *)
Inductive Op :=
  | op_addGeneralComment (sid aid aname aemail content : string)
      (meta : option (gmap string MetaValue))
  | op_addGeneralCommentX (sid aid aname aemail content : string)
      (meta : option (gmap string MetaValue))
  | op_addScoringComment (sid aid aname aemail : string)
      (scores : ScoringCommentData) (content : option string)
  | op_addScoringCommentX (sid aid aname aemail : string)
      (scores : ScoringCommentData) (content : option string)
      (meta : option (gmap string MetaValue))
  | op_addStatusChangeComment (sid aid aname aemail old new : string)
      (reason : option string)
  | op_addFlagComment (sid aid aname aemail : string) (flagged : bool)
      (reason : option string)
  | op_updateComment (sid cid content : string)
  | op_updateCommentX (sid cid content : string)
      (meta : option (gmap string MetaValue))
  | op_deleteComment (sid cid : string)
  | op_deleteCommentX (sid cid : string)
  | op_world (elapsed : Z) (online : bool).

Definition step (op : Op) (fs : Firestore) : Firestore :=
  match op with
  | op_addGeneralComment sid aid an ae content meta =>
      (Service.addGeneralComment fs sid aid an ae content meta).2
  | op_addGeneralCommentX sid aid an ae content meta =>
      (ServiceX.addGeneralComment fs sid aid an ae content meta).2
  | op_addScoringComment sid aid an ae scores content =>
      (Service.addScoringComment fs sid aid an ae scores content).2
  | op_addScoringCommentX sid aid an ae scores content meta =>
      (ServiceX.addScoringComment fs sid aid an ae scores content meta).2
  | op_addStatusChangeComment sid aid an ae old new reason =>
      (ServiceX.addStatusChangeComment fs sid aid an ae old new reason).2
  | op_addFlagComment sid aid an ae flagged reason =>
      (ServiceX.addFlagComment fs sid aid an ae flagged reason).2
  | op_updateComment sid cid content =>
      (Service.updateComment fs sid cid content).2
  | op_updateCommentX sid cid content meta =>
      (ServiceX.updateComment fs sid cid content meta).2
  | op_deleteComment sid cid => (Service.deleteComment fs sid cid).2
  | op_deleteCommentX sid cid => (ServiceX.deleteComment fs sid cid).2
  | op_world elapsed online =>
      mkStore (comments fs) (submissions fs)
              (clock fs + Z.abs elapsed)%Z online
  end.

Fixpoint exec (ops : list Op) (fs : Firestore) : Firestore :=
  match ops with
  | [] => fs
  | op :: ops' => exec ops' (step op fs)
  end.

(** The store before anything was written. *)
Definition emptyStore (t : Z) (online : bool) : Firestore :=
  mkStore ∅ ∅ t online.

(** [c1] comes no later than [c2] in a listing that is newest first. *)
Definition newerC (c1 c2 : ShortFilmComment) : Prop :=
  (c_createdAt c2 ≤ c_createdAt c1)%Z.

(** A non-deleted document of a sub-collection, as a reader returns it. *)
Definition liveComment (fs : Firestore) (sid : string) (c : ShortFilmComment)
    : Prop :=
  ∃ d, comments fs !! (sid, c_id c) = Some d ∧ d_isDeleted d = false
       ∧ c = toComment (c_id c, d).

(** ** Notions and examples used in the statements *)

Definition sumOfSubScores (s : ScoringCommentData) : Z :=
  (technical s + story s + creativity s + chiangmai s + humanEffort s)%Z.

(** A store with one submission and no comments, a signed-in admin, and the
    page showing that submission. *)
Definition demoStore : Firestore :=
  mkStore ∅ {["film1" := mkSubmission [] None None]} 1000 true.

Definition demoUser : User := mkUser "A" (Some "Ann") (Some "ann@example.org").

Definition demoPage : Page.State :=
  Page.mkState (Some (mkApplication "film1" [])) [] false [] false [].

Definition demoPageX : PageX.State :=
  PageX.mkState (Some (mkApplication "film1" [])) [] false false [].

(** Sub-scores that add up to 40, sent with a total of 0. *)
Definition demoScores : ScoringCriteria :=
  mkCriteria 8 7 9 6 10 0 Absent "A" "Ann" (DateAt 999).

(** The documents [getLatestScoreByAdmin] selects. *)
Definition scoringBy (adminId : string) (d : DocumentData) : Prop :=
  d_adminId d = adminId ∧ d_type d = scoring ∧ d_isDeleted d = false.

Definition scoringDoc (sid aid : string) (total t : Z) : DocumentData :=
  mkDoc sid aid aid EmptyString EmptyString scoring
        (Some (mkScores 0 0 0 0 0 total)) None t None false false.

(** Scoring events of A at 1 and 2, and of B at 3. *)
Definition demoLog : Firestore :=
  mkStore (<[("film1", "c1") := scoringDoc "film1" "A" 10 1]>
             (<[("film1", "c2") := scoringDoc "film1" "A" 20 2]>
                (<[("film1", "c3") := scoringDoc "film1" "B" 30 3]> ∅)))
          ∅ 4 true.

(** The store after an [addDoc] or [updateDoc] that may have failed. *)
Definition applyAdd (fs : Firestore) (sid : string) (data : DocumentData)
    : Firestore :=
  match addDoc fs sid data with
  | Ok (_, fs') => fs'
  | Throw _ => fs
  end.

Definition applyUpdate (fs : Firestore) (sid cid : string)
    (upd : DocumentData → DocumentData) : Firestore :=
  match updateDoc fs sid cid upd with
  | Ok fs' => fs'
  | Throw _ => fs
  end.

(** The collection and kind an operation appends to, if it appends. *)
Definition appendKind (op : Op) : option (string * CommentType) :=
  match op with
  | op_addGeneralComment sid _ _ _ _ _ => Some (sid, general)
  | op_addGeneralCommentX sid _ _ _ _ _ => Some (sid, general)
  | op_addScoringComment sid _ _ _ _ _ => Some (sid, scoring)
  | op_addScoringCommentX sid _ _ _ _ _ _ => Some (sid, scoring)
  | op_addStatusChangeComment sid _ _ _ _ _ _ => Some (sid, status_change)
  | op_addFlagComment sid _ _ _ _ _ => Some (sid, flag)
  | _ => None
  end.

(** The document an operation edits or soft-deletes, if it does. *)
Definition editTarget (op : Op) : option (string * string) :=
  match op with
  | op_updateComment sid cid _ => Some (sid, cid)
  | op_updateCommentX sid cid _ _ => Some (sid, cid)
  | _ => None
  end.

Definition deleteTarget (op : Op) : option (string * string) :=
  match op with
  | op_deleteComment sid cid => Some (sid, cid)
  | op_deleteCommentX sid cid => Some (sid, cid)
  | _ => None
  end.

(** How one document can differ before and after an operation. *)
Inductive docStep (op : Op) (p : string * string)
    : DocumentData → DocumentData → Prop :=
  | ds_same d : docStep op p d d
  | ds_edit d content now :
      editTarget op = Some p → docStep op p d (editFields content now d)
  | ds_editX d content meta now :
      editTarget op = Some p →
      docStep op p d (editFieldsMeta content meta now d)
  | ds_delete d now :
      deleteTarget op = Some p → docStep op p d (deleteFields now d).

(** No stored event is stamped later than the server clock. *)
Definition stamped (fs : Firestore) : Prop :=
  ∀ p d, comments fs !! p = Some d → (d_createdAt d ≤ clock fs)%Z.

(** A log that grew from the empty store: three scores, with time passing
    between them. *)
Definition demoHistory : list Op :=
  [op_addScoringComment "film1" "A" "Ann" "a@x" (mkScores 2 2 2 2 2 10) None;
   op_world 1 true;
   op_addScoringComment "film1" "A" "Ann" "a@x" (mkScores 4 4 4 4 4 20) None;
   op_world 1 true;
   op_addScoringComment "film1" "B" "Bob" "b@x" (mkScores 6 6 6 6 6 30) None].

(** [d'] is [d] with another [updatedAt]. *)
Definition sameButUpdatedAt (d d' : DocumentData) : Prop :=
  d_submissionId d' = d_submissionId d ∧ d_adminId d' = d_adminId d
  ∧ d_adminName d' = d_adminName d ∧ d_adminEmail d' = d_adminEmail d
  ∧ d_content d' = d_content d ∧ d_type d' = d_type d
  ∧ d_scores d' = d_scores d ∧ d_metadata d' = d_metadata d
  ∧ d_createdAt d' = d_createdAt d ∧ d_isEdited d' = d_isEdited d
  ∧ d_isDeleted d' = d_isDeleted d.

(** The log of [demoLog] after its first event was soft-deleted at time 4,
    five time units later. *)
Definition demoDeleted : Firestore :=
  step (op_world 5 true) (Service.deleteComment demoLog "film1" "c1").2.

(** What an edit leaves on the target, in both copies of the service. *)
Definition edited (fs : Firestore) (content : string) (d d' : DocumentData)
    : Prop :=
  d_content d' = content ∧ d_isEdited d' = true
  ∧ d_updatedAt d' = Some (clock fs) ∧ d_isDeleted d' = d_isDeleted d
  ∧ d_type d' = d_type d.

(** Sub-scores outside 0..10 and a total that is not their sum. *)
Definition badScores : ScoringCommentData := mkScores 11 (-3) 9 6 10 7.

(** The event [addScoringComment] records for the given arguments. *)
Definition recorded (fs fs' : Firestore) (sid cid aid : string)
    (scores : ScoringCommentData) : Prop :=
  comments fs !! (sid, cid) = None
  ∧ ∃ d, comments fs' !! (sid, cid) = Some d
         ∧ d_scores d = Some scores ∧ d_type d = scoring
         ∧ d_adminId d = aid.

(** A callback that records each of its invocations. *)
Definition recordCall (cs : list ShortFilmComment)
    (calls : list (list ShortFilmComment)) : list (list ShortFilmComment) :=
  calls ++ [cs].

(** The fields no copy of [updateComment] writes. *)
Definition sameIdentity (d d' : DocumentData) : Prop :=
  d_submissionId d' = d_submissionId d ∧ d_adminId d' = d_adminId d
  ∧ d_adminName d' = d_adminName d ∧ d_adminEmail d' = d_adminEmail d
  ∧ d_type d' = d_type d ∧ d_scores d' = d_scores d
  ∧ d_createdAt d' = d_createdAt d ∧ d_isDeleted d' = d_isDeleted d.

(** The value of one key of the metadata of a stored event. *)
Definition metadataAt (fs : Firestore) (p : string * string) (key : string)
    : option MetaValue :=
  match comments fs !! p with
  | Some d => match d_metadata d with
              | Some m => m !! key
              | None => None
              end
  | None => None
  end.

(** A store with one status-change event. *)
Definition demoStatus : Firestore :=
  (ServiceX.addStatusChangeComment demoStore "film1" "A" "Ann" "a@x"
     "pending" "approved" None).2.

(** ** More of the services and pages

    The rest of the pages' handlers.  The page state they use beyond
    [State] (the comment box, the admin controls) is kept in records of its
    own. *)

(** *** [String.prototype.trim]

    A string of the model is a sequence of code units below 256; the white
    space and line terminators of the language in that range are tab, line
    feed, vertical tab, form feed, carriage return, space and no-break
    space. *)
Definition isWhiteSpace (c : Ascii.ascii) : bool :=
  match Ascii.N_of_ascii c with
  | 9%N | 10%N | 11%N | 12%N | 13%N | 32%N | 160%N => true
  | _ => false
  end.

Fixpoint trimStart (s : string) : string :=
  match s with
  | EmptyString => EmptyString
  | String c s' => if isWhiteSpace c then trimStart s' else s
  end.

Fixpoint trimEnd (s : string) : string :=
  match s with
  | EmptyString => EmptyString
  | String c s' =>
      match trimEnd s' with
      | EmptyString => if isWhiteSpace c then EmptyString
                       else String c EmptyString
      | r => String c r
      end
  end.

Definition trim (s : string) : string := trimEnd (trimStart s).

(** *** The filter tabs of the comment list *)

(** The value of [commentFilter]: ['all'] or one kind. *)
Inductive CommentFilter := filter_all | filter_kind (k : CommentType).

(** The predicate of [comments.filter(comment => { if (commentFilter ===
    'all') return true; return comment.type === commentFilter; })]. *)
Definition passesFilter (commentFilter : CommentFilter)
    (comment : ShortFilmComment) : Prop :=
  match commentFilter with
  | filter_all => True
  | filter_kind k => c_type comment = k
  end.

Global Instance passesFilter_dec f c : Decision (passesFilter f c).
Proof. destruct f; simpl; apply _. Defined.

Definition filteredComments (commentFilter : CommentFilter)
    (comments : list ShortFilmComment) : list ShortFilmComment :=
  filter (passesFilter commentFilter) comments.

(** [comments.filter(c => c.type === k).length]. *)
Definition countOfType (k : CommentType) (comments : list ShortFilmComment)
    : nat :=
  length (filter (λ c, c_type c = k) comments).

(** The tabs of [unnamed/part_000] (lines 549-555): key and count. *)
Definition filterTabs (comments : list ShortFilmComment)
    : list (CommentFilter * nat) :=
  [(filter_all, length comments);
   (filter_kind general, countOfType general comments);
   (filter_kind scoring, countOfType scoring comments);
   (filter_kind status_change, countOfType status_change comments);
   (filter_kind flag, countOfType flag comments)].

(** *** Pre-filling the scoring form *)

(** The object given to [setCurrentScores]; every property is set, and
    [cur_comments] is [None] when its value is [undefined]. *)
Record CurrentScores := mkCurrent {
  cur_technical : Z;
  cur_story : Z;
  cur_creativity : Z;
  cur_chiangmai : Z;
  cur_humanEffort : Z;
  cur_comments : option string
}.

(** The last step of [fetchApplication]:
    [scores.find(score => score.adminId === user.uid)], and the form values
    taken from the score found. *)
Definition currentScoresOf (user : option User) (scores : list ScoringCriteria)
    : option CurrentScores :=
  match user with
  | Some user =>
      match list_find (λ score, sc_adminId score = uid user) scores with
      | Some (_, userScore) =>
          Some (mkCurrent (sc_technical userScore) (sc_story userScore)
                  (sc_creativity userScore) (sc_chiangmai userScore)
                  (sc_humanEffort userScore)
                  (readText (sc_comments userScore)))
      | None => None
      end
  | None => None
  end.

(** *** The comment box and the admin controls *)

(** [newComment] and [isSubmittingComment]. *)
Record CommentForm := mkForm {
  newComment : string;
  isSubmittingComment : bool
}.

(** The fields of [application] that the admin controls show and change,
    and [isUpdating]. *)
Record Controls := mkControls {
  ctl_reviewStatus : string;
  ctl_adminNotes : string;
  ctl_flagged : bool;
  ctl_flagReason : option string;
  isUpdating : bool
}.

(** The store together with the fields of the submission documents that
    the admin controls write ([reviewStatus], [adminNotes], [flagged],
    [flagReason]), one field map per document. *)
Record Backend := mkBackend {
  store : Firestore;
  adminFields : gmap string (gmap string MetaValue)
}.

(** [updateDoc(doc(db,'submissions',sid), {...fields, lastModified:
    serverTimestamp()})], with [lastReviewedAt: serverTimestamp()] as well
    when [reviewed] is set: the fields given replace those of the same name,
    the others stay. *)
Definition updateSubmissionFields (b : Backend) (sid : string)
    (fields : gmap string MetaValue) (reviewed : bool) : result Backend :=
  if reachable (store b) then
    match submissions (store b) !! sid with
    | Some doc =>
        Ok (mkBackend
              (set_submissions
                 (<[sid := mkSubmission (sub_scores doc)
                             (Some (serverTimestamp (store b)))
                             (if reviewed
                              then Some (serverTimestamp (store b))
                              else sub_lastReviewedAt doc)]>
                    (submissions (store b))) (store b))
              (<[sid := fields ∪ default ∅ (adminFields b !! sid)]>
                 (adminFields b)))
    | None => Throw "not-found"
    end
  else Throw "unavailable".

(** One field of a submission document. *)
Definition adminField (b : Backend) (sid key : string) : option MetaValue :=
  match adminFields b !! sid with
  | Some fields => fields !! key
  | None => None
  end.

(** ** More of the page of [AdminApplicationDetailPage.tsx] (first part) *)
Module PageHandlers.

Definition toast (t : Toast) (st : Page.State) : Page.State :=
  Page.mkState (Page.application st) (Page.comments st)
    (Page.loadingComments st) (Page.allScores st) (Page.isSubmittingScore st)
    (Page.toasts st ++ [t]).

Definition handleAddComment (user : option User) (applicationId : string)
    (form : CommentForm) (st : Page.State) (fs : Firestore)
    : CommentForm * Page.State * Firestore :=
  match user with
  | Some user =>
      if decide (trim (newComment form) = EmptyString) then (form, st, fs)
      else
        match Service.addGeneralComment fs applicationId (uid user)
                (or_else (displayName user) (or_else (email user) "Admin"))
                (or_else (email user) EmptyString)
                (trim (newComment form)) None with
        | (Ok _, fs') => (mkForm EmptyString false, toast showSuccess st, fs')
        | (Throw _, fs') =>
            (mkForm (newComment form) false, toast showError st, fs')
        end
  | None => (form, st, fs)
  end.

Definition setUpdating (u : bool) (ctl : Controls) : Controls :=
  mkControls (ctl_reviewStatus ctl) (ctl_adminNotes ctl) (ctl_flagged ctl)
             (ctl_flagReason ctl) u.

(** This version changes the status without writing to the comment log. *)
Definition handleStatusChange (applicationId newStatus : string)
    (st : Page.State) (ctl : Controls) (b : Backend)
    : Page.State * Controls * Backend :=
  match Page.application st with
  | Some _ =>
      match updateSubmissionFields b applicationId
              {["reviewStatus" := MString newStatus]} true with
      | Ok b' =>
          (toast showSuccess st,
           mkControls newStatus (ctl_adminNotes ctl) (ctl_flagged ctl)
                      (ctl_flagReason ctl) false,
           b')
      | Throw _ => (toast showError st, setUpdating false ctl, b)
      end
  | None => (st, ctl, b)
  end.

Definition handleNotesChange (applicationId notes : string)
    (st : Page.State) (ctl : Controls) (b : Backend)
    : Page.State * Controls * Backend :=
  match Page.application st with
  | Some _ =>
      match updateSubmissionFields b applicationId
              {["adminNotes" := MString notes]} false with
      | Ok b' =>
          (toast showSuccess st,
           mkControls (ctl_reviewStatus ctl) notes (ctl_flagged ctl)
                      (ctl_flagReason ctl) false,
           b')
      | Throw _ => (toast showError st, setUpdating false ctl, b)
      end
  | None => (st, ctl, b)
  end.

Definition handleFlagToggle (applicationId : string) (flagged : bool)
    (reason : option string) (st : Page.State) (ctl : Controls) (b : Backend)
    : Page.State * Controls * Backend :=
  match Page.application st with
  | Some _ =>
      match updateSubmissionFields b applicationId
              (<["flagged" := MBool flagged]>
                 {["flagReason" := reasonOrNull reason]}) false with
      | Ok b' =>
          (toast showSuccess st,
           mkControls (ctl_reviewStatus ctl) (ctl_adminNotes ctl) flagged
                      reason false,
           b')
      | Throw _ => (toast showError st, setUpdating false ctl, b)
      end
  | None => (st, ctl, b)
  end.

End PageHandlers.

(** ** More of the page of [unnamed/part_000] *)
Module PageXHandlers.

Definition toast (t : Toast) (st : PageX.State) : PageX.State :=
  PageX.mkState (PageX.application st) (PageX.comments st)
    (PageX.loadingComments st) (PageX.isSubmittingScore st)
    (PageX.toasts st ++ [t]).

Definition handleAddComment (user : option User) (applicationId : string)
    (form : CommentForm) (st : PageX.State) (fs : Firestore)
    : CommentForm * PageX.State * Firestore :=
  match user with
  | Some user =>
      if decide (trim (newComment form) = EmptyString) then (form, st, fs)
      else
        match ServiceX.addGeneralComment fs applicationId (uid user)
                (or_else (displayName user) (or_else (email user) "Admin"))
                (or_else (email user) EmptyString)
                (trim (newComment form)) None with
        | (Ok _, fs') => (mkForm EmptyString false, toast showSuccess st, fs')
        | (Throw _, fs') =>
            (mkForm (newComment form) false, toast showError st, fs')
        end
  | None => (form, st, fs)
  end.

(** [confirmed] is the answer to [window.confirm]. *)
Definition handleDeleteComment (confirmed : bool)
    (applicationId commentId : string) (st : PageX.State) (fs : Firestore)
    : PageX.State * Firestore :=
  if confirmed then
    match ServiceX.deleteComment fs applicationId commentId with
    | (Ok _, fs') => (toast showSuccess st, fs')
    | (Throw _, fs') => (toast showError st, fs')
    end
  else (st, fs).

Definition setUpdating (u : bool) (ctl : Controls) : Controls :=
  mkControls (ctl_reviewStatus ctl) (ctl_adminNotes ctl) (ctl_flagged ctl)
             (ctl_flagReason ctl) u.

(** The comment service works on the store of the backend. *)
Definition onStore {A : Type} (r : result A * Firestore) (b : Backend)
    : result A * Backend :=
  (r.1, mkBackend r.2 (adminFields b)).

Definition handleStatusChange (user : option User)
    (applicationId newStatus : string) (st : PageX.State) (ctl : Controls)
    (b : Backend) : PageX.State * Controls * Backend :=
  match user, PageX.application st with
  | Some user, Some _ =>
      match updateSubmissionFields b applicationId
              {["reviewStatus" := MString newStatus]} true with
      | Ok b1 =>
          match onStore
                  (ServiceX.addStatusChangeComment (store b1) applicationId
                     (uid user)
                     (or_else (displayName user) (or_else (email user) "Admin"))
                     (or_else (email user) EmptyString)
                     (ctl_reviewStatus ctl) newStatus None) b1 with
          | (Ok _, b2) =>
              (toast showSuccess st,
               mkControls newStatus (ctl_adminNotes ctl) (ctl_flagged ctl)
                          (ctl_flagReason ctl) false,
               b2)
          | (Throw _, b2) => (toast showError st, setUpdating false ctl, b2)
          end
      | Throw _ => (toast showError st, setUpdating false ctl, b)
      end
  | _, _ => (st, ctl, b)
  end.

Definition handleNotesChange (applicationId notes : string)
    (st : PageX.State) (ctl : Controls) (b : Backend)
    : PageX.State * Controls * Backend :=
  match PageX.application st with
  | Some _ =>
      match updateSubmissionFields b applicationId
              {["adminNotes" := MString notes]} false with
      | Ok b' =>
          (toast showSuccess st,
           mkControls (ctl_reviewStatus ctl) notes (ctl_flagged ctl)
                      (ctl_flagReason ctl) false,
           b')
      | Throw _ => (toast showError st, setUpdating false ctl, b)
      end
  | None => (st, ctl, b)
  end.

Definition handleFlagToggle (user : option User) (applicationId : string)
    (flagged : bool) (reason : option string) (st : PageX.State)
    (ctl : Controls) (b : Backend) : PageX.State * Controls * Backend :=
  match user, PageX.application st with
  | Some user, Some _ =>
      match updateSubmissionFields b applicationId
              (<["flagged" := MBool flagged]>
                 {["flagReason" := reasonOrNull reason]}) false with
      | Ok b1 =>
          match onStore
                  (ServiceX.addFlagComment (store b1) applicationId (uid user)
                     (or_else (displayName user) (or_else (email user) "Admin"))
                     (or_else (email user) EmptyString) flagged reason) b1 with
          | (Ok _, b2) =>
              (toast showSuccess st,
               mkControls (ctl_reviewStatus ctl) (ctl_adminNotes ctl) flagged
                          reason false,
               b2)
          | (Throw _, b2) => (toast showError st, setUpdating false ctl, b2)
          end
      | Throw _ => (toast showError st, setUpdating false ctl, b)
      end
  | _, _ => (st, ctl, b)
  end.

End PageXHandlers.

(** *** Notions for the statements about the remaining code *)

(** [d'] is [d] but for [isDeleted] and [updatedAt]. *)
Definition sameButDeletion (d d' : DocumentData) : Prop :=
  d_submissionId d' = d_submissionId d ∧ d_adminId d' = d_adminId d
  ∧ d_adminName d' = d_adminName d ∧ d_adminEmail d' = d_adminEmail d
  ∧ d_content d' = d_content d ∧ d_type d' = d_type d
  ∧ d_scores d' = d_scores d ∧ d_metadata d' = d_metadata d
  ∧ d_createdAt d' = d_createdAt d ∧ d_isEdited d' = d_isEdited d.

(** A listed comment after an edit by [updateComment] of the service
    file, and of the extended service. *)
Definition editedComment (content : string) (now : Z) (c : ShortFilmComment)
    : ShortFilmComment :=
  mkComment (c_id c) (c_submissionId c) (c_adminId c) (c_adminName c)
    (c_adminEmail c) content (c_type c) (c_scores c) (c_metadata c)
    (c_createdAt c) (Some now) true (c_isDeleted c).

Definition editedCommentX (content : string) (meta : gmap string MetaValue)
    (now : Z) (c : ShortFilmComment) : ShortFilmComment :=
  mkComment (c_id c) (c_submissionId c) (c_adminId c) (c_adminName c)
    (c_adminEmail c) content (c_type c) (c_scores c) (Some meta)
    (c_createdAt c) (Some now) true (c_isDeleted c).

(** The list a reader returned, or the empty list when it threw. *)
Definition listOf (r : result (list ShortFilmComment))
    : list ShortFilmComment :=
  match r with
  | Ok l => l
  | Throw _ => []
  end.

(** The admin an append is made for, if the operation appends. *)
Definition appendAuthor (op : Op) : option string :=
  match op with
  | op_addGeneralComment _ aid _ _ _ _ => Some aid
  | op_addGeneralCommentX _ aid _ _ _ _ => Some aid
  | op_addScoringComment _ aid _ _ _ _ => Some aid
  | op_addScoringCommentX _ aid _ _ _ _ _ => Some aid
  | op_addStatusChangeComment _ aid _ _ _ _ _ => Some aid
  | op_addFlagComment _ aid _ _ _ _ => Some aid
  | _ => None
  end.

(** A document as the add functions write it into collection [sid]. *)
Definition freshDoc (fs : Firestore) (sid : string) (d : DocumentData)
    : Prop :=
  d_submissionId d = sid ∧ d_createdAt d = clock fs ∧ d_updatedAt d = None
  ∧ d_isEdited d = false ∧ d_isDeleted d = false
  ∧ (is_Some (d_scores d) ↔ d_type d = scoring).

(** An event that [getLatestScoreByAdmin] may return for an admin. *)
Definition candidate (fs : Firestore) (sid aid cid : string)
    (d : DocumentData) : Prop :=
  comments fs !! (sid, cid) = Some d ∧ scoringBy aid d.

(** What an event is born with. *)
Definition sameOrigin (d d' : DocumentData) : Prop :=
  d_submissionId d' = d_submissionId d ∧ d_adminId d' = d_adminId d
  ∧ d_adminName d' = d_adminName d ∧ d_adminEmail d' = d_adminEmail d
  ∧ d_type d' = d_type d ∧ d_scores d' = d_scores d
  ∧ d_createdAt d' = d_createdAt d.

(** The shape of an event stored under [p] in a log the services built. *)
Definition wellFormedEvent (fs : Firestore) (p : string * string)
    (d : DocumentData) : Prop :=
  d_submissionId d = p.1
  ∧ (is_Some (d_scores d) ↔ d_type d = scoring)
  ∧ (d_createdAt d ≤ clock fs)%Z
  ∧ match d_updatedAt d with
    | Some u => (d_createdAt d ≤ u ≤ clock fs)%Z
    | None => d_isEdited d = false ∧ d_isDeleted d = false
    end.



(** The admin controls of the examples, and a backend whose submission
    already has notes. *)
Definition demoControls : Controls :=
  mkControls "pending" "first notes" false None false.

Definition demoBackend : Backend :=
  mkBackend demoStore {["film1" := {["adminNotes" := MString "first notes"]}]}.

(** * Properties of the store *)

Global Instance newer_total : Total newer.
Proof. intros x y. unfold newer. lia. Qed.

Global Instance newer_trans : Transitive newer.
Proof. intros x y z. unfold newer. lia. Qed.

Lemma toComment_inj x y : toComment x = toComment y → x = y.
Proof.
  destruct x as [i [] ], y as [j [] ]. unfold toComment. simpl.
  rewrite !orb_false_r. intros H. injection H as -> -> -> -> -> -> -> -> -> -> -> -> ->.
  reflexivity.
Qed.

Global Instance toComment_Inj : Inj (=) (=) toComment.
Proof. intros x y. apply toComment_inj. Qed.

Lemma toComment_id x : c_id (toComment x) = x.1.
Proof. done. Qed.

Lemma elem_of_collection fs sid cid d :
  (cid, d) ∈ collection fs sid ↔ comments fs !! (sid, cid) = Some d.
Proof.
  unfold collection. rewrite list_elem_of_fmap. split.
  - intros ([[s c] d'] & Heq & Hin). simpl in Heq. simplify_eq.
    apply list_elem_of_filter in Hin as [Hs Hin]. simpl in Hs. subst.
    by apply elem_of_map_to_list in Hin.
  - intros Hl. exists ((sid, cid), d). split; [done|].
    apply list_elem_of_filter. split; [done|]. by apply elem_of_map_to_list.
Qed.

Lemma NoDup_collection fs sid : NoDup (collection fs sid).
Proof.
  unfold collection. apply NoDup_fmap_2_strong.
  - intros [[s1 c1] d1] [[s2 c2] d2] H1 H2 Heq. simpl in Heq.
    apply list_elem_of_filter in H1 as [H1 _].
    apply list_elem_of_filter in H2 as [H2 _]. simpl in *. by simplify_eq.
  - apply NoDup_filter, NoDup_map_to_list.
Qed.

Lemma collection_ids_unique fs sid cid d1 d2 :
  (cid, d1) ∈ collection fs sid → (cid, d2) ∈ collection fs sid → d1 = d2.
Proof. rewrite !elem_of_collection. congruence. Qed.

Lemma fresh_unused fs sid : comments fs !! (sid, fresh (usedIds fs)) = None.
Proof.
  destruct (comments fs !! (sid, fresh (usedIds fs))) as [d|] eqn:E; [|done].
  exfalso. apply (is_fresh (usedIds fs)). unfold usedIds.
  apply elem_of_map. exists (sid, fresh (usedIds fs)). split; [done|].
  apply elem_of_dom. by exists d.
Qed.

(** *** Queries *)

Lemma elem_of_runQuery_unlimited cs docs x :
  queryLimit cs = None →
  x ∈ runQuery cs docs ↔ x ∈ docs ∧ matches cs x.2 = true.
Proof.
  intros Hl. unfold runQuery. rewrite Hl.
  destruct (existsb is_orderBy cs).
  - rewrite merge_sort_Permutation, list_elem_of_filter. tauto.
  - rewrite list_elem_of_filter. tauto.
Qed.

Lemma runQuery_sublist cs docs x :
  x ∈ runQuery cs docs → x ∈ docs ∧ matches cs x.2 = true.
Proof.
  unfold runQuery. intros H.
  assert (x ∈ filter (λ x : string * DocumentData, matches cs x.2 = true) docs)
    as Hin.
  { destruct (queryLimit cs) as [n|].
    - apply elem_of_take in H as (i & Hi & _).
      apply list_elem_of_lookup_2 in Hi.
      destruct (existsb is_orderBy cs); [|done].
      by rewrite merge_sort_Permutation in Hi.
    - destruct (existsb is_orderBy cs); [|done].
      by rewrite merge_sort_Permutation in H. }
  apply list_elem_of_filter in Hin. tauto.
Qed.

Lemma StronglySorted_take {A} (R : relation A) n (l : list A) :
  StronglySorted R l → StronglySorted R (take n l).
Proof.
  intros H. rewrite <- (take_drop n l) in H.
  by apply StronglySorted_app_1_l in H.
Qed.

Lemma runQuery_sorted cs docs :
  existsb is_orderBy cs = true → StronglySorted newer (runQuery cs docs).
Proof.
  intros Ho. unfold runQuery. rewrite Ho.
  destruct (queryLimit cs).
  - apply StronglySorted_take, StronglySorted_merge_sort; apply _.
  - apply StronglySorted_merge_sort; apply _.
Qed.

Lemma runQuery_NoDup cs docs : NoDup docs → NoDup (runQuery cs docs).
Proof.
  intros Hn. unfold runQuery.
  assert (NoDup (filter (λ x : string * DocumentData, matches cs x.2 = true) docs))
    as Hf by by apply NoDup_filter.
  assert (NoDup (if existsb is_orderBy cs
                 then merge_sort newer
                        (filter (λ x : string * DocumentData,
                                   matches cs x.2 = true) docs)
                 else filter (λ x : string * DocumentData,
                                matches cs x.2 = true) docs)) as Ho.
  { destruct (existsb is_orderBy cs); [|done].
    by rewrite merge_sort_Permutation. }
  destruct (queryLimit cs) as [n|]; [|done].
  rewrite <- (take_drop n) in Ho. by apply NoDup_app in Ho as [? _].
Qed.

(** * Score aggregation *)

Lemma replaceAuthorScore_elem_of l a new s :
  s ∈ replaceAuthorScore l a new ↔ (s ∈ l ∧ sc_adminId s ≠ a) ∨ s = new.
Proof.
  unfold replaceAuthorScore.
  rewrite elem_of_app, list_elem_of_filter, list_elem_of_singleton. tauto.
Qed.

Lemma NoDup_fmap_filter {A B} (f : A → B) (P : A → Prop)
    `{∀ x, Decision (P x)} (l : list A) :
  NoDup (f <$> l) → NoDup (f <$> filter P l).
Proof.
  induction l as [|x l IH]; [done|]. rewrite fmap_cons, NoDup_cons.
  intros [Hx Hl]. rewrite filter_cons. destruct (decide (P x)); [|auto].
  rewrite fmap_cons, NoDup_cons. split; [|auto].
  intros Hin. apply Hx. apply list_elem_of_fmap in Hin as (y & -> & Hy).
  apply list_elem_of_filter in Hy as [_ Hy]. by apply list_elem_of_fmap_2.
Qed.

(** The score the handler of [unnamed/part_000] appends is the one of the
    signed-in admin. *)
Lemma PageX_newScoreOf_adminId user scores :
  sc_adminId (PageX.newScoreOf user scores) = uid user.
Proof. reflexivity. Qed.

(** C3. The filter-then-push step of [handleSaveScore] keeps, in their
    order, exactly the scores of the other admins and puts the new score
    after them.  On a list with one score of A and one of B it gives the
    two-element list of B's score, untouched, and the new score; and a list
    with at most one score per admin stays so. *)
Theorem replaceAuthorScore_spec (l : list ScoringCriteria) (a : string)
    (new : ScoringCriteria) :
  (∃ kept, replaceAuthorScore l a new = kept ++ [new]
           ∧ kept `sublist_of` l
           ∧ (∀ s, s ∈ kept ↔ s ∈ l ∧ sc_adminId s ≠ a))
  ∧ (∀ sA sB, sc_adminId sA = a → sc_adminId sB ≠ a → sc_adminId new = a →
       replaceAuthorScore [sA; sB] a new = [sB; new]
       ∧ replaceAuthorScore [sB; sA] a new = [sB; new]
       ∧ NoDup (sc_adminId <$> [sB; new]))
  ∧ (sc_adminId new = a → NoDup (sc_adminId <$> l) →
       NoDup (sc_adminId <$> replaceAuthorScore l a new)).
Proof.
  split; [|split].
  - exists (filter (λ score, sc_adminId score ≠ a) l).
    split; [done|]. split; [apply sublist_filter|].
    intros s. rewrite list_elem_of_filter. tauto.
  - intros sA sB HA HB Hnew. unfold replaceAuthorScore.
    rewrite !filter_cons, filter_nil.
    destruct (decide (sc_adminId sA ≠ a)) as [?|_]; [done|].
    destruct (decide (sc_adminId sB ≠ a)) as [_|?]; [|done].
    split; [done|]. split; [done|]. simpl.
    apply NoDup_cons. split; [|apply NoDup_singleton].
    rewrite list_elem_of_singleton. congruence.
  - intros Hnew Hnd. unfold replaceAuthorScore. rewrite fmap_app.
    apply NoDup_app. split; [by apply NoDup_fmap_filter|].
    split; [|apply NoDup_singleton].
    intros x Hx. simpl. rewrite list_elem_of_singleton. intros ->.
    apply list_elem_of_fmap in Hx as (s & Hs & Hin).
    apply list_elem_of_filter in Hin as [Hne _]. congruence.
Qed.

(** The example of the specification, run. *)
Lemma replaceAuthorScore_spec_witness :
  let sA := mkCriteria 1 2 3 4 5 15 Absent "A" "Ann" (DateAt 10) in
  let sB := mkCriteria 5 5 5 5 5 25 Absent "B" "Bob" (DateAt 11) in
  let new := mkCriteria 8 7 9 6 10 40 Absent "A" "Ann" (DateAt 12) in
  replaceAuthorScore [sA; sB] "A" new = [sB; new]
  ∧ replaceAuthorScore [sB; sA] "A" new = [sB; new]
  ∧ NoDup (sc_adminId <$> [sB; new]).
Proof.
  intros sA sB new.
  apply (proj1 (proj2 (replaceAuthorScore_spec [sA; sB] "A" new)) sA sB);
    [reflexivity | vm_compute; discriminate | reflexivity].
Defined.

(** The total of the scoring event that the handler of [unnamed/part_000]
    hands to the service is the sum of the five sub-scores, whatever total
    the panel supplied. *)
Lemma recomputeTotal_sum (p : ScoringCriteria) :
  recomputeTotal p
  = (sc_technical p + sc_story p + sc_creativity p + sc_chiangmai p
     + sc_humanEffort p)%Z.
Proof. reflexivity. Qed.

Lemma addDoc_lookup fs sid data cid fs' p d :
  addDoc fs sid data = Ok (cid, fs') →
  comments fs' !! p = Some d →
  (p = (sid, cid) ∧ d = data ∧ comments fs !! p = None)
  ∨ (p ≠ (sid, cid) ∧ comments fs !! p = Some d).
Proof.
  unfold addDoc. destruct (reachable fs); [|done]. intros [= <- <-]. simpl.
  destruct (decide (p = (sid, fresh (usedIds fs)))) as [->|Hne].
  - rewrite lookup_insert_eq. intros [= <-]. left. by rewrite fresh_unused.
  - rewrite lookup_insert_ne by done. auto.
Qed.

Lemma updateSubmissionScores_comments fs sid l fs' :
  updateSubmissionScores fs sid l = Ok fs' →
  comments fs' = comments fs ∧ reachable fs' = reachable fs
  ∧ clock fs' = clock fs.
Proof.
  unfold updateSubmissionScores.
  destruct (existsb isSentinel l || existsb hasUndefined l); [done|].
  destruct (reachable fs) eqn:E; [|done].
  destruct (submissions fs !! sid); [|done]. intros [= <-]. simpl. by rewrite E.
Qed.

(** The payload of the handler of [unnamed/part_000] carries the sum of
    its sub-scores as total; the payload of the handler of
    [AdminApplicationDetailPage.tsx] carries the total it was given. *)
Lemma PageX_scoringCommentData_total (scores : ScoringCriteria) :
  totalScore (PageX.scoringCommentData scores)
  = sumOfSubScores (PageX.scoringCommentData scores).
Proof. reflexivity. Qed.

Lemma Page_scoringCommentData_total (scores : ScoringCriteria) :
  totalScore (Page.scoringCommentData scores) = sc_totalScore scores
  ∧ sumOfSubScores (Page.scoringCommentData scores) = recomputeTotal scores.
Proof. done. Qed.

(** Every scoring event the handler of [AdminApplicationDetailPage.tsx]
    records carries the total that came with the scores. *)
Lemma Page_handleSaveScore_total user appId scores st fs p d :
  comments (Page.handleSaveScore user appId scores st fs).2 !! p = Some d →
  comments fs !! p = Some d
  ∨ (comments fs !! p = None ∧ d_type d = scoring
     ∧ d_scores d = Some (Page.scoringCommentData scores)).
Proof.
  unfold Page.handleSaveScore.
  destruct (Page.application st) as [app|]; [|by left].
  destruct user as [u|]; [|by left].
  destruct (updateSubmissionScores fs appId _) as [fs1|] eqn:E1; [|by left].
  apply updateSubmissionScores_comments in E1 as (Hc & _ & _).
  unfold Service.addScoringComment.
  destruct (addDoc fs1 appId _) as [[cid fs2]|] eqn:E2; simpl.
  - intros Hl. destruct (addDoc_lookup _ _ _ _ _ _ _ E2 Hl)
      as [(-> & -> & Hnone)|(_ & Hold)].
    + right. rewrite <- Hc. done.
    + left. by rewrite <- Hc.
  - rewrite Hc. by left.
Qed.

(** The array the handler of [unnamed/part_000] writes to the submission
    ends with a score whose [scoredAt] is the sentinel, so the write is
    refused and the handler reports an error before it reaches the comment
    service. *)
Lemma PageX_handleSaveScore_refused now user appId scores st fs :
  (PageX.handleSaveScore now user appId scores st fs).2 = fs.
Proof.
  unfold PageX.handleSaveScore.
  destruct user as [u|]; [|done].
  destruct (PageX.application st) as [app|]; [|done].
  unfold updateSubmissionScores, replaceAuthorScore.
  rewrite existsb_app. simpl. by rewrite orb_true_r.
Qed.

(** C1.  The handler of [AdminApplicationDetailPage.tsx] passes the total it
    was given on to the service, which stores it: for sub-scores 8, 7, 9, 6,
    10 sent with a total of 0, the scoring event recorded has total 0 and
    not 40.  The handler of [unnamed/part_000] puts 40 in its payload for
    the same input. *)
Theorem Page_handleSaveScore_stores_supplied_total :
  let fs' := (Page.handleSaveScore (Some demoUser) "film1" demoScores
                demoPage demoStore).2 in
  d_scores <$> comments fs' !! ("film1", fresh (usedIds demoStore))
    = Some (Some (mkScores 8 7 9 6 10 0))
  ∧ sumOfSubScores (mkScores 8 7 9 6 10 0) = 40%Z
  ∧ totalScore (PageX.scoringCommentData demoScores) = 40%Z.
Proof. vm_compute. done. Qed.

(** * Latest score of an admin *)

Lemma matches_latest aid d :
  matches [where_adminId aid; where_type scoring; where_isDeleted false;
           orderBy_createdAt_desc; limit 1] d = true ↔ scoringBy aid d.
Proof.
  unfold matches, scoringBy. simpl.
  rewrite !andb_true_iff, !bool_decide_eq_true. tauto.
Qed.

Lemma ServiceX_getLatestScoreByAdmin fs sid aid :
  ServiceX.getLatestScoreByAdmin fs sid aid
  = Service.getLatestScoreByAdmin fs sid aid.
Proof. reflexivity. Qed.

Lemma getLatestScoreByAdmin_general fs sid aid :
  reachable fs = true →
  match Service.getLatestScoreByAdmin fs sid aid with
  | Some c =>
      ∃ d, comments fs !! (sid, c_id c) = Some d
           ∧ c = toComment (c_id c, d)
           ∧ scoringBy aid d
           ∧ ∀ cid' d', comments fs !! (sid, cid') = Some d' →
                        scoringBy aid d' → (d_createdAt d' ≤ c_createdAt c)%Z
  | None =>
      ∀ cid d, comments fs !! (sid, cid) = Some d → ¬ scoringBy aid d
  end.
Proof.
  intros Hr. unfold Service.getLatestScoreByAdmin, getDocs. rewrite Hr.
  unfold runQuery.
  set (q := [where_adminId aid; where_type scoring; where_isDeleted false;
             orderBy_createdAt_desc; limit 1]).
  change (existsb is_orderBy q) with true.
  change (queryLimit q) with (Some 1). cbv iota beta.
  set (sel := filter (λ x : string * DocumentData, matches q x.2 = true)
                     (collection fs sid)).
  assert (Hsel : ∀ cid d, (cid, d) ∈ sel
                          ↔ comments fs !! (sid, cid) = Some d ∧ scoringBy aid d).
  { intros cid d. unfold sel.
    rewrite list_elem_of_filter, elem_of_collection.
    split.
    - intros [Hm ?]. split; [done|]. by apply matches_latest.
    - intros [? Hm]. split; [|done]. by apply matches_latest. }
  pose proof (merge_sort_Permutation newer sel) as Hp.
  pose proof (StronglySorted_merge_sort newer sel) as Hs.
  destruct (merge_sort newer sel) as [|[i d] rest]; simpl.
  - apply Permutation_nil_l in Hp. intros cid d Hl Hsc.
    assert ((cid, d) ∈ sel) as Hin by (apply Hsel; done).
    rewrite <- Hp in Hin. by apply elem_of_nil in Hin.
  - exists d. assert ((i, d) ∈ sel) as Hin.
    { rewrite <- Hp. apply elem_of_cons. by left. }
    apply Hsel in Hin as [Hl Hsc]. split; [done|]. split; [done|].
    split; [done|]. intros cid' d' Hl' Hsc'.
    assert ((cid', d') ∈ sel) as Hin' by (apply Hsel; done).
    rewrite <- Hp in Hin'. apply elem_of_cons in Hin' as [Heq|Hin'].
    + injection Heq as -> ->. lia.
    + apply StronglySorted_cons in Hs as [Hall _].
      rewrite Forall_forall in Hall. apply (Hall _ Hin').
Qed.

(** C2.  [getLatestScoreByAdmin], in the service file and in the extended
    service alike, returns a scoring, non-deleted event of the given admin
    whose [createdAt] is maximal among those, and nothing when the admin has
    no such event.  When the log of a submission consists of scoring events
    of A at t1 and t2 and of B at t3, with t1 < t2 < t3, the answer is the
    t2 event for A, the t3 event for B and nothing for anybody else. *)
Theorem getLatestScoreByAdmin_spec (fs : Firestore) (sid : string)
    (getLatest : Firestore → string → string → option ShortFilmComment) :
  getLatest ∈ [Service.getLatestScoreByAdmin;
               ServiceX.getLatestScoreByAdmin] →
  reachable fs = true →
  (∀ aid,
     match getLatest fs sid aid with
     | Some c =>
         ∃ d, comments fs !! (sid, c_id c) = Some d
              ∧ c = toComment (c_id c, d)
              ∧ scoringBy aid d
              ∧ ∀ cid' d', comments fs !! (sid, cid') = Some d' →
                           scoringBy aid d' →
                           (d_createdAt d' ≤ c_createdAt c)%Z
     | None =>
         ∀ cid d, comments fs !! (sid, cid) = Some d → ¬ scoringBy aid d
     end)
  ∧ (∀ A B i1 i2 i3 d1 d2 d3,
       (∀ cid d, comments fs !! (sid, cid) = Some d
                 ↔ (cid, d) = (i1, d1) ∨ (cid, d) = (i2, d2)
                   ∨ (cid, d) = (i3, d3)) →
       scoringBy A d1 → scoringBy A d2 → scoringBy B d3 → A ≠ B →
       (d_createdAt d1 < d_createdAt d2)%Z →
       (d_createdAt d2 < d_createdAt d3)%Z →
       getLatest fs sid A = Some (toComment (i2, d2))
       ∧ getLatest fs sid B = Some (toComment (i3, d3))
       ∧ ∀ C, C ≠ A → C ≠ B → getLatest fs sid C = None).
Proof.
  intros Hget Hr.
  assert (Hgen : ∀ aid,
            match getLatest fs sid aid with
            | Some c =>
                ∃ d, comments fs !! (sid, c_id c) = Some d
                     ∧ c = toComment (c_id c, d)
                     ∧ scoringBy aid d
                     ∧ ∀ cid' d', comments fs !! (sid, cid') = Some d' →
                                  scoringBy aid d' →
                                  (d_createdAt d' ≤ c_createdAt c)%Z
            | None =>
                ∀ cid d, comments fs !! (sid, cid) = Some d →
                         ¬ scoringBy aid d
            end).
  { intros aid.
    apply elem_of_cons in Hget as [->|Hget];
      [|apply list_elem_of_singleton in Hget as ->].
    - by apply getLatestScoreByAdmin_general.
    - rewrite ServiceX_getLatestScoreByAdmin.
      by apply getLatestScoreByAdmin_general. }
  split; [done|].
  intros A B i1 i2 i3 d1 d2 d3 Hlog H1 H2 H3 HAB Ht12 Ht23.
  assert (Hl1 : comments fs !! (sid, i1) = Some d1) by (apply Hlog; auto).
  assert (Hl2 : comments fs !! (sid, i2) = Some d2) by (apply Hlog; auto).
  assert (Hl3 : comments fs !! (sid, i3) = Some d3) by (apply Hlog; auto).
  assert (HA2 : d_adminId d2 = A) by apply H2.
  assert (HA1 : d_adminId d1 = A) by apply H1.
  assert (HB3 : d_adminId d3 = B) by apply H3.
  split; [|split].
  - pose proof (Hgen A) as G.
    destruct (getLatest fs sid A) as [c|].
    + destruct G as (d & Hl & -> & Hsc & Hmax). f_equal.
      pose proof (Hmax _ _ Hl2 H2) as Hle. simpl in Hle.
      apply Hlog in Hl as [Heq|[Heq|Heq]]; injection Heq as Hi Hd; subst d.
      * lia.
      * simpl. by rewrite Hi.
      * destruct Hsc as [Hsc _]. congruence.
    + exfalso. by apply (G _ _ Hl2).
  - pose proof (Hgen B) as G.
    destruct (getLatest fs sid B) as [c|].
    + destruct G as (d & Hl & -> & Hsc & Hmax). f_equal.
      destruct Hsc as [Hsc _].
      apply Hlog in Hl as [Heq|[Heq|Heq]]; injection Heq as Hi Hd; subst d.
      * congruence.
      * congruence.
      * simpl. by rewrite Hi.
    + exfalso. by apply (G _ _ Hl3).
  - intros C HCA HCB.
    pose proof (Hgen C) as G.
    destruct (getLatest fs sid C) as [c|]; [|done].
    destruct G as (d & Hl & _ & [Hsc _] & _). exfalso.
    apply Hlog in Hl as [Heq|[Heq|Heq]]; injection Heq as Hi Hd; subst d;
      congruence.
Qed.

Lemma getLatestScoreByAdmin_spec_witness :
  (Service.getLatestScoreByAdmin demoLog "film1" "A"
     = Some (toComment ("c2", scoringDoc "film1" "A" 20 2))
   ∧ Service.getLatestScoreByAdmin demoLog "film1" "B"
     = Some (toComment ("c3", scoringDoc "film1" "B" 30 3))
   ∧ ∀ C, C ≠ "A" → C ≠ "B" →
          Service.getLatestScoreByAdmin demoLog "film1" C = None)
  ∧ (ServiceX.getLatestScoreByAdmin demoLog "film1" "A"
       = Some (toComment ("c2", scoringDoc "film1" "A" 20 2))
     ∧ ServiceX.getLatestScoreByAdmin demoLog "film1" "B"
       = Some (toComment ("c3", scoringDoc "film1" "B" 30 3))
     ∧ ∀ C, C ≠ "A" → C ≠ "B" →
            ServiceX.getLatestScoreByAdmin demoLog "film1" C = None).
Proof.
  assert (Hlog : ∀ cid d,
            comments demoLog !! ("film1", cid) = Some d
            ↔ (cid, d) = ("c1", scoringDoc "film1" "A" 10 1)
              ∨ (cid, d) = ("c2", scoringDoc "film1" "A" 20 2)
              ∨ (cid, d) = ("c3", scoringDoc "film1" "B" 30 3)).
  { intros cid d. unfold demoLog. simpl.
    rewrite !lookup_insert_Some, lookup_empty. split.
    + intros [[Hk <-]|[_ [[Hk <-]|[_ [[Hk <-]|[_ ?]]]]]]; [| | |done];
        injection Hk as <-; auto.
    + intros [Heq|[Heq|Heq]]; injection Heq as -> ->.
      * by left.
      * right. split; [done|]. by left.
      * right. split; [done|]. right. split; [done|]. by left. }
  split.
  - apply (proj2 (getLatestScoreByAdmin_spec demoLog "film1"
                    Service.getLatestScoreByAdmin
                    ltac:(apply list_elem_of_here) eq_refl)
             "A" "B" "c1" "c2" "c3" (scoringDoc "film1" "A" 10 1));
      [exact Hlog|by vm_compute|by vm_compute|by vm_compute|discriminate
      |reflexivity|reflexivity].
  - apply (proj2 (getLatestScoreByAdmin_spec demoLog "film1"
                    ServiceX.getLatestScoreByAdmin
                    ltac:(apply list_elem_of_further, list_elem_of_here)
                    eq_refl)
             "A" "B" "c1" "c2" "c3" (scoringDoc "film1" "A" 10 1));
      [exact Hlog|by vm_compute|by vm_compute|by vm_compute|discriminate
      |reflexivity|reflexivity].
Defined.

(** * Writes to the comment log *)

Lemma addDoc_Ok fs sid data cid fs' :
  addDoc fs sid data = Ok (cid, fs') →
  reachable fs = true
  ∧ comments fs !! (sid, cid) = None
  ∧ fs' = set_comments (<[(sid, cid) := data]> (comments fs)) fs.
Proof.
  unfold addDoc. destruct (reachable fs) eqn:E; [|done].
  intros [= <- <-]. split; [done|]. split; [apply fresh_unused|done].
Qed.

Lemma addDoc_reachable fs sid data :
  reachable fs = true → ∃ cid fs', addDoc fs sid data = Ok (cid, fs').
Proof. intros Hr. unfold addDoc. rewrite Hr. eauto. Qed.

Lemma addDoc_unreachable fs sid data :
  reachable fs = false → addDoc fs sid data = Throw "unavailable".
Proof. intros Hr. unfold addDoc. by rewrite Hr. Qed.

Lemma updateDoc_Ok fs sid cid upd fs' :
  updateDoc fs sid cid upd = Ok fs' →
  reachable fs = true
  ∧ ∃ d, comments fs !! (sid, cid) = Some d
         ∧ fs' = set_comments (<[(sid, cid) := upd d]> (comments fs)) fs.
Proof.
  unfold updateDoc. destruct (reachable fs) eqn:E; [|done].
  destruct (comments fs !! (sid, cid)) as [d|]; [|done].
  intros [= <-]. eauto.
Qed.

Lemma updateDoc_existing fs sid cid upd d :
  reachable fs = true → comments fs !! (sid, cid) = Some d →
  updateDoc fs sid cid upd
  = Ok (set_comments (<[(sid, cid) := upd d]> (comments fs)) fs).
Proof. intros Hr Hl. unfold updateDoc. by rewrite Hr, Hl. Qed.

Lemma updateDoc_missing fs sid cid upd :
  comments fs !! (sid, cid) = None → ∃ e, updateDoc fs sid cid upd = Throw e.
Proof.
  intros Hl. unfold updateDoc. rewrite Hl. destruct (reachable fs); eauto.
Qed.

(** Every operation is one append of a fresh, unedited, live document
    stamped with the server time, or one field update, or no write. *)
Lemma step_cases op fs :
  (∃ sid data, step op fs = applyAdd fs sid data
               ∧ appendKind op = Some (sid, d_type data)
               ∧ d_isEdited data = false ∧ d_isDeleted data = false
               ∧ d_createdAt data = clock fs)
  ∨ (∃ sid cid upd, step op fs = applyUpdate fs sid cid upd
                    ∧ appendKind op = None
                    ∧ ∀ d, docStep op (sid, cid) d (upd d))
  ∨ (comments (step op fs) = comments fs ∧ appendKind op = None).
Proof.
  destruct op; simpl.
  - left. unfold Service.addGeneralComment.
    match goal with |- context [addDoc fs ?s ?d] => exists s, d end.
    split; [unfold applyAdd; by destruct (addDoc _ _ _) as [[??]|] | done].
  - left. unfold ServiceX.addGeneralComment.
    match goal with |- context [addDoc fs ?s ?d] => exists s, d end.
    split; [unfold applyAdd; by destruct (addDoc _ _ _) as [[??]|] | done].
  - left. unfold Service.addScoringComment.
    match goal with |- context [addDoc fs ?s ?d] => exists s, d end.
    split; [unfold applyAdd; by destruct (addDoc _ _ _) as [[??]|] | done].
  - left. unfold ServiceX.addScoringComment.
    match goal with |- context [addDoc fs ?s ?d] => exists s, d end.
    split; [unfold applyAdd; by destruct (addDoc _ _ _) as [[??]|] | done].
  - left. unfold ServiceX.addStatusChangeComment.
    match goal with |- context [addDoc fs ?s ?d] => exists s, d end.
    split; [unfold applyAdd; by destruct (addDoc _ _ _) as [[??]|] | done].
  - left. unfold ServiceX.addFlagComment.
    match goal with |- context [addDoc fs ?s ?d] => exists s, d end.
    split; [unfold applyAdd; by destruct (addDoc _ _ _) as [[??]|] | done].
  - right. left. unfold Service.updateComment.
    match goal with |- context [updateDoc fs ?s ?c ?u] => exists s, c, u end.
    split; [unfold applyUpdate; by destruct (updateDoc _ _ _ _) |].
    split; [done|]. intros d. by apply ds_edit.
  - right. left. unfold ServiceX.updateComment.
    match goal with |- context [updateDoc fs ?s ?c ?u] => exists s, c, u end.
    split; [unfold applyUpdate; by destruct (updateDoc _ _ _ _) |].
    split; [done|]. intros d. by apply ds_editX.
  - right. left. unfold Service.deleteComment.
    match goal with |- context [updateDoc fs ?s ?c ?u] => exists s, c, u end.
    split; [unfold applyUpdate; by destruct (updateDoc _ _ _ _) |].
    split; [done|]. intros d. by apply ds_delete.
  - right. left. unfold ServiceX.deleteComment.
    match goal with |- context [updateDoc fs ?s ?c ?u] => exists s, c, u end.
    split; [unfold applyUpdate; by destruct (updateDoc _ _ _ _) |].
    split; [done|]. intros d. by apply ds_delete.
  - right. right. done.
Qed.

Lemma applyAdd_lookup fs sid data p :
  comments (applyAdd fs sid data) !! p = comments fs !! p
  ∨ (comments fs !! p = None ∧ p.1 = sid
     ∧ comments (applyAdd fs sid data) !! p = Some data).
Proof.
  unfold applyAdd. destruct (addDoc fs sid data) as [[cid fs']|] eqn:E;
    [|by left].
  apply addDoc_Ok in E as (_ & Hnone & ->). simpl.
  destruct (decide (p = (sid, cid))) as [->|Hne].
  - right. by rewrite lookup_insert_eq.
  - left. by rewrite lookup_insert_ne.
Qed.

Lemma applyUpdate_lookup fs sid cid upd p :
  comments (applyUpdate fs sid cid upd) !! p = comments fs !! p
  ∨ (p = (sid, cid)
     ∧ ∃ d, comments fs !! p = Some d
            ∧ comments (applyUpdate fs sid cid upd) !! p = Some (upd d)).
Proof.
  unfold applyUpdate. destruct (updateDoc fs sid cid upd) as [fs'|] eqn:E;
    [|by left].
  apply updateDoc_Ok in E as (_ & d & Hl & ->). simpl.
  destruct (decide (p = (sid, cid))) as [->|Hne].
  - right. split; [done|]. exists d. by rewrite lookup_insert_eq.
  - left. by rewrite lookup_insert_ne.
Qed.

(** No operation removes a document: one that is present stays, changed
    at most by an edit or a soft delete aimed at it. *)
Lemma step_preserves op fs p d :
  comments fs !! p = Some d →
  ∃ d', comments (step op fs) !! p = Some d' ∧ docStep op p d d'.
Proof.
  intros Hl.
  destruct (step_cases op fs)
    as [(sid & data & -> & _)|[(sid & cid & upd & -> & _ & Hupd)|[Hc _]]].
  - destruct (applyAdd_lookup fs sid data p) as [->|(Hn & _)];
      [|congruence]. exists d. split; [done|constructor].
  - destruct (applyUpdate_lookup fs sid cid upd p)
      as [->|(-> & d0 & Hl0 & ->)].
    + exists d. split; [done|constructor].
    + exists (upd d0). split; [done|]. rewrite Hl in Hl0.
      injection Hl0 as <-. apply Hupd.
  - rewrite Hc. exists d. split; [done|constructor].
Qed.

(** A document that appears with an operation was appended by it, with
    both flags off and the server time as [createdAt]. *)
Lemma step_new op fs p d' :
  comments fs !! p = None → comments (step op fs) !! p = Some d' →
  appendKind op = Some (p.1, d_type d')
  ∧ d_isEdited d' = false ∧ d_isDeleted d' = false
  ∧ d_createdAt d' = clock fs.
Proof.
  intros Hn Hl.
  destruct (step_cases op fs)
    as [(sid & data & Hs & Hk & He & Hd & Ht)
       |[(sid & cid & upd & Hs & _ & _)|[Hc _]]].
  - rewrite Hs in Hl.
    destruct (applyAdd_lookup fs sid data p) as [Heq|(_ & Hp & Heq)];
      rewrite Heq in Hl; [congruence|]. injection Hl as <-. by rewrite Hp.
  - rewrite Hs in Hl.
    destruct (applyUpdate_lookup fs sid cid upd p)
      as [Heq|(_ & d0 & Hl0 & _)]; [rewrite Heq in Hl|]; congruence.
  - rewrite Hc in Hl. congruence.
Qed.

Lemma docStep_isDeleted op p d d' :
  docStep op p d d' → d_isDeleted d = true → d_isDeleted d' = true.
Proof. by destruct 1. Qed.

Lemma exec_preserves ops : ∀ fs p d,
  comments fs !! p = Some d →
  ∃ d', comments (exec ops fs) !! p = Some d'
        ∧ (d_isDeleted d = true → d_isDeleted d' = true).
Proof.
  induction ops as [|op ops IH]; intros fs p d Hl; simpl.
  - eauto.
  - destruct (step_preserves op fs p d Hl) as (d1 & Hl1 & Hs).
    destruct (IH _ _ _ Hl1) as (d2 & Hl2 & Hd). exists d2.
    split; [done|]. intros H. apply Hd. by eapply docStep_isDeleted.
Qed.

(** * Listings *)

Lemma newerC_toComment x y : newer x y → newerC (toComment x) (toComment y).
Proof. done. Qed.

(** What any unlimited, ordered query gives once turned into comments. *)
Lemma listing_spec fs sid cs :
  queryLimit cs = None → existsb is_orderBy cs = true →
  NoDup (toComment <$> runQuery cs (collection fs sid))
  ∧ StronglySorted newerC (toComment <$> runQuery cs (collection fs sid))
  ∧ ∀ c, c ∈ toComment <$> runQuery cs (collection fs sid)
         ↔ ∃ d, comments fs !! (sid, c_id c) = Some d ∧ matches cs d = true
                ∧ c = toComment (c_id c, d).
Proof.
  intros Hlim Hord. split; [|split].
  - apply (NoDup_fmap_2 toComment), runQuery_NoDup, NoDup_collection.
  - eapply StronglySorted_fmap; [apply newerC_toComment|].
    by apply runQuery_sorted.
  - intros c. rewrite list_elem_of_fmap. split.
    + intros ([cid d] & -> & Hin).
      apply elem_of_runQuery_unlimited in Hin as [Hin Hm]; [|done].
      apply elem_of_collection in Hin. exists d. by simpl.
    + intros (d & Hl & Hm & Hc). exists (c_id c, d). split; [done|].
      apply elem_of_runQuery_unlimited; [done|]. split; [|done].
      by apply elem_of_collection.
Qed.

Lemma matches_live d :
  matches [where_isDeleted false; orderBy_createdAt_desc] d = true
  ↔ d_isDeleted d = false.
Proof.
  unfold matches. simpl. rewrite !andb_true_iff, !bool_decide_eq_true. tauto.
Qed.

Lemma matches_live_type k d :
  matches [where_type k; where_isDeleted false; orderBy_createdAt_desc] d = true
  ↔ d_type d = k ∧ d_isDeleted d = false.
Proof.
  unfold matches. simpl. rewrite !andb_true_iff, !bool_decide_eq_true. tauto.
Qed.

Lemma getComments_listing fs sid :
  reachable fs = true →
  ∃ l, Service.getComments fs sid = Ok l ∧ NoDup l ∧ StronglySorted newerC l
       ∧ ∀ c, c ∈ l ↔ liveComment fs sid c.
Proof.
  intros Hr. unfold Service.getComments, getDocs. rewrite Hr.
  eexists. split; [done|].
  destruct (listing_spec fs sid [where_isDeleted false; orderBy_createdAt_desc])
    as (Hn & Hs & Hin); [done..|].
  split; [done|]. split; [done|]. intros c. rewrite Hin. unfold liveComment.
  split; intros (d & Hl & Hm & Hc); exists d; (split; [done|]);
    (split; [|done]); by apply matches_live.
Qed.

Lemma getCommentsByType_listing fs sid k :
  reachable fs = true →
  ∃ l, Service.getCommentsByType fs sid k = Ok l ∧ NoDup l
       ∧ StronglySorted newerC l
       ∧ ∀ c, c ∈ l ↔ liveComment fs sid c ∧ c_type c = k.
Proof.
  intros Hr. unfold Service.getCommentsByType, getDocs. rewrite Hr.
  eexists. split; [done|].
  destruct (listing_spec fs sid
              [where_type k; where_isDeleted false; orderBy_createdAt_desc])
    as (Hn & Hs & Hin); [done..|].
  split; [done|]. split; [done|]. intros c. rewrite Hin. unfold liveComment.
  split.
  - intros (d & Hl & Hm & Hc). apply matches_live_type in Hm as [Hk Hd].
    split; [by exists d|]. rewrite Hc. done.
  - intros [(d & Hl & Hd & Hc) Hk]. exists d. split; [done|].
    split; [|done]. apply matches_live_type. split; [|done].
    rewrite Hc in Hk. done.
Qed.

(** The readers of the extended service differ from those of the service
    file in their error messages only. *)
Lemma ServiceX_getComments fs sid l :
  ServiceX.getComments fs sid = Ok l ↔ Service.getComments fs sid = Ok l.
Proof.
  unfold ServiceX.getComments, Service.getComments.
  by destruct (getDocs fs sid _).
Qed.

Lemma ServiceX_getScoringComments fs sid l :
  ServiceX.getScoringComments fs sid = Ok l
  ↔ Service.getCommentsByType fs sid scoring = Ok l.
Proof.
  unfold ServiceX.getScoringComments, Service.getCommentsByType.
  by destruct (getDocs fs sid _).
Qed.

Lemma getComments_Ok_live fs sid l c :
  Service.getComments fs sid = Ok l → c ∈ l → liveComment fs sid c.
Proof.
  intros Hg Hin. destruct (reachable fs) eqn:Hr.
  - destruct (getComments_listing fs sid Hr) as (l' & Hl' & _ & _ & Hiff).
    rewrite Hg in Hl'. injection Hl' as <-. by apply Hiff.
  - unfold Service.getComments, getDocs in Hg. by rewrite Hr in Hg.
Qed.

Lemma getCommentsByType_Ok_live fs sid k l c :
  Service.getCommentsByType fs sid k = Ok l → c ∈ l → liveComment fs sid c.
Proof.
  intros Hg Hin. destruct (reachable fs) eqn:Hr.
  - destruct (getCommentsByType_listing fs sid k Hr)
      as (l' & Hl' & _ & _ & Hiff).
    rewrite Hg in Hl'. injection Hl' as <-. by apply Hiff.
  - unfold Service.getCommentsByType, getDocs in Hg. by rewrite Hr in Hg.
Qed.

(** A sorted listing without repetition that contains an element newer
    than all the others starts with it. *)
Lemma newest_is_head (l : list ShortFilmComment) (c : ShortFilmComment) :
  StronglySorted newerC l → c ∈ l →
  (∀ c', c' ∈ l → c' = c ∨ (c_createdAt c' < c_createdAt c)%Z) →
  ∃ rest, l = c :: rest.
Proof.
  intros Hs Hin Hnew. destruct l as [|h rest]; [by apply elem_of_nil in Hin|].
  destruct (Hnew h) as [->|Hlt]; [apply elem_of_cons; by left|by exists rest|].
  exfalso. apply elem_of_cons in Hin as [->|Hin]; [lia|].
  apply StronglySorted_cons in Hs as [Hall _]. rewrite Forall_forall in Hall.
  specialize (Hall _ Hin). unfold newerC in Hall. lia.
Qed.

Lemma docStep_createdAt op p d d' :
  docStep op p d d' → d_createdAt d' = d_createdAt d.
Proof. by destruct 1. Qed.

Lemma step_clock op fs : (clock fs ≤ clock (step op fs))%Z.
Proof.
  destruct op; simpl;
    unfold Service.addGeneralComment, ServiceX.addGeneralComment,
      Service.addScoringComment, ServiceX.addScoringComment, ServiceX.addStatusChangeComment,
      ServiceX.addFlagComment, Service.updateComment, ServiceX.updateComment,
      Service.deleteComment, ServiceX.deleteComment, addDoc, updateDoc;
    repeat case_match; simplify_eq; simpl; lia.
Qed.

Lemma step_stamped op fs : stamped fs → stamped (step op fs).
Proof.
  intros Hst p d' Hl'. pose proof (step_clock op fs) as Hc.
  destruct (comments fs !! p) as [d|] eqn:Hl.
  - destruct (step_preserves op fs p d Hl) as (d1 & Hl1 & Hs).
    rewrite Hl' in Hl1. injection Hl1 as <-.
    rewrite (docStep_createdAt _ _ _ _ Hs). specialize (Hst _ _ Hl). lia.
  - destruct (step_new op fs p d' Hl Hl') as (_ & _ & _ & ->). done.
Qed.

(** It holds of every log that grew from the empty store. *)
Lemma exec_stamped ops : ∀ fs, stamped fs → stamped (exec ops fs).
Proof.
  induction ops as [|op ops IH]; intros fs Hst; simpl; [done|].
  by apply IH, step_stamped.
Qed.

Lemma emptyStore_stamped t online : stamped (emptyStore t online).
Proof. intros p d Hl. simpl in Hl. by rewrite lookup_empty in Hl. Qed.

(** The event an append records is in the listing of its kind, and no
    event of that listing is newer. *)
Lemma append_is_latest fs op sid k :
  reachable fs = true → appendKind op = Some (sid, k) → stamped fs →
  ∃ c l,
    comments fs !! (sid, c_id c) = None ∧ c_type c = k
    ∧ Service.getCommentsByType (step op fs) sid k = Ok l ∧ c ∈ l
    ∧ ∀ c', c' ∈ l → (c_createdAt c' ≤ c_createdAt c)%Z.
Proof.
  intros Hr Hk Hst.
  destruct (step_cases op fs)
    as [(sid' & data & Hs & Hk' & He & Hd & Ht)
       |[(? & ? & ? & _ & Hk' & _)|[_ Hk']]]; [|congruence..].
  rewrite Hk in Hk'. injection Hk' as <- ->.
  destruct (addDoc_reachable fs sid data Hr) as (cid & fs' & Hadd).
  unfold applyAdd in Hs. rewrite Hadd in Hs. rewrite Hs. clear Hs.
  apply addDoc_Ok in Hadd as (_ & Hnone & ->).
  destruct (getCommentsByType_listing
              (set_comments (<[(sid, cid):=data]> (comments fs)) fs) sid
              (d_type data) Hr) as (l & Hl & _ & _ & Hin).
  exists (toComment (cid, data)), l. simpl.
  repeat (split; [done|]). split.
  - apply Hin. split; [|done]. exists data. simpl.
    by rewrite lookup_insert_eq.
  - intros c' Hc'. apply Hin in Hc' as [(d' & Hl' & _ & ->) _]. simpl in *.
    destruct (decide (c_id c' = cid)) as [Heq|Hne].
    + rewrite Heq, lookup_insert_eq in Hl'. injection Hl' as <-. lia.
    + rewrite lookup_insert_ne in Hl' by congruence.
      rewrite Ht. by eapply Hst.
Qed.

(** With a clock that has moved on since the last write, the event an
    append records is the first element of the listings it belongs to. *)
Lemma append_is_newest fs op sid k :
  reachable fs = true → appendKind op = Some (sid, k) →
  (∀ cid d, comments fs !! (sid, cid) = Some d →
            (d_createdAt d < clock fs)%Z) →
  ∃ c rest rest',
    comments fs !! (sid, c_id c) = None
    ∧ c_type c = k ∧ c_isDeleted c = false ∧ c_isEdited c = false
    ∧ c_createdAt c = clock fs
    ∧ Service.getComments (step op fs) sid = Ok (c :: rest)
    ∧ Service.getCommentsByType (step op fs) sid k = Ok (c :: rest').
Proof.
  intros Hr Hk Hclock.
  destruct (step_cases op fs)
    as [(sid' & data & Hs & Hk' & He & Hd & Ht)
       |[(? & ? & ? & _ & Hk' & _)|[_ Hk']]]; [|congruence..].
  rewrite Hk in Hk'. injection Hk' as <- ->.
  destruct (addDoc_reachable fs sid data Hr) as (cid & fs' & Hadd).
  unfold applyAdd in Hs. rewrite Hadd in Hs. rewrite Hs. clear Hs.
  apply addDoc_Ok in Hadd as (_ & Hnone & ->).
  set (fs' := set_comments (<[(sid, cid):=data]> (comments fs)) fs).
  assert (Hr' : reachable fs' = true) by done.
  set (c := toComment (cid, data)).
  assert (Hlive : liveComment fs' sid c).
  { exists data. simpl. by rewrite lookup_insert_eq. }
  assert (Hnewest : ∀ c', liveComment fs' sid c' →
                          c' = c ∨ (c_createdAt c' < c_createdAt c)%Z).
  { intros c' (d' & Hl' & _ & Hc'). simpl in Hl'.
    destruct (decide (c_id c' = cid)) as [Heq|Hne].
    - left. rewrite Heq, lookup_insert_eq in Hl'. injection Hl' as <-.
      by rewrite Hc', Heq.
    - right. rewrite lookup_insert_ne in Hl' by congruence.
      rewrite Hc'. simpl. rewrite Ht. by eapply Hclock. }
  destruct (getComments_listing fs' sid Hr') as (l & Hl & _ & Hsl & Hin).
  destruct (getCommentsByType_listing fs' sid (d_type data) Hr')
    as (l' & Hl' & _ & Hsl' & Hin').
  destruct (newest_is_head l c Hsl) as [rest ->].
  { by apply Hin. }
  { intros c' Hc'. apply Hnewest. by apply Hin. }
  destruct (newest_is_head l' c Hsl') as [rest' ->].
  { by apply Hin'. }
  { intros c' Hc'. apply Hnewest. by apply Hin'. }
  exists c, rest, rest'. simpl. rewrite He, Hd. done.
Qed.

(** C6.  On a reachable store [getComments] returns, without repetition
    and newest first, exactly the events of the submission whose [isDeleted]
    is false, and [getCommentsByType] those among them of the given kind.
    An event that was soft-deleted is in no listing made afterwards,
    whatever happened in between.  In a log that grew from the empty store,
    the event an append has just recorded is in the listing of its kind and
    no event there is newer; it heads that listing and the listing of all
    events when the server clock is past the timestamps already in the
    log. *)
Theorem list_spec (fs : Firestore) (sid : string) :
  reachable fs = true →
  (∃ l, Service.getComments fs sid = Ok l ∧ NoDup l
        ∧ StronglySorted newerC l
        ∧ ∀ c, c ∈ l ↔ liveComment fs sid c)
  ∧ (∀ k, ∃ l, Service.getCommentsByType fs sid k = Ok l ∧ NoDup l
               ∧ StronglySorted newerC l
               ∧ ∀ c, c ∈ l ↔ liveComment fs sid c ∧ c_type c = k)
  ∧ (∀ cid fs1 ops l,
       Service.deleteComment fs sid cid = (Ok tt, fs1) →
       (Service.getComments (exec ops fs1) sid = Ok l
        ∨ ∃ k, Service.getCommentsByType (exec ops fs1) sid k = Ok l) →
       ∀ c, c ∈ l → c_id c ≠ cid)
  ∧ (∀ ops t online op k,
       fs = exec ops (emptyStore t online) →
       appendKind op = Some (sid, k) →
       ∃ c l,
         comments fs !! (sid, c_id c) = None ∧ c_type c = k
         ∧ Service.getCommentsByType (step op fs) sid k = Ok l ∧ c ∈ l
         ∧ ∀ c', c' ∈ l → (c_createdAt c' ≤ c_createdAt c)%Z)
  ∧ (∀ op k,
       appendKind op = Some (sid, k) →
       (∀ cid d, comments fs !! (sid, cid) = Some d →
                 (d_createdAt d < clock fs)%Z) →
       ∃ c rest rest',
         comments fs !! (sid, c_id c) = None ∧ c_type c = k
         ∧ Service.getComments (step op fs) sid = Ok (c :: rest)
         ∧ Service.getCommentsByType (step op fs) sid k = Ok (c :: rest')).
Proof.
  intros Hr. split; [by apply getComments_listing|].
  split; [intros k; by apply getCommentsByType_listing|]. split.
  - intros cid fs1 ops l Hdel Hlist c Hin Hid.
    unfold Service.deleteComment in Hdel.
    destruct (updateDoc fs sid cid _) as [fs'|] eqn:E; [|done].
    injection Hdel as <-. apply updateDoc_Ok in E as (_ & d & Hl & ->).
    assert (comments (set_comments
                        (<[(sid, cid):=deleteFields (serverTimestamp fs) d]>
                           (comments fs)) fs) !! (sid, cid)
            = Some (deleteFields (serverTimestamp fs) d)) as Hgone.
    { simpl. by rewrite lookup_insert_eq. }
    destruct (exec_preserves ops _ _ _ Hgone) as (d' & Hl' & Hdel').
    assert (liveComment
              (exec ops (set_comments
                           (<[(sid, cid):=deleteFields (serverTimestamp fs) d]>
                              (comments fs)) fs)) sid c) as (d2 & Hl2 & Hd2 & _).
    { destruct Hlist as [Hg|[k Hg]].
      - by eapply getComments_Ok_live.
      - by eapply getCommentsByType_Ok_live. }
    rewrite Hid, Hl' in Hl2. injection Hl2 as <-.
    rewrite Hdel' in Hd2; done.
  - split.
    { intros ops t online op k -> Hk.
      apply append_is_latest; [done..|].
      apply exec_stamped, emptyStore_stamped. }
    intros op k Hk Hclock.
    destruct (append_is_newest fs op sid k Hr Hk Hclock)
      as (c & rest & rest' & Hn & Hty & _ & _ & _ & Hg & Hgt).
    by exists c, rest, rest'.
Qed.

Lemma demoLog_before_clock cid d :
  comments demoLog !! ("film1", cid) = Some d → (d_createdAt d < clock demoLog)%Z.
Proof.
  unfold demoLog. simpl. rewrite !lookup_insert_Some, lookup_empty.
  intros [[_ <-]|[_ [[_ <-]|[_ [[_ <-]|[_ ?]]]]]]; done.
Qed.

Lemma list_spec_witness :
  (∃ l, Service.getComments demoLog "film1" = Ok l ∧ NoDup l
        ∧ StronglySorted newerC l
        ∧ ∀ c, c ∈ l ↔ liveComment demoLog "film1" c)
  ∧ (∀ l, Service.getComments
            (Service.deleteComment demoLog "film1" "c1").2 "film1" = Ok l →
          ∀ c, c ∈ l → c_id c ≠ "c1")
  ∧ (∃ c l,
       comments (exec demoHistory (emptyStore 1 true)) !! ("film1", c_id c)
         = None
       ∧ c_type c = scoring
       ∧ Service.getCommentsByType
           (step (op_addScoringComment "film1" "B" "Bob" "b@x"
                    (mkScores 1 2 3 4 5 15) None)
                 (exec demoHistory (emptyStore 1 true))) "film1" scoring
         = Ok l
       ∧ c ∈ l ∧ ∀ c', c' ∈ l → (c_createdAt c' ≤ c_createdAt c)%Z)
  ∧ (∃ c rest rest',
       comments demoLog !! ("film1", c_id c) = None ∧ c_type c = general
       ∧ Service.getComments
           (step (op_addGeneralComment "film1" "A" "Ann" "a@x" "hello" None)
                 demoLog) "film1" = Ok (c :: rest)
       ∧ Service.getCommentsByType
           (step (op_addGeneralComment "film1" "A" "Ann" "a@x" "hello" None)
                 demoLog) "film1" general = Ok (c :: rest')).
Proof.
  destruct (list_spec demoLog "film1" eq_refl) as (H1 & _ & H3 & _ & H4).
  split; [exact H1|]. split; [|split].
  - intros l Hl.
    apply (H3 "c1" (Service.deleteComment demoLog "film1" "c1").2 [] l).
    + by vm_compute.
    + by left.
  - destruct (list_spec (exec demoHistory (emptyStore 1 true)) "film1"
                ltac:(by vm_compute)) as (_ & _ & _ & H5' & _).
    apply (H5' demoHistory 1%Z true
               (op_addScoringComment "film1" "B" "Bob" "b@x"
                  (mkScores 1 2 3 4 5 15) None) scoring); reflexivity.
  - apply (H4 (op_addGeneralComment "film1" "A" "Ann" "a@x" "hello" None)
              general eq_refl).
    apply demoLog_before_clock.
Defined.

(** * Soft delete *)

Lemma ServiceX_deleteComment fs sid cid :
  ServiceX.deleteComment fs sid cid = Service.deleteComment fs sid cid.
Proof. reflexivity. Qed.

(** C4, as stated, fails: a second soft delete of the same event, made
    after the clock has moved, succeeds but leaves a stored event that
    differs from the one the first call left ([updatedAt] is 9, was 4).
    The two copies of [deleteComment] behave alike. *)
Lemma deleteComment_twice_changes_event :
  d_isDeleted <$> comments demoDeleted !! ("film1", "c1") = Some true
  ∧ (Service.deleteComment demoDeleted "film1" "c1").1 = Ok tt
  ∧ d_updatedAt <$> comments demoDeleted !! ("film1", "c1") = Some (Some 4%Z)
  ∧ d_updatedAt <$>
      comments (Service.deleteComment demoDeleted "film1" "c1").2
        !! ("film1", "c1") = Some (Some 9%Z)
  ∧ comments (Service.deleteComment demoDeleted "film1" "c1").2
      !! ("film1", "c1")
    ≠ comments demoDeleted !! ("film1", "c1")
  ∧ (ServiceX.deleteComment demoDeleted "film1" "c1").1 = Ok tt
  ∧ d_updatedAt <$>
      comments (ServiceX.deleteComment demoDeleted "film1" "c1").2
        !! ("film1", "c1") = Some (Some 9%Z)
  ∧ comments (ServiceX.deleteComment demoDeleted "film1" "c1").2
      !! ("film1", "c1")
    ≠ comments demoDeleted !! ("film1", "c1").
Proof.
  split; [by vm_compute|]. split; [by vm_compute|].
  split; [by vm_compute|]. split; [by vm_compute|].
  split; [|split; [by vm_compute|split; [by vm_compute|]]].
  - intros H. apply (f_equal (fmap d_updatedAt)) in H. vm_compute in H.
    discriminate.
  - intros H. apply (f_equal (fmap d_updatedAt)) in H. vm_compute in H.
    discriminate.
Qed.

(** C4, amended.  Soft-deleting an event that exists and is already
    deleted, with [deleteComment] of the service file or of the extended
    service, succeeds when the store is reachable; the event stays stored
    and deleted and changes in nothing but [updatedAt], which becomes the
    time of this call; no other event changes and the listings show the
    same events as before.  No operation of either service ever removes a
    stored event. *)
Theorem deleteComment_again (fs : Firestore) (sid cid : string)
    (d : DocumentData)
    (softDelete : Firestore → string → string → result unit * Firestore) :
  softDelete ∈ [Service.deleteComment; ServiceX.deleteComment] →
  reachable fs = true →
  comments fs !! (sid, cid) = Some d →
  d_isDeleted d = true →
  (∃ fs' d',
     softDelete fs sid cid = (Ok tt, fs')
     ∧ comments fs' !! (sid, cid) = Some d'
     ∧ sameButUpdatedAt d d' ∧ d_updatedAt d' = Some (clock fs)
     ∧ (∀ p, p ≠ (sid, cid) → comments fs' !! p = comments fs !! p)
     ∧ (∀ s c, liveComment fs' s c ↔ liveComment fs s c))
  ∧ (∀ op fs0 p, is_Some (comments fs0 !! p) →
                 is_Some (comments (step op fs0) !! p)).
Proof.
  intros Hdel Hr Hl Hd. split.
  - assert (Heq : softDelete fs sid cid = Service.deleteComment fs sid cid).
    { apply elem_of_cons in Hdel as [->|Hdel];
        [done|apply list_elem_of_singleton in Hdel as ->].
      apply ServiceX_deleteComment. }
    rewrite Heq. unfold Service.deleteComment.
    rewrite (updateDoc_existing _ _ _ _ d Hr Hl).
    eexists _, _. split; [done|]. simpl. rewrite lookup_insert_eq.
    split; [done|]. split; [unfold sameButUpdatedAt; simpl; by rewrite Hd|].
    split; [done|]. split.
    + intros p Hp. by rewrite lookup_insert_ne.
    + intros s c. unfold liveComment. simpl.
      destruct (decide ((s, c_id c) = (sid, cid))) as [Heq'|Hne].
      * rewrite Heq', lookup_insert_eq, Hl.
        split; intros (d0 & [= <-] & Hd0 & _); simpl in Hd0; congruence.
      * by rewrite lookup_insert_ne.
  - intros op fs0 p [d0 Hl0].
    destruct (step_preserves op fs0 p d0 Hl0) as (d1 & Hl1 & _). by exists d1.
Qed.

Lemma deleteComment_again_witness :
  (∃ fs' d',
     Service.deleteComment demoDeleted "film1" "c1" = (Ok tt, fs')
     ∧ comments fs' !! ("film1", "c1") = Some d'
     ∧ sameButUpdatedAt (deleteFields 4 (scoringDoc "film1" "A" 10 1)) d'
     ∧ d_updatedAt d' = Some (clock demoDeleted)
     ∧ (∀ p, p ≠ ("film1", "c1") →
             comments fs' !! p = comments demoDeleted !! p)
     ∧ (∀ s c, liveComment fs' s c ↔ liveComment demoDeleted s c))
  ∧ (∃ fs' d',
       ServiceX.deleteComment demoDeleted "film1" "c1" = (Ok tt, fs')
       ∧ comments fs' !! ("film1", "c1") = Some d'
       ∧ sameButUpdatedAt (deleteFields 4 (scoringDoc "film1" "A" 10 1)) d'
       ∧ d_updatedAt d' = Some (clock demoDeleted)
       ∧ (∀ p, p ≠ ("film1", "c1") →
               comments fs' !! p = comments demoDeleted !! p)
       ∧ (∀ s c, liveComment fs' s c ↔ liveComment demoDeleted s c)).
Proof.
  split.
  - apply (deleteComment_again demoDeleted "film1" "c1"
             (deleteFields 4 (scoringDoc "film1" "A" 10 1))
             Service.deleteComment).
    + apply list_elem_of_here.
    + reflexivity.
    + by vm_compute.
    + reflexivity.
  - apply (deleteComment_again demoDeleted "film1" "c1"
             (deleteFields 4 (scoringDoc "film1" "A" 10 1))
             ServiceX.deleteComment).
    + apply list_elem_of_further, list_elem_of_here.
    + reflexivity.
    + by vm_compute.
    + reflexivity.
Defined.

(** * Edit *)

(** C5, as stated, fails: editing an event that is already soft-deleted
    does not fail.  Both copies of [updateComment] succeed and replace the
    content of the deleted event. *)
Lemma updateComment_on_deleted_succeeds :
  d_isDeleted <$> comments demoDeleted !! ("film1", "c1") = Some true
  ∧ (Service.updateComment demoDeleted "film1" "c1" "changed").1 = Ok tt
  ∧ d_content <$>
      comments (Service.updateComment demoDeleted "film1" "c1" "changed").2
        !! ("film1", "c1") = Some "changed"
  ∧ (ServiceX.updateComment demoDeleted "film1" "c1" "changed" None).1 = Ok tt
  ∧ d_content <$>
      comments (ServiceX.updateComment demoDeleted "film1" "c1" "changed" None).2
        !! ("film1", "c1") = Some "changed".
Proof. repeat split; by vm_compute. Qed.

(** C5, amended.  [updateComment] fails when the target does not exist:
    it throws the plain error "Failed to update comment" and the store
    is as before.  On an event that exists, whether live or soft-deleted and
    whatever its kind, it succeeds when the store is reachable, and sets
    [content] to the new text, [isEdited] to true and [updatedAt] to the
    server time. *)
Theorem updateComment_spec (fs : Firestore) (sid cid content : string)
    (meta : option (gmap string MetaValue)) :
  (comments fs !! (sid, cid) = None →
     Service.updateComment fs sid cid content
       = (Throw "Failed to update comment", fs)
     ∧ ServiceX.updateComment fs sid cid content meta
       = (Throw "Failed to update comment", fs))
  ∧ (∀ d, reachable fs = true → comments fs !! (sid, cid) = Some d →
       (∃ fs' d', Service.updateComment fs sid cid content = (Ok tt, fs')
                  ∧ comments fs' !! (sid, cid) = Some d'
                  ∧ edited fs content d d')
       ∧ (∃ fs' d', ServiceX.updateComment fs sid cid content meta = (Ok tt, fs')
                    ∧ comments fs' !! (sid, cid) = Some d'
                    ∧ edited fs content d d')).
Proof.
  split.
  - intros Hn. unfold Service.updateComment, ServiceX.updateComment.
    destruct (updateDoc_missing fs sid cid
                (editFields content (serverTimestamp fs)) Hn) as [e ->].
    destruct (updateDoc_missing fs sid cid
                (editFieldsMeta content (default ∅ meta) (serverTimestamp fs))
                Hn) as [e' ->].
    done.
  - intros d Hr Hl. unfold Service.updateComment, ServiceX.updateComment.
    rewrite !(updateDoc_existing _ _ _ _ d Hr Hl). split.
    + eexists _, _. split; [done|]. simpl. rewrite lookup_insert_eq.
      split; [done|]. by unfold edited.
    + eexists _, _. split; [done|]. simpl. rewrite lookup_insert_eq.
      split; [done|]. by unfold edited.
Qed.

Lemma updateComment_spec_witness :
  (Service.updateComment demoLog "film1" "nope" "text"
     = (Throw "Failed to update comment", demoLog)
   ∧ ServiceX.updateComment demoLog "film1" "nope" "text" None
     = (Throw "Failed to update comment", demoLog))
  ∧ ((∃ fs' d', Service.updateComment demoLog "film1" "c1" "text" = (Ok tt, fs')
                ∧ comments fs' !! ("film1", "c1") = Some d'
                ∧ edited demoLog "text" (scoringDoc "film1" "A" 10 1) d')
     ∧ (∃ fs' d', ServiceX.updateComment demoLog "film1" "c1" "text" None
                    = (Ok tt, fs')
                  ∧ comments fs' !! ("film1", "c1") = Some d'
                  ∧ edited demoLog "text" (scoringDoc "film1" "A" 10 1) d')).
Proof.
  split.
  - apply (proj1 (updateComment_spec demoLog "film1" "nope" "text" None)).
    by vm_compute.
  - apply (proj2 (updateComment_spec demoLog "film1" "c1" "text" None)
             (scoringDoc "film1" "A" 10 1)).
    + reflexivity.
    + by vm_compute.
Defined.

(** * Appending a score *)

(** C7, as stated, fails: [addScoringComment], in both copies, accepts a
    payload with sub-scores out of range and a wrong total, and records
    it. *)
Lemma addScoringComment_accepts_invalid :
  (Service.addScoringComment demoStore "film1" "A" "Ann" "a@x" badScores None).1
    = Ok (fresh (usedIds demoStore))
  ∧ d_scores <$>
      comments (Service.addScoringComment demoStore "film1" "A" "Ann" "a@x"
                  badScores None).2 !! ("film1", fresh (usedIds demoStore))
    = Some (Some badScores)
  ∧ (ServiceX.addScoringComment demoStore "film1" "A" "Ann" "a@x" badScores
       None None).1 = Ok (fresh (usedIds demoStore))
  ∧ d_scores <$>
      comments (ServiceX.addScoringComment demoStore "film1" "A" "Ann" "a@x"
                  badScores None None).2 !! ("film1", fresh (usedIds demoStore))
    = Some (Some badScores)
  ∧ (technical badScores > 10)%Z ∧ (story badScores < 0)%Z
  ∧ totalScore badScores ≠ sumOfSubScores badScores.
Proof. repeat split; by vm_compute. Qed.

(** C7, amended.  [addScoringComment] checks neither the range of the
    sub-scores nor the total: whenever the store is reachable it records
    the payload exactly as it was passed and returns the new identifier.
    It rejects only when the store cannot be reached, and then nothing is
    recorded. *)
Theorem addScoringComment_spec (fs : Firestore)
    (sid aid aname aemail : string) (scores : ScoringCommentData)
    (content : option string) (meta : option (gmap string MetaValue)) :
  (reachable fs = true →
     (∃ cid fs', Service.addScoringComment fs sid aid aname aemail scores content
                   = (Ok cid, fs')
                 ∧ recorded fs fs' sid cid aid scores)
     ∧ (∃ cid fs', ServiceX.addScoringComment fs sid aid aname aemail scores
                     content meta = (Ok cid, fs')
                   ∧ recorded fs fs' sid cid aid scores))
  ∧ (reachable fs = false →
       Service.addScoringComment fs sid aid aname aemail scores content
         = (Throw "Failed to save scores and comment", fs)
       ∧ ServiceX.addScoringComment fs sid aid aname aemail scores content meta
         = (Throw "Failed to add scoring comment", fs)).
Proof.
  split; intros Hr.
  - unfold Service.addScoringComment, ServiceX.addScoringComment, addDoc.
    rewrite Hr. split.
    + eexists _, _. split; [done|]. split; [apply fresh_unused|].
      eexists. simpl. rewrite lookup_insert_eq. done.
    + eexists _, _. split; [done|]. split; [apply fresh_unused|].
      eexists. simpl. rewrite lookup_insert_eq. done.
  - unfold Service.addScoringComment, ServiceX.addScoringComment.
    by rewrite !addDoc_unreachable.
Qed.

Lemma addScoringComment_spec_witness :
  (∃ cid fs', Service.addScoringComment demoStore "film1" "A" "Ann" "a@x"
                badScores None = (Ok cid, fs')
              ∧ recorded demoStore fs' "film1" cid "A" badScores)
  ∧ (∃ cid fs', ServiceX.addScoringComment demoStore "film1" "A" "Ann" "a@x"
                  badScores None None = (Ok cid, fs')
                ∧ recorded demoStore fs' "film1" cid "A" badScores).
Proof.
  apply (proj1 (addScoringComment_spec demoStore "film1" "A" "Ann" "a@x"
                  badScores None None)).
  reflexivity.
Defined.

(** * Subscriptions *)

(** The subscription of the service file hands its callback the empty list
    when the stream fails. *)
Lemma Service_subscription_error {S : Type} (sid : string)
    (callback : list ShortFilmComment → S → S) (e : string) (s : S) :
  onError (Service.subscribeToComments sid callback) e s = callback [] s.
Proof. reflexivity. Qed.

(** The subscription of the extended service does not call it at all. *)
Lemma ServiceX_subscription_error {S : Type} (sid : string)
    (callback : list ShortFilmComment → S → S) (e : string) (s : S) :
  onError (ServiceX.subscribeToComments sid callback) e s = s.
Proof. reflexivity. Qed.

Lemma Service_deliver {S : Type} (sid : string)
    (callback : list ShortFilmComment → S → S) (fs : Firestore) (s : S) :
  deliver (Service.subscribeToComments sid callback) fs s
  = match Service.getComments fs sid with
    | Ok l => callback l s
    | Throw _ => callback [] s
    end.
Proof.
  unfold deliver, Service.getComments. simpl.
  by destruct (getDocs fs sid _).
Qed.

Lemma ServiceX_deliver {S : Type} (sid : string)
    (callback : list ShortFilmComment → S → S) (fs : Firestore) (s : S) :
  deliver (ServiceX.subscribeToComments sid callback) fs s
  = match Service.getComments fs sid with
    | Ok l => callback l s
    | Throw _ => s
    end.
Proof.
  unfold deliver, Service.getComments. simpl.
  by destruct (getDocs fs sid _).
Qed.

(** C8.  When the snapshot stream of a subscription made by the extended
    service (second part of [AdminApplicationDetailPage.tsx]) fails, the
    callback is not invoked: no call is recorded, and the page of
    [unnamed/part_000] keeps showing its loading state.  The subscription
    made by the service file invokes the callback once, with the empty
    list, and the page that uses it leaves its loading state. *)
Theorem ServiceX_subscription_error_drops_callback :
  onError (ServiceX.subscribeToComments "film1" recordCall)
          "permission-denied" [] = []
  ∧ onError (Service.subscribeToComments "film1" recordCall)
            "permission-denied" [] = [[]]
  ∧ PageX.loadingComments
      (onError (PageX.subscribe "film1" demoPageX).2 "permission-denied"
               (PageX.subscribe "film1" demoPageX).1) = true
  ∧ Page.loadingComments
      (onError (Page.subscribe "film1" demoPage).2 "permission-denied"
               (Page.subscribe "film1" demoPage).1) = false.
Proof. repeat split. Qed.

(** * Frame of an edit *)

(** C9, as stated, fails: [updateComment] of the extended service also
    writes [metadata].  Editing the text of a status-change event without
    passing metadata replaces the recorded old and new status by the empty
    mapping. *)
Lemma updateCommentX_overwrites_metadata :
  metadataAt demoStatus ("film1", fresh (usedIds demoStore)) "oldStatus"
    = Some (MString "pending")
  ∧ (ServiceX.updateComment demoStatus "film1" (fresh (usedIds demoStore))
       "typo fixed" None).1 = Ok tt
  ∧ metadataAt
      (ServiceX.updateComment demoStatus "film1" (fresh (usedIds demoStore))
         "typo fixed" None).2
      ("film1", fresh (usedIds demoStore)) "oldStatus" = None.
Proof. repeat split; by vm_compute. Qed.

(** C9, amended.  A successful [updateComment] changes only the target
    event, and on it only [content], [updatedAt] and [isEdited] and, in the
    extended service, [metadata], which becomes the mapping passed (the empty
    mapping when none is passed).  The submission, the author's id, name and
    email, the kind, the scores, [createdAt] and [isDeleted] stay as they
    were; in the service file [metadata] stays too.  A failed call changes
    nothing. *)
Theorem updateComment_frame (fs fs' : Firestore) (sid cid content : string)
    (meta : option (gmap string MetaValue)) (r : result unit) :
  (Service.updateComment fs sid cid content = (r, fs') →
     (r = Ok tt →
        ∃ d d', comments fs !! (sid, cid) = Some d
                ∧ comments fs' !! (sid, cid) = Some d'
                ∧ sameIdentity d d' ∧ d_metadata d' = d_metadata d
                ∧ ∀ p, p ≠ (sid, cid) → comments fs' !! p = comments fs !! p)
     ∧ (r ≠ Ok tt → fs' = fs))
  ∧ (ServiceX.updateComment fs sid cid content meta = (r, fs') →
       (r = Ok tt →
          ∃ d d', comments fs !! (sid, cid) = Some d
                  ∧ comments fs' !! (sid, cid) = Some d'
                  ∧ sameIdentity d d'
                  ∧ d_metadata d' = Some (default ∅ meta)
                  ∧ ∀ p, p ≠ (sid, cid) → comments fs' !! p = comments fs !! p)
       ∧ (r ≠ Ok tt → fs' = fs)).
Proof.
  split.
  - unfold Service.updateComment.
    destruct (updateDoc fs sid cid _) as [fs1|] eqn:E; intros [= <- <-].
    + apply updateDoc_Ok in E as (_ & d & Hl & ->). split; [|done].
      intros _. exists d. eexists. split; [done|]. simpl.
      rewrite lookup_insert_eq. split; [done|]. split; [done|].
      split; [done|]. intros p Hp. by rewrite lookup_insert_ne.
    + split; [done|]. done.
  - unfold ServiceX.updateComment.
    destruct (updateDoc fs sid cid _) as [fs1|] eqn:E; intros [= <- <-].
    + apply updateDoc_Ok in E as (_ & d & Hl & ->). split; [|done].
      intros _. exists d. eexists. split; [done|]. simpl.
      rewrite lookup_insert_eq. split; [done|]. split; [done|].
      split; [done|]. intros p Hp. by rewrite lookup_insert_ne.
    + split; [done|]. done.
Qed.

Lemma updateComment_frame_witness :
  (∃ d d', comments demoLog !! ("film1", "c1") = Some d
           ∧ comments (Service.updateComment demoLog "film1" "c1" "text").2
               !! ("film1", "c1") = Some d'
           ∧ sameIdentity d d' ∧ d_metadata d' = d_metadata d
           ∧ ∀ p, p ≠ ("film1", "c1") →
                  comments (Service.updateComment demoLog "film1" "c1" "text").2
                    !! p = comments demoLog !! p)
  ∧ (∃ d d', comments demoLog !! ("film1", "c1") = Some d
             ∧ comments
                 (ServiceX.updateComment demoLog "film1" "c1" "text" None).2
                 !! ("film1", "c1") = Some d'
             ∧ sameIdentity d d' ∧ d_metadata d' = Some (default ∅ None)
             ∧ ∀ p, p ≠ ("film1", "c1") →
                    comments
                      (ServiceX.updateComment demoLog "film1" "c1" "text" None).2
                      !! p = comments demoLog !! p).
Proof.
  split.
  - apply (proj1 (proj1 (updateComment_frame demoLog
                           (Service.updateComment demoLog "film1" "c1" "text").2
                           "film1" "c1" "text" None (Ok tt))
                    ltac:(by vm_compute))).
    reflexivity.
  - apply (proj1 (proj2 (updateComment_frame demoLog
                           (ServiceX.updateComment demoLog "film1" "c1" "text"
                              None).2
                           "film1" "c1" "text" None (Ok tt))
                    ltac:(by vm_compute))).
    reflexivity.
Defined.

(** * Flags of an event over its life *)

Lemma exec_isEdited ops : ∀ fs p d',
  comments (exec ops fs) !! p = Some d' → d_isEdited d' = true →
  (∃ d, comments fs !! p = Some d ∧ d_isEdited d = true)
  ∨ (∃ op, op ∈ ops ∧ editTarget op = Some p).
Proof.
  induction ops as [|op ops IH]; intros fs p d' Hl He; simpl in Hl.
  - left. by exists d'.
  - destruct (IH _ _ _ Hl He) as [(d1 & Hl1 & He1)|(op' & Hin & Ht)].
    + destruct (comments fs !! p) as [d|] eqn:Hl0.
      * destruct (step_preserves op fs p d Hl0) as (d1' & Hl1' & Hs).
        rewrite Hl1 in Hl1'. injection Hl1' as <-.
        destruct Hs as [d|d content now Ht|d content meta now Ht|d now Ht].
        -- left. by exists d.
        -- right. exists op. split; [apply elem_of_cons; by left|done].
        -- right. exists op. split; [apply elem_of_cons; by left|done].
        -- left. by exists d.
      * apply (step_new op fs p d1 Hl0) in Hl1 as (_ & Hf & _). congruence.
    + right. exists op'. split; [apply elem_of_cons; by right|done].
Qed.

Lemma exec_isDeleted ops : ∀ fs p d',
  comments (exec ops fs) !! p = Some d' → d_isDeleted d' = true →
  (∃ d, comments fs !! p = Some d ∧ d_isDeleted d = true)
  ∨ (∃ op, op ∈ ops ∧ deleteTarget op = Some p).
Proof.
  induction ops as [|op ops IH]; intros fs p d' Hl He; simpl in Hl.
  - left. by exists d'.
  - destruct (IH _ _ _ Hl He) as [(d1 & Hl1 & He1)|(op' & Hin & Ht)].
    + destruct (comments fs !! p) as [d|] eqn:Hl0.
      * destruct (step_preserves op fs p d Hl0) as (d1' & Hl1' & Hs).
        rewrite Hl1 in Hl1'. injection Hl1' as <-.
        destruct Hs as [d|d content now Ht|d content meta now Ht|d now Ht].
        -- left. by exists d.
        -- left. by exists d.
        -- left. by exists d.
        -- right. exists op. split; [apply elem_of_cons; by left|done].
      * apply (step_new op fs p d1 Hl0) in Hl1 as (_ & _ & Hf & _).
        congruence.
    + right. exists op'. split; [apply elem_of_cons; by right|done].
Qed.

(** An append on a reachable store records one new event, and that event
    is in the listing and in what a subscription delivers next. *)
Lemma append_visible fs op sid k :
  reachable fs = true → appendKind op = Some (sid, k) →
  ∃ c l,
    comments fs !! (sid, c_id c) = None
    ∧ c_type c = k ∧ c_isEdited c = false ∧ c_isDeleted c = false
    ∧ Service.getComments (step op fs) sid = Ok l ∧ c ∈ l.
Proof.
  intros Hr Hk.
  destruct (step_cases op fs)
    as [(sid' & data & Hs & Hk' & He & Hd & Ht)
       |[(? & ? & ? & _ & Hk' & _)|[_ Hk']]]; [|congruence..].
  rewrite Hk in Hk'. injection Hk' as <- ->.
  destruct (addDoc_reachable fs sid data Hr) as (cid & fs' & Hadd).
  unfold applyAdd in Hs. rewrite Hadd in Hs. rewrite Hs. clear Hs.
  apply addDoc_Ok in Hadd as (_ & Hnone & ->).
  destruct (getComments_listing
              (set_comments (<[(sid, cid):=data]> (comments fs)) fs) sid Hr)
    as (l & Hl & _ & _ & Hin).
  exists (toComment (cid, data)), l. simpl. rewrite He, Hd.
  repeat (split; [done|]). apply Hin. exists data. simpl.
  by rewrite lookup_insert_eq.
Qed.

(** C10.  Each of the six append functions ([addGeneralComment] and
    [addScoringComment] of both services, [addStatusChangeComment],
    [addFlagComment]) stores, when the store is reachable, one new event
    with [isEdited] and [isDeleted] false; and whatever an operation of
    either service adds to the log has both flags false.  Hence, in a log
    that grew from the empty store, an event with [isEdited] true was the
    target of an earlier [updateComment] and an event with [isDeleted] true
    the target of an earlier [deleteComment]; and the event just appended is
    in the listing of its submission and in the list the subscriptions of
    both services pass to their callback. *)
Theorem append_flags_spec :
  (∀ fs sid aid aname aemail content meta scores text old new flagged reason,
     reachable fs = true →
     Forall (λ r : result string * Firestore,
               ∃ cid d, r.1 = Ok cid
                        ∧ comments fs !! (sid, cid) = None
                        ∧ comments r.2 !! (sid, cid) = Some d
                        ∧ d_isEdited d = false ∧ d_isDeleted d = false)
       [Service.addGeneralComment fs sid aid aname aemail content meta;
        ServiceX.addGeneralComment fs sid aid aname aemail content meta;
        Service.addScoringComment fs sid aid aname aemail scores text;
        ServiceX.addScoringComment fs sid aid aname aemail scores text meta;
        ServiceX.addStatusChangeComment fs sid aid aname aemail old new
          reason;
        ServiceX.addFlagComment fs sid aid aname aemail flagged reason])
  ∧ (∀ op fs p d,
     comments fs !! p = None → comments (step op fs) !! p = Some d →
     appendKind op = Some (p.1, d_type d)
     ∧ d_isEdited d = false ∧ d_isDeleted d = false)
  ∧ (∀ ops t online p d,
       comments (exec ops (emptyStore t online)) !! p = Some d →
       (d_isEdited d = true → ∃ op, op ∈ ops ∧ editTarget op = Some p)
       ∧ (d_isDeleted d = true → ∃ op, op ∈ ops ∧ deleteTarget op = Some p))
  ∧ (∀ op fs sid k,
       reachable fs = true → appendKind op = Some (sid, k) →
       ∃ c l,
         comments fs !! (sid, c_id c) = None
         ∧ c_type c = k ∧ c_isEdited c = false ∧ c_isDeleted c = false
         ∧ Service.getComments (step op fs) sid = Ok l
         ∧ ServiceX.getComments (step op fs) sid = Ok l
         ∧ c ∈ l
         ∧ ∀ (S : Type) (callback : list ShortFilmComment → S → S) (s : S),
             deliver (Service.subscribeToComments sid callback) (step op fs) s
               = callback l s
             ∧ deliver (ServiceX.subscribeToComments sid callback)
                       (step op fs) s = callback l s).
Proof.
  split; [|split; [|split]].
  - intros fs sid aid aname aemail content meta scores text old new flagged
      reason Hr.
    assert (Hadd : ∀ data msg,
              d_isEdited data = false → d_isDeleted data = false →
              ∃ cid d,
                (match addDoc fs sid data with
                 | Ok (id, fs') => (Ok id, fs')
                 | Throw _ => (Throw msg, fs)
                 end).1 = Ok cid
                ∧ comments fs !! (sid, cid) = None
                ∧ comments (match addDoc fs sid data with
                            | Ok (id, fs') => (Ok id, fs')
                            | Throw _ => (Throw msg, fs)
                            end).2 !! (sid, cid) = Some d
                ∧ d_isEdited d = false ∧ d_isDeleted d = false).
    { intros data msg He Hd.
      destruct (addDoc_reachable fs sid data Hr) as (cid & fs' & Hadd).
      rewrite Hadd. apply addDoc_Ok in Hadd as (_ & Hn & ->).
      exists cid, data. simpl. by rewrite lookup_insert_eq. }
    repeat apply Forall_cons_2; [..|apply Forall_nil_2]; by apply Hadd.
  - intros op fs p d Hn Hl.
    destruct (step_new op fs p d Hn Hl) as (Hk & He & Hd & _). done.
  - intros ops t online p d Hl. split; intros Hf.
    + destruct (exec_isEdited ops _ p d Hl Hf) as [(d0 & Hl0 & _)|H]; [|done].
      simpl in Hl0. by rewrite lookup_empty in Hl0.
    + destruct (exec_isDeleted ops _ p d Hl Hf) as [(d0 & Hl0 & _)|H]; [|done].
      simpl in Hl0. by rewrite lookup_empty in Hl0.
  - intros op fs sid k Hr Hk.
    destruct (append_visible fs op sid k Hr Hk)
      as (c & l & Hn & Hty & He & Hd & Hg & Hin).
    exists c, l. repeat (split; [done|]). split.
    { unfold ServiceX.getComments. unfold Service.getComments in Hg.
      destruct (getDocs (step op fs) sid _); [done|discriminate]. }
    split; [done|]. intros S callback s.
    by rewrite Service_deliver, ServiceX_deliver, Hg.
Qed.

Lemma append_flags_spec_witness :
  (∃ cid d,
     (ServiceX.addGeneralComment demoLog "film1" "B" "Bob" "b@x" "hello"
        None).1 = Ok cid
     ∧ comments demoLog !! ("film1", cid) = None
     ∧ comments (ServiceX.addGeneralComment demoLog "film1" "B" "Bob" "b@x"
                   "hello" None).2 !! ("film1", cid) = Some d
     ∧ d_isEdited d = false ∧ d_isDeleted d = false)
  ∧ ∃ c l,
    comments demoLog !! ("film1", c_id c) = None
    ∧ c_type c = flag ∧ c_isEdited c = false ∧ c_isDeleted c = false
    ∧ Service.getComments
        (step (op_addFlagComment "film1" "B" "Bob" "b@x" true (Some "dup"))
              demoLog) "film1" = Ok l
    ∧ ServiceX.getComments
        (step (op_addFlagComment "film1" "B" "Bob" "b@x" true (Some "dup"))
              demoLog) "film1" = Ok l
    ∧ c ∈ l
    ∧ ∀ (S : Type) (callback : list ShortFilmComment → S → S) (s : S),
        deliver (Service.subscribeToComments "film1" callback)
          (step (op_addFlagComment "film1" "B" "Bob" "b@x" true (Some "dup"))
                demoLog) s = callback l s
        ∧ deliver (ServiceX.subscribeToComments "film1" callback)
            (step (op_addFlagComment "film1" "B" "Bob" "b@x" true (Some "dup"))
                  demoLog) s = callback l s.
Proof.
  split.
  - pose proof (proj1 append_flags_spec demoLog "film1" "B" "Bob" "b@x"
                  "hello" None (mkScores 1 1 1 1 1 5) None "pending"
                  "approved" true None eq_refl) as H.
    apply Forall_cons_1 in H as [_ H]. apply Forall_cons_1 in H as [H _].
    exact H.
  - apply (proj2 (proj2 (proj2 append_flags_spec))
             (op_addFlagComment "film1" "B" "Bob" "b@x" true (Some "dup"))
             demoLog "film1" flag); reflexivity.
Defined.

(** * Appending and reading back *)

(** What a successful [addDoc] of a live document means for the store and
    for the listing of its collection. *)
Lemma addDoc_listed fs sid data cid fs' :
  addDoc fs sid data = Ok (cid, fs') → d_isDeleted data = false →
  comments fs !! (sid, cid) = None
  ∧ comments fs' !! (sid, cid) = Some data
  ∧ (∀ p, p ≠ (sid, cid) → comments fs' !! p = comments fs !! p)
  ∧ ∃ l, Service.getComments fs' sid = Ok l ∧ toComment (cid, data) ∈ l.
Proof.
  intros Hadd Hd. apply addDoc_Ok in Hadd as (Hr & Hn & ->).
  split; [done|]. simpl. rewrite lookup_insert_eq. split; [done|].
  split; [intros p Hp; by rewrite lookup_insert_ne|].
  destruct (getComments_listing
              (set_comments (<[(sid, cid):=data]> (comments fs)) fs) sid Hr)
    as (l & Hl & _ & _ & Hin).
  exists l. split; [done|]. apply Hin. exists data. simpl.
  by rewrite lookup_insert_eq.
Qed.

(** X1.  A general comment added on a reachable store gets an identifier
    no event had, leaves every other event as it was, and is read back by
    [getComments] with the author, text and metadata that were passed (the
    empty mapping when none was), the server time as [createdAt], no
    [updatedAt] and both flags off.  Both copies of the service do the same.
    On an unreachable store the call throws and nothing is stored. *)
Theorem addGeneralComment_roundtrip (fs : Firestore)
    (sid aid aname aemail content : string)
    (meta : option (gmap string MetaValue)) :
  ServiceX.addGeneralComment fs sid aid aname aemail content meta
    = Service.addGeneralComment fs sid aid aname aemail content meta
  ∧ (reachable fs = true →
       ∃ cid fs' l,
         Service.addGeneralComment fs sid aid aname aemail content meta
           = (Ok cid, fs')
         ∧ comments fs !! (sid, cid) = None
         ∧ (∀ p, p ≠ (sid, cid) → comments fs' !! p = comments fs !! p)
         ∧ Service.getComments fs' sid = Ok l
         ∧ mkComment cid sid aid aname aemail content general None
             (Some (default ∅ meta)) (clock fs) None false false ∈ l)
  ∧ (reachable fs = false →
       Service.addGeneralComment fs sid aid aname aemail content meta
         = (Throw "Failed to add comment", fs)).
Proof.
  split; [done|]. split; intros Hr.
  - unfold Service.addGeneralComment.
    destruct (addDoc_reachable fs sid
                (mkDoc sid aid aname aemail content general None
                   (Some (default ∅ meta)) (serverTimestamp fs) None false
                   false) Hr) as (cid & fs' & Hadd).
    rewrite Hadd.
    destruct (addDoc_listed _ _ _ _ _ Hadd eq_refl)
      as (Hn & _ & Hframe & l & Hl & Hin).
    by exists cid, fs', l.
  - unfold Service.addGeneralComment. by rewrite addDoc_unreachable.
Qed.

Lemma addGeneralComment_roundtrip_witness :
  ∃ cid fs' l,
    Service.addGeneralComment demoLog "film1" "B" "Bob" "b@x" "nice" None
      = (Ok cid, fs')
    ∧ comments demoLog !! ("film1", cid) = None
    ∧ (∀ p, p ≠ ("film1", cid) → comments fs' !! p = comments demoLog !! p)
    ∧ Service.getComments fs' "film1" = Ok l
    ∧ mkComment cid "film1" "B" "Bob" "b@x" "nice" general None
        (Some (default ∅ None)) (clock demoLog) None false false ∈ l.
Proof.
  apply (proj1 (proj2 (addGeneralComment_roundtrip demoLog "film1" "B" "Bob"
                         "b@x" "nice" None))).
  reflexivity.
Defined.

(** X2.  [addFlagComment] records the flag and the reason in the metadata
    whatever the flag is, but writes the reason into the text only when the
    application is flagged: unflagging with a reason gives the bare text
    "Application unflagged.", and flagging without a reason (or with an
    empty one) gives "Application flagged. " with nothing after the space
    and a null reason. *)
Theorem addFlagComment_text_and_metadata (fs : Firestore)
    (sid aid aname aemail : string) (flagged : bool) (reason : option string) :
  reachable fs = true →
  ∃ cid fs' d,
    ServiceX.addFlagComment fs sid aid aname aemail flagged reason
      = (Ok cid, fs')
    ∧ comments fs !! (sid, cid) = None
    ∧ comments fs' !! (sid, cid) = Some d
    ∧ d_type d = flag ∧ d_scores d = None
    ∧ metadataAt fs' (sid, cid) "flagged" = Some (MBool flagged)
    ∧ metadataAt fs' (sid, cid) "reason" = Some (reasonOrNull reason)
    ∧ (flagged = false → d_content d = "Application unflagged.")
    ∧ (flagged = true → truthy reason = false →
         d_content d = "Application flagged. "
         ∧ metadataAt fs' (sid, cid) "reason" = Some MNull)
    ∧ (∀ r, flagged = true → reason = Some r → r ≠ EmptyString →
         d_content d = "Application flagged. Reason: " +:+ r
         ∧ metadataAt fs' (sid, cid) "reason" = Some (MString r)).
Proof.
  intros Hr. unfold ServiceX.addFlagComment, addDoc. rewrite Hr.
  eexists _, _, _. split; [done|]. split; [apply fresh_unused|].
  unfold metadataAt. simpl. rewrite lookup_insert_eq. simpl.
  split; [done|]. split; [done|]. split; [done|].
  split; [done|]. split; [done|]. split; [by intros ->|]. split.
  - intros -> Ht. rewrite Ht. split; [done|].
    destruct reason as [r|]; [|done]. simpl in *.
    destruct (decide (r = EmptyString)) as [->|Hne]; [done|].
    rewrite bool_decide_eq_false_2 in Ht; done.
  - intros r -> -> Hne. simpl.
    rewrite bool_decide_eq_false_2 by done. simpl.
    destruct (decide (r = EmptyString)); done.
Qed.

Lemma addFlagComment_text_and_metadata_witness :
  ∃ cid fs' d,
    ServiceX.addFlagComment demoStore "film1" "A" "Ann" "a@x" false
      (Some "resolved") = (Ok cid, fs')
    ∧ comments demoStore !! ("film1", cid) = None
    ∧ comments fs' !! ("film1", cid) = Some d
    ∧ d_type d = flag ∧ d_scores d = None
    ∧ metadataAt fs' ("film1", cid) "flagged" = Some (MBool false)
    ∧ metadataAt fs' ("film1", cid) "reason"
      = Some (reasonOrNull (Some "resolved"))
    ∧ (false = false → d_content d = "Application unflagged.")
    ∧ (false = true → truthy (Some "resolved") = false →
         d_content d = "Application flagged. "
         ∧ metadataAt fs' ("film1", cid) "reason" = Some MNull)
    ∧ (∀ r, false = true → Some "resolved" = Some r → r ≠ EmptyString →
         d_content d = "Application flagged. Reason: " +:+ r
         ∧ metadataAt fs' ("film1", cid) "reason" = Some (MString r)).
Proof.
  apply (addFlagComment_text_and_metadata demoStore "film1" "A" "Ann" "a@x"
           false (Some "resolved")).
  reflexivity.
Defined.

(** * Soft delete and edit, and the listings *)

(** X3.  [deleteComment] on an existing event of a reachable store
    succeeds; the event stays stored with everything but [isDeleted] (now
    true) and [updatedAt] (now the server time) as before, and no other
    event and no submission document changes.  When the event does not exist
    or the store cannot be reached it throws "Failed to delete comment"
    and the store is as before. *)
Theorem deleteComment_spec (fs : Firestore) (sid cid : string) :
  (∀ d, reachable fs = true → comments fs !! (sid, cid) = Some d →
     ∃ fs' d',
       Service.deleteComment fs sid cid = (Ok tt, fs')
       ∧ comments fs' !! (sid, cid) = Some d'
       ∧ sameButDeletion d d' ∧ d_isDeleted d' = true
       ∧ d_updatedAt d' = Some (clock fs)
       ∧ (∀ p, p ≠ (sid, cid) → comments fs' !! p = comments fs !! p)
       ∧ submissions fs' = submissions fs)
  ∧ (comments fs !! (sid, cid) = None ∨ reachable fs = false →
       Service.deleteComment fs sid cid
         = (Throw "Failed to delete comment", fs)).
Proof.
  split.
  - intros d Hr Hl. unfold Service.deleteComment.
    rewrite (updateDoc_existing _ _ _ _ d Hr Hl).
    eexists _, _. split; [done|]. simpl. rewrite lookup_insert_eq.
    split; [done|]. split; [done|]. split; [done|]. split; [done|].
    split; [|done]. intros p Hp. by rewrite lookup_insert_ne.
  - intros H. unfold Service.deleteComment, updateDoc.
    destruct H as [Hn| ->]; [|done]. rewrite Hn. by destruct (reachable fs).
Qed.

Lemma deleteComment_spec_witness :
  (∃ fs' d',
     Service.deleteComment demoLog "film1" "c2" = (Ok tt, fs')
     ∧ comments fs' !! ("film1", "c2") = Some d'
     ∧ sameButDeletion (scoringDoc "film1" "A" 20 2) d'
     ∧ d_isDeleted d' = true
     ∧ d_updatedAt d' = Some (clock demoLog)
     ∧ (∀ p, p ≠ ("film1", "c2") → comments fs' !! p = comments demoLog !! p)
     ∧ submissions fs' = submissions demoLog)
  ∧ Service.deleteComment demoLog "film1" "nope"
    = (Throw "Failed to delete comment", demoLog).
Proof.
  split.
  - apply (proj1 (deleteComment_spec demoLog "film1" "c2")
             (scoringDoc "film1" "A" 20 2)); [reflexivity|by vm_compute].
  - apply (proj2 (deleteComment_spec demoLog "film1" "nope")).
    left. by vm_compute.
Defined.

Lemma liveComment_after_delete fs sid cid d s c :
  comments fs !! (sid, cid) = Some d →
  liveComment
    (set_comments (<[(sid, cid) := deleteFields (serverTimestamp fs) d]>
                     (comments fs)) fs) s c
  ↔ liveComment fs s c ∧ (s, c_id c) ≠ (sid, cid).
Proof.
  intros Hl. unfold liveComment. simpl.
  destruct (decide ((s, c_id c) = (sid, cid))) as [Heq|Hne].
  - rewrite Heq, lookup_insert_eq. split.
    + by intros (d0 & [= <-] & Hd & _).
    + by intros [_ ?].
  - rewrite lookup_insert_ne by done. tauto.
Qed.

(** X4.  After a successful [deleteComment] the listings of the submission
    show the events they showed before except the deleted one, of any kind,
    and the listings of every other submission are as before. *)
Theorem deleteComment_then_list (fs fs' : Firestore) (sid cid : string)
    (l : list ShortFilmComment) :
  Service.deleteComment fs sid cid = (Ok tt, fs') →
  Service.getComments fs sid = Ok l →
  (∃ l', Service.getComments fs' sid = Ok l'
         ∧ ∀ c, c ∈ l' ↔ c ∈ l ∧ c_id c ≠ cid)
  ∧ (∀ k lk, Service.getCommentsByType fs sid k = Ok lk →
       ∃ lk', Service.getCommentsByType fs' sid k = Ok lk'
              ∧ ∀ c, c ∈ lk' ↔ c ∈ lk ∧ c_id c ≠ cid)
  ∧ (∀ s c, s ≠ sid → liveComment fs' s c ↔ liveComment fs s c).
Proof.
  intros Hdel Hg. unfold Service.deleteComment in Hdel.
  destruct (updateDoc fs sid cid _) as [fs1|] eqn:E; [|done].
  injection Hdel as <-. apply updateDoc_Ok in E as (Hr & d & Hl & ->).
  set (fs' := set_comments _ fs).
  assert (Hr' : reachable fs' = true) by done.
  assert (Hlive : ∀ c, liveComment fs' sid c
                       ↔ liveComment fs sid c ∧ c_id c ≠ cid).
  { intros c. unfold fs'. rewrite (liveComment_after_delete _ _ _ d) by done.
    split; intros [? Hne]; (split; [done|]); congruence. }
  split; [|split].
  - destruct (getComments_listing fs sid Hr) as (l0 & Hl0 & _ & _ & Hin).
    rewrite Hg in Hl0. injection Hl0 as <-.
    destruct (getComments_listing fs' sid Hr') as (l' & Hl' & _ & _ & Hin').
    exists l'. split; [done|]. intros c. by rewrite Hin', Hlive, Hin.
  - intros k lk Hk.
    destruct (getCommentsByType_listing fs sid k Hr)
      as (l0 & Hl0 & _ & _ & Hin).
    rewrite Hk in Hl0. injection Hl0 as <-.
    destruct (getCommentsByType_listing fs' sid k Hr')
      as (l' & Hl' & _ & _ & Hin').
    exists l'. split; [done|]. intros c. rewrite Hin', Hlive, Hin. tauto.
  - intros s c Hs. unfold fs'.
    rewrite (liveComment_after_delete _ _ _ d) by done.
    split; [tauto|]. intros H. split; [done|]. congruence.
Qed.

Lemma deleteComment_then_list_witness :
  (∃ l', Service.getComments
           (Service.deleteComment demoLog "film1" "c2").2 "film1" = Ok l'
         ∧ ∀ c, c ∈ l' ↔ c ∈ listOf (Service.getComments demoLog "film1")
                          ∧ c_id c ≠ "c2")
  ∧ (∀ k lk, Service.getCommentsByType demoLog "film1" k = Ok lk →
       ∃ lk', Service.getCommentsByType
                (Service.deleteComment demoLog "film1" "c2").2 "film1" k
              = Ok lk'
              ∧ ∀ c, c ∈ lk' ↔ c ∈ lk ∧ c_id c ≠ "c2")
  ∧ (∀ s c, s ≠ "film1" →
       liveComment (Service.deleteComment demoLog "film1" "c2").2 s c
       ↔ liveComment demoLog s c).
Proof.
  apply (deleteComment_then_list demoLog
           (Service.deleteComment demoLog "film1" "c2").2 "film1" "c2"
           (listOf (Service.getComments demoLog "film1")));
    by vm_compute.
Defined.

Lemma toComment_editFields cid content now d :
  toComment (cid, editFields content now d)
  = editedComment content now (toComment (cid, d)).
Proof. reflexivity. Qed.

Lemma toComment_editFieldsMeta cid content meta now d :
  toComment (cid, editFieldsMeta content meta now d)
  = editedCommentX content meta now (toComment (cid, d)).
Proof. reflexivity. Qed.

(** The live comments after a field update that keeps [isDeleted]. *)
Lemma liveComment_after_update fs sid cid d upd c' :
  comments fs !! (sid, cid) = Some d →
  d_isDeleted (upd d) = d_isDeleted d →
  liveComment (set_comments (<[(sid, cid) := upd d]> (comments fs)) fs) sid c'
  ↔ (liveComment fs sid c' ∧ c_id c' ≠ cid)
    ∨ (d_isDeleted d = false ∧ c' = toComment (cid, upd d)).
Proof.
  intros Hl Hd. unfold liveComment. simpl.
  destruct (decide (c_id c' = cid)) as [Heq|Hne].
  - rewrite Heq, lookup_insert_eq. split.
    + intros (d0 & [= <-] & Hd0 & Hc). right. split; [congruence|done].
    + intros [[_ ?]|[Hd0 Hc]]; [done|]. exists (upd d).
      split; [done|]. split; [congruence|done].
  - rewrite lookup_insert_ne by congruence. split.
    + intros H. by left.
    + intros [[H _]|[_ Hc]]; [done|]. by rewrite Hc in Hne.
Qed.

(** X5.  After a successful [updateComment] the listing of the submission
    has the comments it had, the edited one replaced by itself with the new
    text, [isEdited] true and [updatedAt] the server time (and, in the
    extended service, the metadata passed); its [createdAt], and so its
    place among events of different times, is as before.  Editing a
    soft-deleted event changes no listing. *)
Theorem updateComment_then_list (fs fs' fsX' : Firestore)
    (sid cid content : string) (meta : option (gmap string MetaValue))
    (l : list ShortFilmComment) :
  Service.getComments fs sid = Ok l →
  Service.updateComment fs sid cid content = (Ok tt, fs') →
  ServiceX.updateComment fs sid cid content meta = (Ok tt, fsX') →
  (∃ l', Service.getComments fs' sid = Ok l'
         ∧ ∀ c', c' ∈ l' ↔ (c' ∈ l ∧ c_id c' ≠ cid)
                           ∨ ∃ c, c ∈ l ∧ c_id c = cid
                                  ∧ c' = editedComment content (clock fs) c)
  ∧ (∃ l', Service.getComments fsX' sid = Ok l'
           ∧ ∀ c', c' ∈ l' ↔ (c' ∈ l ∧ c_id c' ≠ cid)
                             ∨ ∃ c, c ∈ l ∧ c_id c = cid
                                    ∧ c' = editedCommentX content
                                             (default ∅ meta) (clock fs) c).
Proof.
  intros Hg Hu HuX.
  assert (Hgen : ∀ upd f,
            (∀ d, d_isDeleted (upd d) = d_isDeleted d) →
            (∀ i d, toComment (i, upd d) = f (toComment (i, d))) →
            ∀ fs1, updateDoc fs sid cid upd = Ok fs1 →
              ∃ l', Service.getComments fs1 sid = Ok l'
                    ∧ ∀ c', c' ∈ l' ↔ (c' ∈ l ∧ c_id c' ≠ cid)
                                      ∨ ∃ c, c ∈ l ∧ c_id c = cid ∧ c' = f c).
  { intros upd f Hdel Hf fs1 E.
    apply updateDoc_Ok in E as (Hr & d & Hl & ->).
    destruct (getComments_listing fs sid Hr) as (l0 & Hl0 & _ & _ & Hin).
    rewrite Hg in Hl0. injection Hl0 as <-.
    destruct (getComments_listing
                (set_comments (<[(sid, cid):=upd d]> (comments fs)) fs) sid Hr)
      as (l' & Hl' & _ & _ & Hin').
    exists l'. split; [done|]. intros c'.
    rewrite Hin', (liveComment_after_update _ _ _ d) by done.
    split.
    - intros [[Hlive Hne]|[Hd ->]].
      + left. split; [by apply Hin|done].
      + right. exists (toComment (cid, d)). split; [|by rewrite Hf].
        apply Hin. by exists d.
    - intros [[Hc Hne]|(c & Hc & Hid & ->)].
      + left. split; [by apply Hin|done].
      + right. apply Hin in Hc as (d0 & Hl0 & Hd0 & Hc0).
        rewrite Hid, Hl in Hl0. injection Hl0 as <-.
        split; [done|]. by rewrite Hc0, Hid, Hf. }
  split.
  - unfold Service.updateComment in Hu.
    destruct (updateDoc fs sid cid _) as [fs1|] eqn:E; [|done].
    injection Hu as <-.
    by apply (Hgen (editFields content (serverTimestamp fs))
                (editedComment content (clock fs))).
  - unfold ServiceX.updateComment in HuX.
    destruct (updateDoc fs sid cid _) as [fs1|] eqn:E; [|done].
    injection HuX as <-.
    by apply (Hgen (editFieldsMeta content (default ∅ meta)
                       (serverTimestamp fs))
                (editedCommentX content (default ∅ meta) (clock fs))).
Qed.

Lemma updateComment_then_list_witness :
  (∃ l', Service.getComments
           (Service.updateComment demoLog "film1" "c2" "text").2 "film1"
         = Ok l'
         ∧ ∀ c', c' ∈ l'
                 ↔ (c' ∈ listOf (Service.getComments demoLog "film1")
                    ∧ c_id c' ≠ "c2")
                   ∨ ∃ c, c ∈ listOf (Service.getComments demoLog "film1")
                          ∧ c_id c = "c2"
                          ∧ c' = editedComment "text" (clock demoLog) c)
  ∧ (∃ l', Service.getComments
             (ServiceX.updateComment demoLog "film1" "c2" "text" None).2
             "film1" = Ok l'
           ∧ ∀ c', c' ∈ l'
                   ↔ (c' ∈ listOf (Service.getComments demoLog "film1")
                      ∧ c_id c' ≠ "c2")
                     ∨ ∃ c, c ∈ listOf (Service.getComments demoLog "film1")
                            ∧ c_id c = "c2"
                            ∧ c' = editedCommentX "text" (default ∅ None)
                                     (clock demoLog) c).
Proof.
  apply (updateComment_then_list demoLog
           (Service.updateComment demoLog "film1" "c2" "text").2
           (ServiceX.updateComment demoLog "film1" "c2" "text" None).2
           "film1" "c2" "text" None
           (listOf (Service.getComments demoLog "film1")));
    by vm_compute.
Defined.

(** * The latest score, after writes *)

(** Where a document found after an operation comes from. *)
Lemma step_lookup_cases op fs p d' :
  comments (step op fs) !! p = Some d' →
  comments fs !! p = Some d'
  ∨ (comments fs !! p = None ∧ freshDoc fs p.1 d'
     ∧ appendKind op = Some (p.1, d_type d')
     ∧ appendAuthor op = Some (d_adminId d'))
  ∨ (∃ d, comments fs !! p = Some d
          ∧ ((∃ content, d' = editFields content (clock fs) d
                         ∧ editTarget op = Some p)
             ∨ (∃ content meta, d' = editFieldsMeta content meta (clock fs) d
                                ∧ editTarget op = Some p)
             ∨ (d' = deleteFields (clock fs) d ∧ deleteTarget op = Some p))).
Proof.
  assert (Hadd : ∀ sid data msg,
            d_submissionId data = sid → d_createdAt data = clock fs →
            d_updatedAt data = None → d_isEdited data = false →
            d_isDeleted data = false →
            (is_Some (d_scores data) ↔ d_type data = scoring) →
            appendKind op = Some (sid, d_type data) →
            appendAuthor op = Some (d_adminId data) →
            comments (match addDoc fs sid data with
                      | Ok (id, fs') => (Ok id, fs')
                      | Throw _ => (Throw msg, fs)
                      end).2 !! p = Some d' →
            comments fs !! p = Some d'
            ∨ (comments fs !! p = None ∧ freshDoc fs p.1 d'
               ∧ appendKind op = Some (p.1, d_type d')
               ∧ appendAuthor op = Some (d_adminId d'))
            ∨ (∃ d, comments fs !! p = Some d
                    ∧ ((∃ content, d' = editFields content (clock fs) d
                                   ∧ editTarget op = Some p)
                       ∨ (∃ content meta,
                            d' = editFieldsMeta content meta (clock fs) d
                            ∧ editTarget op = Some p)
                       ∨ (d' = deleteFields (clock fs) d
                          ∧ deleteTarget op = Some p)))).
  { intros sid data msg H1 H2 H3 H4 H5 H6 Hk Ha.
    destruct (addDoc fs sid data) as [[cid fs']|] eqn:E; simpl; [|by left].
    apply addDoc_Ok in E as (_ & Hn & ->). simpl.
    destruct (decide (p = (sid, cid))) as [->|Hne].
    - rewrite lookup_insert_eq. intros [= <-]. right. left. done.
    - rewrite lookup_insert_ne by done. by left. }
  assert (Hupd : ∀ sid cid upd msg,
            comments (match updateDoc fs sid cid upd with
                      | Ok fs' => (Ok tt, fs')
                      | Throw _ => (Throw msg, fs)
                      end).2 !! p = Some d' →
            comments fs !! p = Some d'
            ∨ (p = (sid, cid) ∧ ∃ d, comments fs !! p = Some d ∧ d' = upd d)).
  { intros sid cid upd msg.
    destruct (updateDoc fs sid cid upd) as [fs'|] eqn:E; simpl; [|by left].
    apply updateDoc_Ok in E as (_ & d & Hl & ->). simpl.
    destruct (decide (p = (sid, cid))) as [->|Hne].
    - rewrite lookup_insert_eq. intros [= <-]. right. split; [done|].
      by exists d.
    - rewrite lookup_insert_ne by done. by left. }
  destruct op; simpl.
  - apply Hadd; try done; simpl;
      first [split; [by intros [? ?]|done] | split; [done|by eexists]].
  - apply Hadd; try done; simpl;
      first [split; [by intros [? ?]|done] | split; [done|by eexists]].
  - apply Hadd; try done; simpl;
      first [split; [by intros [? ?]|done] | split; [done|by eexists]].
  - apply Hadd; try done; simpl;
      first [split; [by intros [? ?]|done] | split; [done|by eexists]].
  - apply Hadd; try done; simpl;
      first [split; [by intros [? ?]|done] | split; [done|by eexists]].
  - apply Hadd; try done; simpl;
      first [split; [by intros [? ?]|done] | split; [done|by eexists]].
  - intros H. apply Hupd in H as [H|[-> (d & Hl & ->)]]; [by left|].
    right. right. exists d. split; [done|]. left. by eexists.
  - intros H. apply Hupd in H as [H|[-> (d & Hl & ->)]]; [by left|].
    right. right. exists d. split; [done|]. right. left. by eexists _, _.
  - intros H. apply Hupd in H as [H|[-> (d & Hl & ->)]]; [by left|].
    right. right. exists d. split; [done|]. right. right. done.
  - intros H. apply Hupd in H as [H|[-> (d & Hl & ->)]]; [by left|].
    right. right. exists d. split; [done|]. right. right. done.
  - by left.
Qed.

Lemma latest_after_addDoc fs sid aid data cid fs' :
  addDoc fs sid data = Ok (cid, fs') → scoringBy aid data →
  d_createdAt data = clock fs →
  (∀ cid0 d0, comments fs !! (sid, cid0) = Some d0 →
              (d_createdAt d0 < clock fs)%Z) →
  Service.getLatestScoreByAdmin fs' sid aid = Some (toComment (cid, data)).
Proof.
  intros Hadd Hsc Ht Hold. apply addDoc_Ok in Hadd as (Hr & Hn & ->).
  set (fs' := set_comments _ fs).
  assert (Hnew : comments fs' !! (sid, cid) = Some data)
    by (simpl; by rewrite lookup_insert_eq).
  pose proof (getLatestScoreByAdmin_general fs' sid aid Hr) as G.
  destruct (Service.getLatestScoreByAdmin fs' sid aid) as [c|].
  - destruct G as (d & Hl & -> & _ & Hmax). f_equal.
    specialize (Hmax _ _ Hnew Hsc). simpl in Hl, Hmax.
    destruct (decide (c_id c = cid)) as [Heq|Hne].
    + rewrite Heq, lookup_insert_eq in Hl. injection Hl as <-.
      by rewrite Heq.
    + rewrite lookup_insert_ne in Hl by congruence.
      specialize (Hold _ _ Hl). lia.
  - exfalso. by apply (G _ _ Hnew).
Qed.

(** X6.  On a reachable store whose clock is past the timestamps of the
    submission's log, the score an admin has just added is what
    [getLatestScoreByAdmin] returns for that admin, with the scores as
    passed; its text is the comment passed or, when there is none or it is
    empty, "Scoring evaluation completed" in the service file and the
    empty string in the extended service. *)
Theorem addScoringComment_then_latest (fs : Firestore)
    (sid aid aname aemail : string) (scores : ScoringCommentData)
    (content : option string) (meta : option (gmap string MetaValue)) :
  reachable fs = true →
  (∀ cid d, comments fs !! (sid, cid) = Some d →
            (d_createdAt d < clock fs)%Z) →
  (∃ cid fs',
     Service.addScoringComment fs sid aid aname aemail scores content
       = (Ok cid, fs')
     ∧ Service.getLatestScoreByAdmin fs' sid aid
       = Some (mkComment cid sid aid aname aemail
                 (or_else content "Scoring evaluation completed") scoring
                 (Some scores) None (clock fs) None false false))
  ∧ (∃ cid fs',
       ServiceX.addScoringComment fs sid aid aname aemail scores content meta
         = (Ok cid, fs')
       ∧ ServiceX.getLatestScoreByAdmin fs' sid aid
         = Some (mkComment cid sid aid aname aemail
                   (or_else content EmptyString) scoring (Some scores)
                   (Some (default ∅ meta)) (clock fs) None false false)).
Proof.
  intros Hr Hold. split.
  - unfold Service.addScoringComment.
    destruct (addDoc_reachable fs sid
                (mkDoc sid aid aname aemail
                   (or_else content "Scoring evaluation completed") scoring
                   (Some scores) None (serverTimestamp fs) None false false)
                Hr) as (cid & fs' & Hadd).
    rewrite Hadd. exists cid, fs'. split; [done|].
    by rewrite (latest_after_addDoc _ _ aid _ _ _ Hadd).
  - unfold ServiceX.addScoringComment.
    destruct (addDoc_reachable fs sid
                (mkDoc sid aid aname aemail (or_else content EmptyString)
                   scoring (Some scores) (Some (default ∅ meta))
                   (serverTimestamp fs) None false false)
                Hr) as (cid & fs' & Hadd).
    rewrite Hadd. exists cid, fs'. split; [done|].
    rewrite ServiceX_getLatestScoreByAdmin.
    by rewrite (latest_after_addDoc _ _ aid _ _ _ Hadd).
Qed.

Lemma addScoringComment_then_latest_witness :
  (∃ cid fs',
     Service.addScoringComment demoLog "film1" "A" "Ann" "a@x"
       (mkScores 1 2 3 4 5 15) (Some EmptyString) = (Ok cid, fs')
     ∧ Service.getLatestScoreByAdmin fs' "film1" "A"
       = Some (mkComment cid "film1" "A" "Ann" "a@x"
                 (or_else (Some EmptyString) "Scoring evaluation completed")
                 scoring (Some (mkScores 1 2 3 4 5 15)) None (clock demoLog)
                 None false false))
  ∧ (∃ cid fs',
       ServiceX.addScoringComment demoLog "film1" "A" "Ann" "a@x"
         (mkScores 1 2 3 4 5 15) (Some EmptyString) None = (Ok cid, fs')
       ∧ ServiceX.getLatestScoreByAdmin fs' "film1" "A"
         = Some (mkComment cid "film1" "A" "Ann" "a@x"
                   (or_else (Some EmptyString) EmptyString) scoring
                   (Some (mkScores 1 2 3 4 5 15)) (Some (default ∅ None))
                   (clock demoLog) None false false)).
Proof.
  apply (addScoringComment_then_latest demoLog "film1" "A" "Ann" "a@x"
           (mkScores 1 2 3 4 5 15) (Some EmptyString) None).
  - reflexivity.
  - apply demoLog_before_clock.
Defined.

(** An append for another admin, another submission or another kind does
    not change the candidates of an admin. *)
Lemma candidate_after_foreign_append op fs sid aid k s cid d :
  appendKind op = Some (s, k) →
  (s ≠ sid ∨ k ≠ scoring ∨ appendAuthor op ≠ Some aid) →
  candidate (step op fs) sid aid cid d ↔ candidate fs sid aid cid d.
Proof.
  intros Hk Hforeign. unfold candidate. split.
  - intros [Hl Hsc]. split; [|done].
    destruct (step_lookup_cases op fs _ _ Hl)
      as [H|[(_ & _ & Hk' & Ha)|(d0 & _ & [(? & _ & Ht)|[(? & ? & _ & Ht)|[_ Ht]]])]];
      [done| |destruct op; done..].
    exfalso. rewrite Hk in Hk'. injection Hk' as -> ->.
    destruct Hsc as (Haid & Hty & _). simpl in *.
    destruct Hforeign as [?|[?|?]]; [done|done|congruence].
  - intros [Hl Hsc]. split; [|done].
    destruct (step_preserves op fs _ _ Hl) as (d1 & Hl1 & Hs).
    destruct Hs; [done|destruct op; done..].
Qed.

(** X7.  Appends by another admin, into another submission or of another
    kind leave an admin's latest score alone: when the answer of
    [getLatestScoreByAdmin] was null it stays null, and when it was an event
    strictly newer than the admin's other scores it stays that event. *)
Theorem getLatestScoreByAdmin_foreign_append (fs : Firestore) (op : Op)
    (sid aid s : string) (k : CommentType) :
  appendKind op = Some (s, k) →
  (s ≠ sid ∨ k ≠ scoring ∨ appendAuthor op ≠ Some aid) →
  (Service.getLatestScoreByAdmin fs sid aid = None →
     Service.getLatestScoreByAdmin (step op fs) sid aid = None)
  ∧ (∀ c, Service.getLatestScoreByAdmin fs sid aid = Some c →
       (∀ cid d, candidate fs sid aid cid d → cid ≠ c_id c →
                 (d_createdAt d < c_createdAt c)%Z) →
       Service.getLatestScoreByAdmin (step op fs) sid aid = Some c).
Proof.
  intros Hk Hforeign.
  assert (Hreach : reachable (step op fs) = reachable fs).
  { destruct op; try done; simpl;
      unfold Service.addGeneralComment, ServiceX.addGeneralComment,
        Service.addScoringComment, ServiceX.addScoringComment,
        ServiceX.addStatusChangeComment, ServiceX.addFlagComment, addDoc;
      by destruct (reachable fs) eqn:E. }
  assert (Hcand := candidate_after_foreign_append op fs sid aid k s).
  destruct (reachable fs) eqn:Hr.
  - pose proof (getLatestScoreByAdmin_general fs sid aid Hr) as G.
    pose proof (getLatestScoreByAdmin_general (step op fs) sid aid Hreach)
      as G'.
    split.
    + intros Hnone. rewrite Hnone in G.
      destruct (Service.getLatestScoreByAdmin (step op fs) sid aid) as [c'|];
        [|done].
      destruct G' as (d' & Hl' & _ & Hsc' & _). exfalso.
      assert (candidate fs sid aid (c_id c') d') as [Hl0 _]
        by (apply (Hcand _ _ Hk Hforeign); by split).
      by apply (G _ _ Hl0).
    + intros c Hsome Htop. rewrite Hsome in G.
      destruct G as (d & Hl & Hc & Hsc & _).
      assert (candidate (step op fs) sid aid (c_id c) d) as [Hl1 _]
        by (apply (Hcand _ _ Hk Hforeign); by split).
      destruct (Service.getLatestScoreByAdmin (step op fs) sid aid) as [c'|].
      * destruct G' as (d' & Hl' & Hc' & Hsc' & Hmax'). f_equal.
        specialize (Hmax' _ _ Hl1 Hsc).
        destruct (decide (c_id c' = c_id c)) as [Heq|Hne].
        -- rewrite Heq, Hl1 in Hl'. injection Hl' as <-.
           rewrite Hc', Hc, Heq. done.
        -- assert (candidate fs sid aid (c_id c') d') as Hcd
             by (apply (Hcand _ _ Hk Hforeign); by split).
           specialize (Htop _ _ Hcd Hne). rewrite Hc', Hc in *. simpl in *.
           lia.
      * exfalso. by apply (G' _ _ Hl1).
  - split.
    + intros _. unfold Service.getLatestScoreByAdmin, getDocs.
      by rewrite Hreach.
    + intros c Hsome. unfold Service.getLatestScoreByAdmin, getDocs in Hsome.
      by rewrite Hr in Hsome.
Qed.

Lemma getLatestScoreByAdmin_foreign_append_witness :
  Service.getLatestScoreByAdmin
    (step (op_addScoringComment "film1" "B" "Bob" "b@x"
             (mkScores 9 9 9 9 9 45) None) demoLog) "film1" "A"
  = Some (toComment ("c2", scoringDoc "film1" "A" 20 2)).
Proof.
  apply (proj2 (getLatestScoreByAdmin_foreign_append demoLog
                  (op_addScoringComment "film1" "B" "Bob" "b@x"
                     (mkScores 9 9 9 9 9 45) None)
                  "film1" "A" "film1" scoring eq_refl
                  ltac:(right; right; discriminate))).
  - by vm_compute.
  - intros cid d [Hl [Ha _]]. unfold demoLog in Hl. simpl in Hl.
    rewrite !lookup_insert_Some, lookup_empty in Hl.
    destruct Hl as [[Hk <-]|[_ [[Hk <-]|[_ [[Hk <-]|[_ ?]]]]]];
      [| | |done]; injection Hk as <-; simpl; intros Hne;
      [done|done|discriminate].
Defined.

(** X8.  After an admin's latest score is soft-deleted,
    [getLatestScoreByAdmin] answers with another of the admin's live scores,
    one that is the newest of those left, and with null when the deleted
    score was the only one. *)
Theorem getLatestScoreByAdmin_after_delete (fs fs' : Firestore)
    (sid aid : string) (c : ShortFilmComment) :
  Service.getLatestScoreByAdmin fs sid aid = Some c →
  Service.deleteComment fs sid (c_id c) = (Ok tt, fs') →
  match Service.getLatestScoreByAdmin fs' sid aid with
  | Some c' =>
      c_id c' ≠ c_id c
      ∧ (∃ d', candidate fs sid aid (c_id c') d' ∧ c' = toComment (c_id c', d'))
      ∧ (c_createdAt c' ≤ c_createdAt c)%Z
      ∧ ∀ cid d, candidate fs sid aid cid d → cid ≠ c_id c →
                 (d_createdAt d ≤ c_createdAt c')%Z
  | None => ∀ cid d, candidate fs sid aid cid d → cid = c_id c
  end.
Proof.
  intros Hsome Hdel.
  assert (Hr : reachable fs = true).
  { destruct (reachable fs) eqn:E; [done|].
    unfold Service.getLatestScoreByAdmin, getDocs in Hsome.
    by rewrite E in Hsome. }
  pose proof (getLatestScoreByAdmin_general fs sid aid Hr) as G.
  rewrite Hsome in G. destruct G as (d & Hl & Hc & Hsc & Hmax).
  unfold Service.deleteComment in Hdel.
  rewrite (updateDoc_existing _ _ _ _ d Hr Hl) in Hdel.
  injection Hdel as <-.
  set (fs' := set_comments _ fs).
  assert (Hcand : ∀ cid d0, candidate fs' sid aid cid d0
                            ↔ candidate fs sid aid cid d0 ∧ cid ≠ c_id c).
  { intros cid d0. unfold candidate, fs'. simpl.
    destruct (decide (cid = c_id c)) as [->|Hne].
    - rewrite lookup_insert_eq. split; [|by intros [_ ?]].
      intros [[= <-] (_ & _ & Hd)]. done.
    - rewrite lookup_insert_ne by congruence. tauto. }
  pose proof (getLatestScoreByAdmin_general fs' sid aid Hr) as G'.
  destruct (Service.getLatestScoreByAdmin fs' sid aid) as [c'|].
  - destruct G' as (d' & Hl' & Hc' & Hsc' & Hmax').
    assert (candidate fs sid aid (c_id c') d' ∧ c_id c' ≠ c_id c)
      as [[Hl0 Hsc0] Hne] by (apply Hcand; by split).
    split; [done|]. split; [by exists d'|]. split.
    + specialize (Hmax _ _ Hl0 Hsc0). by rewrite Hc'.
    + intros cid d0 Hcd Hne0.
      assert (candidate fs' sid aid cid d0) as [Hl1 Hsc1]
        by (by apply Hcand).
      apply (Hmax' _ _ Hl1 Hsc1).
  - intros cid d0 Hcd. destruct (decide (cid = c_id c)) as [|Hne]; [done|].
    exfalso. assert (candidate fs' sid aid cid d0) as [Hl1 Hsc1]
      by (by apply Hcand).
    by apply (G' _ _ Hl1).
Qed.

Lemma getLatestScoreByAdmin_after_delete_witness :
  match Service.getLatestScoreByAdmin
          (Service.deleteComment demoLog "film1" "c2").2 "film1" "A" with
  | Some c' =>
      c_id c' ≠ "c2"
      ∧ (∃ d', candidate demoLog "film1" "A" (c_id c') d'
               ∧ c' = toComment (c_id c', d'))
      ∧ (c_createdAt c' ≤ 2)%Z
      ∧ ∀ cid d, candidate demoLog "film1" "A" cid d → cid ≠ "c2" →
                 (d_createdAt d ≤ c_createdAt c')%Z
  | None => ∀ cid d, candidate demoLog "film1" "A" cid d → cid = "c2"
  end.
Proof.
  apply (getLatestScoreByAdmin_after_delete demoLog
           (Service.deleteComment demoLog "film1" "c2").2 "film1" "A"
           (toComment ("c2", scoringDoc "film1" "A" 20 2))); by vm_compute.
Defined.

(** X9.  A null answer of [getLatestScoreByAdmin] means that the store
    could not be reached or that the admin has no live score: the function
    swallows the failure of its query.  The readers that return lists
    succeed exactly when the store is reachable, and throw otherwise. *)
Theorem readers_on_failure (fs : Firestore) (sid aid : string)
    (k : CommentType) :
  (Service.getLatestScoreByAdmin fs sid aid = None
   ↔ reachable fs = false ∨ ∀ cid d, ¬ candidate fs sid aid cid d)
  ∧ (reachable fs = false →
       Service.getComments fs sid = Throw "Failed to load comments"
       ∧ Service.getCommentsByType fs sid k = Throw "Failed to load comments"
       ∧ ServiceX.getComments fs sid = Throw "Failed to fetch comments"
       ∧ ServiceX.getScoringComments fs sid
         = Throw "Failed to fetch scoring comments")
  ∧ (reachable fs = true →
       ∃ l lk, Service.getComments fs sid = Ok l
               ∧ ServiceX.getComments fs sid = Ok l
               ∧ Service.getCommentsByType fs sid k = Ok lk).
Proof.
  split; [|split].
  - destruct (reachable fs) eqn:Hr.
    + pose proof (getLatestScoreByAdmin_general fs sid aid Hr) as G.
      destruct (Service.getLatestScoreByAdmin fs sid aid) as [c|].
      * split; [done|]. intros [?|Hno]; [done|].
        destruct G as (d & Hl & _ & Hsc & _). exfalso.
        by apply (Hno (c_id c) d).
      * split; [|done]. intros _. right. intros cid d [Hl Hsc].
        by apply (G _ _ Hl).
    + unfold Service.getLatestScoreByAdmin, getDocs. rewrite Hr.
      split; [by left|done].
  - intros Hr.
    unfold Service.getComments, Service.getCommentsByType,
      ServiceX.getComments, ServiceX.getScoringComments, getDocs.
    by rewrite Hr.
  - intros Hr.
    unfold Service.getComments, Service.getCommentsByType,
      ServiceX.getComments, getDocs.
    rewrite Hr. by eexists _, _.
Qed.

Lemma readers_on_failure_witness :
  Service.getLatestScoreByAdmin (step (op_world 0 false) demoLog) "film1" "A"
    = None
  ∧ candidate (step (op_world 0 false) demoLog) "film1" "A" "c2"
      (scoringDoc "film1" "A" 20 2)
  ∧ Service.getComments (step (op_world 0 false) demoLog) "film1"
    = Throw "Failed to load comments".
Proof.
  split; [|split].
  - apply (proj1 (readers_on_failure (step (op_world 0 false) demoLog)
                    "film1" "A" scoring)).
    by left.
  - by vm_compute.
  - apply (proj1 (proj2 (readers_on_failure (step (op_world 0 false) demoLog)
                           "film1" "A" scoring)) eq_refl).
Defined.

(** * Events over the life of a log *)

Lemma docStep_sameOrigin op p d d' :
  docStep op p d d' →
  sameOrigin d d'
  ∧ (d_isEdited d = true → d_isEdited d' = true)
  ∧ (d_isDeleted d = true → d_isDeleted d' = true).
Proof. by destruct 1. Qed.

(** X10.  Whatever the services do afterwards, in any order, an event
    that is stored stays stored, under the same identifier, with the
    submission, author id, name and email, kind, scores and [createdAt] it
    was created with; and an event that is edited, or deleted, stays so. *)
Theorem event_identity_is_kept (ops : list Op) (fs : Firestore)
    (p : string * string) (d : DocumentData) :
  comments fs !! p = Some d →
  ∃ d', comments (exec ops fs) !! p = Some d'
        ∧ sameOrigin d d'
        ∧ (d_isEdited d = true → d_isEdited d' = true)
        ∧ (d_isDeleted d = true → d_isDeleted d' = true).
Proof.
  revert fs d. induction ops as [|op ops IH]; intros fs d Hl; simpl.
  - exists d. by repeat split.
  - destruct (step_preserves op fs p d Hl) as (d1 & Hl1 & Hs).
    apply docStep_sameOrigin in Hs as (Ho & He & Hd).
    destruct (IH _ _ Hl1) as (d2 & Hl2 & Ho2 & He2 & Hd2).
    exists d2. split; [done|].
    destruct Ho as (?&?&?&?&?&?&?), Ho2 as (?&?&?&?&?&?&?).
    split; [|split; auto]. repeat split; congruence.
Qed.

Lemma event_identity_is_kept_witness :
  ∃ d', comments
          (exec [op_updateComment "film1" "c1" "better";
                 op_deleteComment "film1" "c1";
                 op_addFlagComment "film1" "B" "Bob" "b@x" true None;
                 op_updateCommentX "film1" "c1" "again" None] demoLog)
          !! ("film1", "c1") = Some d'
        ∧ sameOrigin (scoringDoc "film1" "A" 10 1) d'
        ∧ (d_isEdited (scoringDoc "film1" "A" 10 1) = true →
           d_isEdited d' = true)
        ∧ (d_isDeleted (scoringDoc "film1" "A" 10 1) = true →
           d_isDeleted d' = true).
Proof.
  apply (event_identity_is_kept
           [op_updateComment "film1" "c1" "better";
            op_deleteComment "film1" "c1";
            op_addFlagComment "film1" "B" "Bob" "b@x" true None;
            op_updateCommentX "film1" "c1" "again" None] demoLog
           ("film1", "c1") (scoringDoc "film1" "A" 10 1)).
  by vm_compute.
Defined.

Lemma step_wellFormed op fs :
  (∀ p d, comments fs !! p = Some d → wellFormedEvent fs p d) →
  ∀ p d, comments (step op fs) !! p = Some d →
         wellFormedEvent (step op fs) p d.
Proof.
  intros Hwf p d' Hl'. pose proof (step_clock op fs) as Hc.
  destruct (step_lookup_cases op fs p d' Hl')
    as [Hl|[(Hn & Hf & _)|(d & Hl & Hcase)]].
  - destruct (Hwf _ _ Hl) as (H1 & H2 & H3 & H4).
    split; [done|]. split; [done|]. split; [lia|].
    destruct (d_updatedAt d'); [lia|done].
  - destruct Hf as (H1 & H2 & H3 & H4 & H5 & H6).
    split; [done|]. split; [done|]. split; [lia|]. by rewrite H3.
  - destruct (Hwf _ _ Hl) as (H1 & H2 & H3 & H4).
    destruct Hcase as [(c & -> & _)|[(c & m & -> & _)|[-> _]]];
      (split; [done|]); (split; [done|]); simpl; lia.
Qed.

(** X11.  In a log that grew from the empty store, every event is stored
    in the collection of the submission it names; it has scores exactly
    when its kind is scoring; its [createdAt] is not after the server clock;
    [updatedAt], when set, lies between [createdAt] and the clock; and an
    event without [updatedAt] is neither edited nor deleted. *)
Theorem grown_log_is_well_formed (ops : list Op) (t : Z) (online : bool)
    (p : string * string) (d : DocumentData) :
  comments (exec ops (emptyStore t online)) !! p = Some d →
  wellFormedEvent (exec ops (emptyStore t online)) p d.
Proof.
  assert (H : ∀ fs, (∀ p d, comments fs !! p = Some d → wellFormedEvent fs p d)
                    → ∀ p d, comments (exec ops fs) !! p = Some d →
                             wellFormedEvent (exec ops fs) p d).
  { induction ops as [|op ops IH]; intros fs Hwf; simpl; [done|].
    apply IH. by apply step_wellFormed. }
  apply H. intros p0 d0 Hl. simpl in Hl. by rewrite lookup_empty in Hl.
Qed.

Lemma grown_log_is_well_formed_witness :
  wellFormedEvent
    (exec (demoHistory ++ [op_world 3 true;
                           op_deleteComment "film1" (fresh (∅ : gset string))])
          (emptyStore 1 true))
    ("film1", fresh (∅ : gset string))
    (deleteFields 6
       (mkDoc "film1" "A" "Ann" "a@x" "Scoring evaluation completed" scoring
          (Some (mkScores 2 2 2 2 2 10)) None 1 None false false)).
Proof.
  apply (grown_log_is_well_formed
           (demoHistory ++ [op_world 3 true;
                            op_deleteComment "film1" (fresh (∅ : gset string))])
           1%Z true).
  by vm_compute.
Defined.

(** * The filter tabs *)

Lemma StronglySorted_filter {A} (R : relation A) (P : A → Prop)
    `{∀ x, Decision (P x)} (l : list A) :
  StronglySorted R l → StronglySorted R (filter P l).
Proof.
  induction 1 as [|x l Hs IH Hall]; [constructor|].
  rewrite filter_cons. destruct (decide (P x)); [|done].
  constructor; [done|]. rewrite Forall_forall in *.
  intros y Hy. apply Hall. apply list_elem_of_filter in Hy. tauto.
Qed.

Lemma countOfType_sum (comments : list ShortFilmComment) :
  countOfType general comments + countOfType scoring comments
  + countOfType status_change comments + countOfType flag comments
  = length comments.
Proof.
  unfold countOfType. induction comments as [|c l IH]; [done|].
  rewrite !filter_cons. simpl.
  destruct (c_type c); repeat case_decide; try done; simpl; lia.
Qed.

Lemma filteredComments_kind k comments :
  filteredComments (filter_kind k) comments
  = filter (λ c, c_type c = k) comments.
Proof.
  unfold filteredComments. induction comments as [|c l IH]; [done|].
  rewrite !filter_cons, IH. simpl. by repeat case_decide.
Qed.

(** X12.  The comment filter shows everything under "all" and, under a
    kind, exactly the comments of that kind, in the order they came in.
    The number on each tab of the page of [unnamed/part_000] is the number
    of comments shown when the tab is chosen, and the numbers on the four
    kind tabs add up to the number on "all". *)
Theorem filter_tabs_spec (comments : list ShortFilmComment)
    (f : CommentFilter) :
  filteredComments filter_all comments = comments
  ∧ filteredComments f comments `sublist_of` comments
  ∧ (∀ c, c ∈ filteredComments f comments ↔ c ∈ comments ∧ passesFilter f c)
  ∧ (∀ f' n, (f', n) ∈ filterTabs comments →
             n = length (filteredComments f' comments))
  ∧ countOfType general comments + countOfType scoring comments
    + countOfType status_change comments + countOfType flag comments
    = length comments.
Proof.
  assert (Hall : filteredComments filter_all comments = comments).
  { unfold filteredComments. induction comments as [|c l IH]; [done|].
    rewrite filter_cons. simpl. by rewrite IH. }
  split; [done|]. split; [apply sublist_filter|]. split.
  { intros c. unfold filteredComments. rewrite list_elem_of_filter. tauto. }
  split; [|apply countOfType_sum].
  intros f' n Hin. unfold filterTabs in Hin.
  repeat (apply elem_of_cons in Hin as [[= -> ->]|Hin];
          [first [by rewrite Hall
                 | by rewrite filteredComments_kind]|]).
  by apply elem_of_nil in Hin.
Qed.

(** What a delivery of the subscription leaves in the page. *)
Lemma PageX_deliver_state sid st fs :
  reachable fs = true →
  ∃ l, Service.getComments fs sid = Ok l
       ∧ deliver (PageX.subscribe sid st).2 fs (PageX.subscribe sid st).1
         = PageX.mkState (PageX.application st) l false
             (PageX.isSubmittingScore st) (PageX.toasts st).
Proof.
  intros Hr. destruct (getComments_listing fs sid Hr) as (l & Hl & _).
  exists l. split; [done|]. unfold PageX.subscribe. simpl.
  by rewrite ServiceX_deliver, Hl.
Qed.

Lemma Page_deliver_state sid st fs :
  deliver (Page.subscribe sid st).2 fs (Page.subscribe sid st).1
  = Page.mkState (Page.application st)
      (listOf (Service.getComments fs sid)) false (Page.allScores st)
      (Page.isSubmittingScore st) (Page.toasts st).
Proof.
  unfold Page.subscribe. simpl. rewrite Service_deliver.
  by destruct (Service.getComments fs sid).
Qed.

(** X13.  When the store is reachable, what the subscription delivers
    takes the page out of its loading state and gives it the live comments
    of the submission, newest first; filtering them in the page by a kind
    gives the same comments as asking the service for that kind, both
    newest first, up to the order of comments with equal [createdAt].  The
    page of [AdminApplicationDetailPage.tsx] leaves its loading state also
    when the store is unreachable, with an empty list. *)
Theorem delivered_feed_and_filter (sid : string) (st : PageX.State)
    (st1 : Page.State) (fs : Firestore) (k : CommentType) :
  reachable fs = true →
  let st' := deliver (PageX.subscribe sid st).2 fs (PageX.subscribe sid st).1 in
  let st1' := deliver (Page.subscribe sid st1).2 fs (Page.subscribe sid st1).1 in
  PageX.loadingComments st' = false
  ∧ Service.getComments fs sid = Ok (PageX.comments st')
  ∧ Page.comments st1' = PageX.comments st'
  ∧ StronglySorted newerC (PageX.comments st')
  ∧ (∀ c, c ∈ PageX.comments st' ↔ liveComment fs sid c)
  ∧ (∃ lk, Service.getCommentsByType fs sid k = Ok lk
           ∧ filteredComments (filter_kind k) (PageX.comments st') ≡ₚ lk
           ∧ StronglySorted newerC
               (filteredComments (filter_kind k) (PageX.comments st'))
           ∧ StronglySorted newerC lk)
  ∧ (∀ fs0, reachable fs0 = false →
       Page.loadingComments
         (deliver (Page.subscribe sid st1).2 fs0 (Page.subscribe sid st1).1)
         = false
       ∧ Page.comments
           (deliver (Page.subscribe sid st1).2 fs0 (Page.subscribe sid st1).1)
         = []).
Proof.
  intros Hr st' st1'.
  destruct (getComments_listing fs sid Hr) as (l & Hl & Hnd & Hs & Hin).
  destruct (PageX_deliver_state sid st fs Hr) as (l0 & Hl0 & Hst).
  rewrite Hl in Hl0. injection Hl0 as <-.
  assert (Hc : PageX.comments st' = l) by (unfold st'; by rewrite Hst).
  rewrite Hc. split; [unfold st'; by rewrite Hst|]. split; [done|].
  split; [unfold st1'; by rewrite Page_deliver_state, Hl|].
  split; [done|]. split; [done|]. split.
  - destruct (getCommentsByType_listing fs sid k Hr)
      as (lk & Hlk & Hndk & Hsk & Hink).
    exists lk. split; [done|]. split.
    + apply NoDup_Permutation; [by apply NoDup_filter|done|].
      intros c. unfold filteredComments.
      rewrite list_elem_of_filter, Hink, Hin. simpl. tauto.
    + split; [by apply StronglySorted_filter|done].
  - intros fs0 Hr0. rewrite Page_deliver_state.
    unfold Service.getComments, getDocs. by rewrite Hr0.
Qed.

Lemma delivered_feed_and_filter_witness :
  let st' := deliver (PageX.subscribe "film1" demoPageX).2 demoLog
               (PageX.subscribe "film1" demoPageX).1 in
  PageX.loadingComments st' = false
  ∧ Service.getComments demoLog "film1" = Ok (PageX.comments st')
  ∧ ∃ lk, Service.getCommentsByType demoLog "film1" scoring = Ok lk
          ∧ filteredComments (filter_kind scoring) (PageX.comments st') ≡ₚ lk.
Proof.
  intros st'.
  pose proof (delivered_feed_and_filter "film1" demoPageX demoPage demoLog
                scoring eq_refl) as H.
  cbv zeta in H.
  destruct H as (H1 & H2 & _ & _ & _ & (lk & H3 & H4 & _) & _).
  split; [exact H1|]. split; [exact H2|].
  exists lk. split; [exact H3|exact H4].
Defined.

(** * The comment box *)










(** X15.  [handleDeleteComment] does nothing when the confirmation is
    declined.  When it is given, an existing comment on a reachable store,
    whoever wrote it, is soft-deleted: it stays stored with its text, is in
    no listing any more, and success is reported; when the comment does not
    exist or the store is unreachable nothing changes and an error is
    reported. *)
Theorem handleDeleteComment_spec (confirmed : bool) (appId cid : string)
    (st : PageX.State) (fs : Firestore) :
  let r := PageXHandlers.handleDeleteComment confirmed appId cid st fs in
  (confirmed = false → r = (st, fs))
  ∧ (confirmed = true →
       (∀ d, reachable fs = true → comments fs !! (appId, cid) = Some d →
          PageX.toasts r.1 = PageX.toasts st ++ [showSuccess]
          ∧ (∃ d', comments r.2 !! (appId, cid) = Some d'
                   ∧ sameButDeletion d d' ∧ d_isDeleted d' = true)
          ∧ ∀ l, Service.getComments r.2 appId = Ok l →
                 ∀ c, c ∈ l → c_id c ≠ cid)
       ∧ (comments fs !! (appId, cid) = None ∨ reachable fs = false →
            r.2 = fs ∧ PageX.toasts r.1 = PageX.toasts st ++ [showError])).
Proof.
  intros r. split; [by intros ->|]. intros ->. split.
  - intros d Hr Hl. unfold r, PageXHandlers.handleDeleteComment,
      ServiceX.deleteComment.
    rewrite (updateDoc_existing _ _ _ _ d Hr Hl). simpl.
    split; [done|]. rewrite lookup_insert_eq. split; [by eexists|].
    intros l Hg c Hin Hid.
    apply (getComments_Ok_live _ _ _ _ Hg) in Hin as (d0 & Hl0 & Hd0 & _).
    simpl in Hl0. rewrite Hid, lookup_insert_eq in Hl0.
    injection Hl0 as <-. done.
  - intros H. unfold r, PageXHandlers.handleDeleteComment,
      ServiceX.deleteComment, updateDoc.
    destruct H as [Hn| ->]; [|done]. rewrite Hn. by destruct (reachable fs).
Qed.

Lemma handleDeleteComment_spec_witness :
  let r := PageXHandlers.handleDeleteComment true "film1" "c3" demoPageX
             demoLog in
  PageX.toasts r.1 = PageX.toasts demoPageX ++ [showSuccess]
  ∧ (∃ d', comments r.2 !! ("film1", "c3") = Some d'
           ∧ sameButDeletion (scoringDoc "film1" "B" 30 3) d'
           ∧ d_isDeleted d' = true)
  ∧ ∀ l, Service.getComments r.2 "film1" = Ok l → ∀ c, c ∈ l → c_id c ≠ "c3".
Proof.
  intros r.
  pose proof (handleDeleteComment_spec true "film1" "c3" demoPageX demoLog)
    as H.
  cbv zeta in H. destruct H as [_ H]. destruct (H eq_refl) as [Hok _].
  apply (Hok (scoringDoc "film1" "B" 30 3)); [reflexivity|by vm_compute].
Defined.

(** * Saving a score *)

(** X16.  [handleSaveScore] of [AdminApplicationDetailPage.tsx] does
    nothing without a signed-in user or a loaded application.  With both,
    it always ends with [isSubmittingScore] off and one more notification.
    The score object goes into the array as it was passed: when its
    [comments] property holds [undefined] or its [scoredAt] is the sentinel
    the write is refused, and when the submission is missing or the store
    unreachable it fails; in all these cases the store and the page's
    application are as before and an error is reported.  When the
    submission exists, the store is reachable and the array holds neither a
    sentinel nor an undefined value, the array stored in the submission and
    the copies in the page are the old array without the user's scores
    followed by the new score, a scoring event by the user with the payload
    of the call is recorded, and success is reported. *)
Theorem Page_handleSaveScore_outcome (user : User)
    (app : AdminApplicationData) (appId : string) (scores : ScoringCriteria)
    (st : Page.State) (fs : Firestore) :
  let r := Page.handleSaveScore (Some user) appId scores st fs in
  let updated := replaceAuthorScore (app_scores app) (uid user) scores in
  Page.handleSaveScore None appId scores st fs = (st, fs)
  ∧ (Page.application st = None → r = (st, fs))
  ∧ (Page.application st = Some app →
       Page.isSubmittingScore r.1 = false
       ∧ (∃ t, Page.toasts r.1 = Page.toasts st ++ [t])
       ∧ (sc_comments scores = Undefined
          ∨ sc_scoredAt scores = ServerTimestamp
          ∨ submissions fs !! appId = None ∨ reachable fs = false →
            r.2 = fs ∧ Page.application r.1 = Page.application st
            ∧ Page.allScores r.1 = Page.allScores st
            ∧ Page.toasts r.1 = Page.toasts st ++ [showError])
       ∧ (∀ sub, submissions fs !! appId = Some sub →
            reachable fs = true → existsb isSentinel updated = false →
            existsb hasUndefined updated = false →
            Page.toasts r.1 = Page.toasts st ++ [showSuccess]
            ∧ submissions r.2 !! appId
              = Some (mkSubmission updated (Some (clock fs))
                        (Some (clock fs)))
            ∧ Page.application r.1 = Some (mkApplication (app_id app) updated)
            ∧ Page.allScores r.1 = updated
            ∧ ∃ cid d,
                comments fs !! (appId, cid) = None
                ∧ comments r.2 !! (appId, cid) = Some d
                ∧ d_type d = scoring ∧ d_adminId d = uid user
                ∧ d_scores d = Some (Page.scoringCommentData scores)
                ∧ d_content d
                  = or_else (readText (sc_comments scores))
                      "Scoring evaluation completed"
                ∧ ∀ p, p ≠ (appId, cid) →
                       comments r.2 !! p = comments fs !! p)).
Proof.
  intros r updated.
  split; [unfold Page.handleSaveScore; by destruct (Page.application st)|].
  split; [intros H; unfold r, Page.handleSaveScore; by rewrite H|].
  intros Happ. unfold r, Page.handleSaveScore. rewrite Happ.
  fold updated. unfold updateSubmissionScores.
  assert (Hlast : existsb isSentinel updated = isSentinel scores
                    || existsb isSentinel
                         (filter (λ s, sc_adminId s ≠ uid user)
                            (app_scores app))).
  { unfold updated, replaceAuthorScore. rewrite existsb_app. simpl.
    rewrite orb_false_r. apply orb_comm. }
  assert (Hlast' : existsb hasUndefined updated = hasUndefined scores
                     || existsb hasUndefined
                          (filter (λ s, sc_adminId s ≠ uid user)
                             (app_scores app))).
  { unfold updated, replaceAuthorScore. rewrite existsb_app. simpl.
    rewrite orb_false_r. apply orb_comm. }
  destruct (existsb isSentinel updated || existsb hasUndefined updated)
    eqn:Hs.
  { simpl. split; [done|]. split; [by eexists|]. split; [done|].
    intros sub _ _ H1 H2. rewrite H1, H2 in Hs. done. }
  apply orb_false_iff in Hs as [Hs1 Hs2].
  assert (Hu : sc_comments scores ≠ Undefined).
  { intros Hu. rewrite Hlast' in Hs2. unfold hasUndefined at 1 in Hs2.
    by rewrite Hu in Hs2. }
  assert (Ht : sc_scoredAt scores ≠ ServerTimestamp).
  { intros Ht. rewrite Hlast in Hs1. unfold isSentinel at 1 in Hs1.
    by rewrite Ht in Hs1. }
  destruct (reachable fs) eqn:Hr.
  - destruct (submissions fs !! appId) as [sub|] eqn:Hsub.
    + unfold Service.addScoringComment, addDoc. simpl. rewrite Hr. simpl.
      split; [done|]. split; [by eexists|].
      split; [by intros [?|[?|[?|?]]]|]. intros sub0 _ _ _ _.
      split; [done|]. rewrite lookup_insert_eq. split; [done|].
      unfold Page.setApplicationScores. rewrite Happ. simpl.
      split; [done|]. split; [done|].
      eexists _, _. split; [apply (fresh_unused fs)|].
      unfold usedIds at 1. simpl. rewrite lookup_insert_eq.
      split; [done|]. repeat (split; [done|]).
      intros p Hp. rewrite lookup_insert_ne; [done|].
      intros Heq. apply Hp. rewrite <- Heq. done.
    + simpl. split; [done|]. split; [by eexists|]. split; [done|].
      intros sub ?. done.
  - simpl. split; [done|]. split; [by eexists|]. split; [done|].
    intros sub _ ?. done.
Qed.

Lemma Page_handleSaveScore_outcome_witness :
  let r := Page.handleSaveScore (Some demoUser) "film1" demoScores demoPage
             demoStore in
  let updated := replaceAuthorScore [] (uid demoUser) demoScores in
  Page.toasts r.1 = Page.toasts demoPage ++ [showSuccess]
  ∧ submissions r.2 !! "film1"
    = Some (mkSubmission updated (Some (clock demoStore))
              (Some (clock demoStore)))
  ∧ Page.application r.1 = Some (mkApplication "film1" updated)
  ∧ Page.allScores r.1 = updated
  ∧ ∃ cid d,
      comments demoStore !! ("film1", cid) = None
      ∧ comments r.2 !! ("film1", cid) = Some d
      ∧ d_type d = scoring ∧ d_adminId d = uid demoUser
      ∧ d_scores d = Some (Page.scoringCommentData demoScores)
      ∧ d_content d
        = or_else (readText (sc_comments demoScores))
            "Scoring evaluation completed"
      ∧ ∀ p, p ≠ ("film1", cid) → comments r.2 !! p = comments demoStore !! p.
Proof.
  intros r updated.
  pose proof (Page_handleSaveScore_outcome demoUser (mkApplication "film1" [])
                "film1" demoScores demoPage demoStore) as H.
  cbv zeta in H. destruct H as (_ & _ & H).
  destruct (H eq_refl) as (_ & _ & _ & Hok).
  apply (Hok (mkSubmission [] None None)); [by vm_compute|done|done|done].
Defined.

(** X17.  The form is pre-filled from the first score of the signed-in
    user in the submission's array.  After the filter-then-push step that is
    the new score when it carries the user's id (as the score built by the
    handler of [unnamed/part_000] always does); when it carries another id,
    nothing is pre-filled, the user's earlier score having been removed.
    Without a signed-in user nothing is pre-filled. *)
Theorem currentScoresOf_after_save (l : list ScoringCriteria) (user : User)
    (scores : ScoringCriteria) :
  (sc_adminId scores = uid user →
     currentScoresOf (Some user) (replaceAuthorScore l (uid user) scores)
     = Some (mkCurrent (sc_technical scores) (sc_story scores)
               (sc_creativity scores) (sc_chiangmai scores)
               (sc_humanEffort scores) (readText (sc_comments scores))))
  ∧ (sc_adminId scores ≠ uid user →
       currentScoresOf (Some user) (replaceAuthorScore l (uid user) scores)
       = None)
  ∧ currentScoresOf (Some user)
      (replaceAuthorScore l (uid user) (PageX.newScoreOf user scores))
    = Some (mkCurrent (sc_technical scores) (sc_story scores)
              (sc_creativity scores) (sc_chiangmai scores)
              (sc_humanEffort scores) (readText (sc_comments scores)))
  ∧ currentScoresOf None l = None.
Proof.
  assert (Hnone : list_find (λ score, sc_adminId score = uid user)
                    (filter (λ score, sc_adminId score ≠ uid user) l) = None).
  { apply list_find_None, Forall_forall. intros x Hx.
    apply list_elem_of_filter in Hx. tauto. }
  assert (Hgen : ∀ new, sc_adminId new = uid user →
            currentScoresOf (Some user) (replaceAuthorScore l (uid user) new)
            = Some (mkCurrent (sc_technical new) (sc_story new)
                      (sc_creativity new) (sc_chiangmai new)
                      (sc_humanEffort new) (readText (sc_comments new)))).
  { intros new Hid. unfold currentScoresOf, replaceAuthorScore.
    destruct (list_find _ (_ ++ [new])) as [[i x]|] eqn:E.
    - apply list_find_app_Some in E as [E|(_ & _ & E)]; [congruence|].
      simpl in E. case_decide; [|done]. by injection E as _ <-.
    - apply list_find_app_None in E as [_ E]. simpl in E.
      by case_decide. }
  split; [apply Hgen|]. split; [|split; [by apply (Hgen (PageX.newScoreOf user scores))|done]].
  intros Hne. unfold currentScoresOf, replaceAuthorScore.
  destruct (list_find _ (_ ++ [scores])) as [[i x]|] eqn:E; [|done].
  apply list_find_app_Some in E as [E|(_ & _ & E)]; [congruence|].
  simpl in E. by case_decide.
Qed.

Lemma currentScoresOf_after_save_witness :
  currentScoresOf (Some demoUser)
    (replaceAuthorScore
       [mkCriteria 1 1 1 1 1 5 Absent "A" "Ann" (DateAt 1);
        mkCriteria 2 2 2 2 2 10 Absent "B" "Bob" (DateAt 2)]
       (uid demoUser) demoScores)
  = Some (mkCurrent 8 7 9 6 10 None).
Proof.
  apply (proj1 (currentScoresOf_after_save
                  [mkCriteria 1 1 1 1 1 5 Absent "A" "Ann" (DateAt 1);
                   mkCriteria 2 2 2 2 2 10 Absent "B" "Bob" (DateAt 2)]
                  demoUser demoScores)).
  reflexivity.
Defined.

(** X18.  The score that [handleSaveScore] of [unnamed/part_000] appends
    to the array has [serverTimestamp()] as [scoredAt], so the array it
    sends to the submission document always holds a sentinel.  The SDK
    refuses such data before anything is sent; the handler therefore stores
    nothing, neither in the submission nor in the comment log, leaves the
    page's application as it was and reports an error. *)
Theorem PageX_handleSaveScore_outcome (now : Z) (user : User)
    (app : AdminApplicationData) (appId : string) (scores : ScoringCriteria)
    (st : PageX.State) (fs : Firestore) :
  PageX.application st = Some app →
  let r := PageX.handleSaveScore now (Some user) appId scores st fs in
  existsb isSentinel
    (replaceAuthorScore (app_scores app) (uid user)
       (PageX.newScoreOf user scores)) = true
  ∧ r.2 = fs
  ∧ PageX.application r.1 = PageX.application st
  ∧ PageX.toasts r.1 = PageX.toasts st ++ [showError]
  ∧ PageX.isSubmittingScore r.1 = false.
Proof.
  intros Happ r.
  assert (Hs : existsb isSentinel
                 (replaceAuthorScore (app_scores app) (uid user)
                    (PageX.newScoreOf user scores)) = true).
  { unfold replaceAuthorScore. rewrite existsb_app. simpl.
    by rewrite orb_true_r. }
  split; [done|]. unfold r, PageX.handleSaveScore. rewrite Happ.
  unfold updateSubmissionScores. by rewrite Hs.
Qed.

Lemma PageX_handleSaveScore_outcome_witness :
  let r := PageX.handleSaveScore 1001 (Some demoUser) "film1" demoScores
             demoPageX demoStore in
  existsb isSentinel
    (replaceAuthorScore [] (uid demoUser)
       (PageX.newScoreOf demoUser demoScores)) = true
  ∧ r.2 = demoStore
  ∧ PageX.application r.1 = PageX.application demoPageX
  ∧ PageX.toasts r.1 = PageX.toasts demoPageX ++ [showError]
  ∧ PageX.isSubmittingScore r.1 = false.
Proof.
  apply (PageX_handleSaveScore_outcome 1001 demoUser
           (mkApplication "film1" []) "film1" demoScores demoPageX demoStore).
  reflexivity.
Defined.

(** * The admin controls *)

Lemma updateSubmissionFields_Ok b sid fields rv doc :
  reachable (store b) = true → submissions (store b) !! sid = Some doc →
  ∃ b', updateSubmissionFields b sid fields rv = Ok b'
        ∧ comments (store b') = comments (store b)
        ∧ reachable (store b') = true ∧ clock (store b') = clock (store b)
        ∧ (∀ key, adminField b' sid key
                  = match fields !! key with
                    | Some v => Some v
                    | None => adminField b sid key
                    end)
        ∧ (∀ sid' key, sid' ≠ sid →
                       adminField b' sid' key = adminField b sid' key)
        ∧ sub_scores <$> submissions (store b') !! sid = Some (sub_scores doc)
        ∧ sub_lastModified <$> submissions (store b') !! sid
          = Some (Some (clock (store b))).
Proof.
  intros Hr Hsub. unfold updateSubmissionFields. rewrite Hr, Hsub.
  eexists. split; [done|]. simpl. split; [done|]. split; [done|].
  split; [done|]. split; [|split].
  - intros key. unfold adminField. simpl. rewrite lookup_insert_eq.
    destruct (fields !! key) as [v|] eqn:E.
    + by apply lookup_union_Some_l.
    + rewrite lookup_union_r by done.
      by destruct (adminFields b !! sid).
  - intros sid' key Hne. unfold adminField. simpl.
    by rewrite lookup_insert_ne.
  - by rewrite lookup_insert_eq.
Qed.

Lemma updateSubmissionFields_fail b sid fields rv :
  submissions (store b) !! sid = None ∨ reachable (store b) = false →
  ∃ e, updateSubmissionFields b sid fields rv = Throw e.
Proof.
  unfold updateSubmissionFields. intros [Hn| ->]; [|by eexists].
  rewrite Hn. destruct (reachable (store b)); by eexists.
Qed.

(** X19.  [handleStatusChange] of [unnamed/part_000] does nothing without a
    signed-in user or a loaded application.  When the submission is missing
    or the store unreachable it reports an error and changes nothing: no
    status-change event is logged without the status having been written.
    Otherwise it writes the new status to the submission, keeping the
    scores and every other field, and logs one status-change event by the
    user whose metadata has the status the page showed as old status, the
    new status, and a null reason; the page then shows the new status.  The
    handler of [AdminApplicationDetailPage.tsx] writes the status and logs
    nothing. *)
Theorem handleStatusChange_spec (user : option User)
    (appId newStatus : string) (st : PageX.State) (st1 : Page.State)
    (ctl : Controls) (b : Backend) :
  let r := PageXHandlers.handleStatusChange user appId newStatus st ctl b in
  let r1 := PageHandlers.handleStatusChange appId newStatus st1 ctl b in
  (user = None ∨ PageX.application st = None → r = (st, ctl, b))
  ∧ (∀ u app, user = Some u → PageX.application st = Some app →
       (submissions (store b) !! appId = None ∨ reachable (store b) = false →
          r = (PageXHandlers.toast showError st,
               PageXHandlers.setUpdating false ctl, b))
       ∧ (∀ doc, submissions (store b) !! appId = Some doc →
            reachable (store b) = true →
            r.1.1 = PageXHandlers.toast showSuccess st
            ∧ r.1.2 = mkControls newStatus (ctl_adminNotes ctl)
                        (ctl_flagged ctl) (ctl_flagReason ctl) false
            ∧ adminField r.2 appId "reviewStatus" = Some (MString newStatus)
            ∧ (∀ key, key ≠ "reviewStatus" →
                      adminField r.2 appId key = adminField b appId key)
            ∧ sub_scores <$> submissions (store r.2) !! appId
              = Some (sub_scores doc)
            ∧ ∃ cid d,
                comments (store b) !! (appId, cid) = None
                ∧ comments (store r.2) !! (appId, cid) = Some d
                ∧ d_type d = status_change ∧ d_adminId d = uid u
                ∧ metadataAt (store r.2) (appId, cid) "oldStatus"
                  = Some (MString (ctl_reviewStatus ctl))
                ∧ metadataAt (store r.2) (appId, cid) "newStatus"
                  = Some (MString newStatus)
                ∧ metadataAt (store r.2) (appId, cid) "reason" = Some MNull
                ∧ ∀ p, p ≠ (appId, cid) →
                       comments (store r.2) !! p = comments (store b) !! p))
  ∧ (∀ app doc, Page.application st1 = Some app →
       submissions (store b) !! appId = Some doc →
       reachable (store b) = true →
       comments (store r1.2) = comments (store b)
       ∧ adminField r1.2 appId "reviewStatus" = Some (MString newStatus)
       ∧ ctl_reviewStatus r1.1.2 = newStatus).
Proof.
  intros r r1. split; [|split].
  - unfold r, PageXHandlers.handleStatusChange. intros [->| ->]; [done|].
    by destruct user.
  - intros u app -> Happ. unfold r, PageXHandlers.handleStatusChange.
    rewrite Happ. split.
    + intros H.
      destruct (updateSubmissionFields_fail b appId
                  {["reviewStatus" := MString newStatus]} true H) as [e ->].
      done.
    + intros doc Hsub Hr.
      destruct (updateSubmissionFields_Ok b appId
                  {["reviewStatus" := MString newStatus]} true doc Hr Hsub)
        as (b1 & -> & Hc & Hr1 & Hclk & Hfield & _ & Hsc & _).
      unfold PageXHandlers.onStore, ServiceX.addStatusChangeComment, addDoc.
      rewrite Hr1. simpl. split; [done|]. split; [done|].
      unfold adminField in *. simpl. split.
      { rewrite (Hfield "reviewStatus"). by rewrite lookup_singleton_eq. }
      split.
      { intros key Hk. rewrite (Hfield key).
        by rewrite lookup_singleton_ne. }
      split; [done|].
      eexists _, _. split.
      { rewrite <- Hc. apply (fresh_unused (store b1)). }
      unfold metadataAt. simpl. rewrite lookup_insert_eq. simpl.
      repeat (split; [done|]).
      intros p Hp. rewrite lookup_insert_ne by done. by rewrite Hc.
  - intros app doc Happ Hsub Hr. unfold r1, PageHandlers.handleStatusChange.
    rewrite Happ.
    destruct (updateSubmissionFields_Ok b appId
                {["reviewStatus" := MString newStatus]} true doc Hr Hsub)
      as (b1 & -> & Hc & _ & _ & Hfield & _).
    simpl. split; [done|]. split; [|done].
    rewrite (Hfield "reviewStatus"). by rewrite lookup_singleton_eq.
Qed.

Lemma handleStatusChange_spec_witness :
  let r := PageXHandlers.handleStatusChange (Some demoUser) "film1" "approved"
             demoPageX demoControls demoBackend in
  r.1.2 = mkControls "approved" "first notes" false None false
  ∧ adminField r.2 "film1" "reviewStatus" = Some (MString "approved")
  ∧ adminField r.2 "film1" "adminNotes" = Some (MString "first notes")
  ∧ ∃ cid d,
      comments (store demoBackend) !! ("film1", cid) = None
      ∧ comments (store r.2) !! ("film1", cid) = Some d
      ∧ d_type d = status_change ∧ d_adminId d = uid demoUser
      ∧ metadataAt (store r.2) ("film1", cid) "oldStatus"
        = Some (MString "pending")
      ∧ metadataAt (store r.2) ("film1", cid) "newStatus"
        = Some (MString "approved")
      ∧ metadataAt (store r.2) ("film1", cid) "reason" = Some MNull.
Proof.
  intros r.
  pose proof (handleStatusChange_spec (Some demoUser) "film1" "approved"
                demoPageX demoPage demoControls demoBackend) as H.
  cbv zeta in H. destruct H as (_ & H & _).
  destruct (H demoUser (mkApplication "film1" []) eq_refl eq_refl)
    as [_ Hok].
  destruct (Hok (mkSubmission [] None None) ltac:(by vm_compute) eq_refl)
    as (_ & H2 & H3 & H4 & _ & (cid & d & H5 & H6 & H7 & H8 & H9 & H10 & H11 & _)).
  split; [exact H2|]. split; [exact H3|].
  split; [unfold r; rewrite (H4 "adminNotes") by discriminate; by vm_compute|].
  exists cid, d. repeat (split; [assumption|]). assumption.
Defined.

Lemma updateSubmissionFields_reviewed b b' sid fields rv doc :
  submissions (store b) !! sid = Some doc →
  updateSubmissionFields b sid fields rv = Ok b' →
  sub_lastReviewedAt <$> submissions (store b') !! sid
  = Some (if rv then Some (clock (store b)) else sub_lastReviewedAt doc).
Proof.
  intros Hsub. unfold updateSubmissionFields. rewrite Hsub.
  destruct (reachable (store b)); [|done]. intros [= <-]. simpl.
  by rewrite lookup_insert_eq.
Qed.

(** X20.  [handleFlagToggle] of [unnamed/part_000] does nothing without a
    signed-in user or a loaded application, and on a missing submission or
    an unreachable store reports an error, writes nothing and logs nothing.
    Otherwise it writes [flagged] and [flagReason] (null when the reason is
    absent or empty) to the submission, leaving the scores, the other fields
    and [lastReviewedAt] alone, and logs one flag event by the user with the
    flag and the reason in its metadata; the page keeps the reason as it was
    passed.  The handler of [AdminApplicationDetailPage.tsx] writes the
    same fields and logs nothing. *)
Theorem handleFlagToggle_spec (user : option User) (appId : string)
    (flagged : bool) (reason : option string) (st : PageX.State)
    (st1 : Page.State) (ctl : Controls) (b : Backend) :
  let r := PageXHandlers.handleFlagToggle user appId flagged reason st ctl b in
  let r1 := PageHandlers.handleFlagToggle appId flagged reason st1 ctl b in
  (user = None ∨ PageX.application st = None → r = (st, ctl, b))
  ∧ (∀ u app, user = Some u → PageX.application st = Some app →
       (submissions (store b) !! appId = None ∨ reachable (store b) = false →
          r = (PageXHandlers.toast showError st,
               PageXHandlers.setUpdating false ctl, b))
       ∧ (∀ doc, submissions (store b) !! appId = Some doc →
            reachable (store b) = true →
            r.1.1 = PageXHandlers.toast showSuccess st
            ∧ r.1.2 = mkControls (ctl_reviewStatus ctl) (ctl_adminNotes ctl)
                        flagged reason false
            ∧ adminField r.2 appId "flagged" = Some (MBool flagged)
            ∧ adminField r.2 appId "flagReason" = Some (reasonOrNull reason)
            ∧ (∀ key, key ≠ "flagged" → key ≠ "flagReason" →
                      adminField r.2 appId key = adminField b appId key)
            ∧ sub_scores <$> submissions (store r.2) !! appId
              = Some (sub_scores doc)
            ∧ sub_lastReviewedAt <$> submissions (store r.2) !! appId
              = Some (sub_lastReviewedAt doc)
            ∧ ∃ cid d,
                comments (store b) !! (appId, cid) = None
                ∧ comments (store r.2) !! (appId, cid) = Some d
                ∧ d_type d = flag ∧ d_adminId d = uid u
                ∧ metadataAt (store r.2) (appId, cid) "flagged"
                  = Some (MBool flagged)
                ∧ metadataAt (store r.2) (appId, cid) "reason"
                  = Some (reasonOrNull reason)
                ∧ ∀ p, p ≠ (appId, cid) →
                       comments (store r.2) !! p = comments (store b) !! p))
  ∧ (∀ app doc, Page.application st1 = Some app →
       submissions (store b) !! appId = Some doc →
       reachable (store b) = true →
       comments (store r1.2) = comments (store b)
       ∧ adminField r1.2 appId "flagged" = Some (MBool flagged)
       ∧ adminField r1.2 appId "flagReason" = Some (reasonOrNull reason)
       ∧ ctl_flagged r1.1.2 = flagged ∧ ctl_flagReason r1.1.2 = reason).
Proof.
  intros r r1. split; [|split].
  - unfold r, PageXHandlers.handleFlagToggle. intros [->| ->]; [done|].
    by destruct user.
  - intros u app -> Happ. unfold r, PageXHandlers.handleFlagToggle.
    rewrite Happ. split.
    + intros H.
      destruct (updateSubmissionFields_fail b appId
                  (<["flagged" := MBool flagged]>
                     {["flagReason" := reasonOrNull reason]}) false H)
        as [e ->].
      done.
    + intros doc Hsub Hr.
      destruct (updateSubmissionFields_Ok b appId
                  (<["flagged" := MBool flagged]>
                     {["flagReason" := reasonOrNull reason]}) false doc
                  Hr Hsub)
        as (b1 & Hupd & Hc & Hr1 & Hclk & Hfield & _ & Hsc & _).
      pose proof (updateSubmissionFields_reviewed _ _ _ _ _ _ Hsub Hupd)
        as Hrev.
      rewrite Hupd.
      unfold PageXHandlers.onStore, ServiceX.addFlagComment, addDoc.
      rewrite Hr1. simpl. split; [done|]. split; [done|].
      unfold adminField in *. simpl.
      split; [by rewrite (Hfield "flagged")|].
      split; [by rewrite (Hfield "flagReason")|].
      split.
      { intros key Hk1 Hk2. rewrite (Hfield key).
        rewrite lookup_insert_ne by done. by rewrite lookup_singleton_ne. }
      split; [done|]. split; [done|].
      eexists _, _. split.
      { rewrite <- Hc. apply (fresh_unused (store b1)). }
      unfold metadataAt. simpl. rewrite lookup_insert_eq. simpl.
      repeat (split; [done|]).
      intros p Hp. rewrite lookup_insert_ne by done. by rewrite Hc.
  - intros app doc Happ Hsub Hr. unfold r1, PageHandlers.handleFlagToggle.
    rewrite Happ.
    destruct (updateSubmissionFields_Ok b appId
                (<["flagged" := MBool flagged]>
                   {["flagReason" := reasonOrNull reason]}) false doc
                Hr Hsub)
      as (b1 & -> & Hc & _ & _ & Hfield & _).
    simpl. split; [done|].
    split; [by rewrite (Hfield "flagged")|].
    split; [by rewrite (Hfield "flagReason")|]. done.
Qed.

Lemma handleFlagToggle_spec_witness :
  let r := PageXHandlers.handleFlagToggle (Some demoUser) "film1" true
             (Some EmptyString) demoPageX demoControls demoBackend in
  r.1.2 = mkControls "pending" "first notes" true (Some EmptyString) false
  ∧ adminField r.2 "film1" "flagged" = Some (MBool true)
  ∧ adminField r.2 "film1" "flagReason" = Some MNull
  ∧ ∃ cid d,
      comments (store demoBackend) !! ("film1", cid) = None
      ∧ comments (store r.2) !! ("film1", cid) = Some d
      ∧ d_type d = flag ∧ d_adminId d = uid demoUser
      ∧ metadataAt (store r.2) ("film1", cid) "flagged" = Some (MBool true)
      ∧ metadataAt (store r.2) ("film1", cid) "reason" = Some MNull.
Proof.
  intros r.
  pose proof (handleFlagToggle_spec (Some demoUser) "film1" true
                (Some EmptyString) demoPageX demoPage demoControls
                demoBackend) as H.
  cbv zeta in H. destruct H as (_ & H & _).
  destruct (H demoUser (mkApplication "film1" []) eq_refl eq_refl)
    as [_ Hok].
  destruct (Hok (mkSubmission [] None None) ltac:(by vm_compute) eq_refl)
    as (_ & H2 & H3 & H4 & _ & _ & _
        & (cid & d & H5 & H6 & H7 & H8 & H9 & H10 & _)).
  split; [exact H2|]. split; [exact H3|]. split; [exact H4|].
  exists cid, d. repeat (split; [assumption|]). assumption.
Defined.




(** * The status-change event *)

(** X22.  [addStatusChangeComment] on a reachable store logs one
    status-change event under an identifier no event had, with the old
    status, the new status and the reason in its metadata.  The text names
    both statuses in double quotes; the reason is appended only when it is
    present and not empty, and an absent or empty reason is stored as null.
    The event is listed among the status changes of the submission and never
    among its scores.  On an unreachable store the call throws and nothing is
    stored. *)
Theorem addStatusChangeComment_logged (fs : Firestore)
    (sid aid aname aemail oldStatus newStatus : string)
    (reason : option string) :
  let base :=
    "Status changed from " +:+ dquote +:+ oldStatus +:+ dquote +:+ " to "
      +:+ dquote +:+ newStatus +:+ dquote +:+ "." in
  (reachable fs = true →
     ∃ cid fs' d lk ls,
       ServiceX.addStatusChangeComment fs sid aid aname aemail oldStatus
         newStatus reason = (Ok cid, fs')
       ∧ comments fs !! (sid, cid) = None
       ∧ comments fs' !! (sid, cid) = Some d
       ∧ (∀ p, p ≠ (sid, cid) → comments fs' !! p = comments fs !! p)
       ∧ d_adminId d = aid ∧ d_scores d = None
       ∧ metadataAt fs' (sid, cid) "oldStatus" = Some (MString oldStatus)
       ∧ metadataAt fs' (sid, cid) "newStatus" = Some (MString newStatus)
       ∧ (truthy reason = false →
            d_content d = base
            ∧ metadataAt fs' (sid, cid) "reason" = Some MNull)
       ∧ (∀ r, reason = Some r → r ≠ EmptyString →
            d_content d = base +:+ " Reason: " +:+ r
            ∧ metadataAt fs' (sid, cid) "reason" = Some (MString r))
       ∧ Service.getCommentsByType fs' sid status_change = Ok lk
       ∧ toComment (cid, d) ∈ lk
       ∧ ServiceX.getScoringComments fs' sid = Ok ls
       ∧ ∀ c, c ∈ ls → c_id c ≠ cid)
  ∧ (reachable fs = false →
       ServiceX.addStatusChangeComment fs sid aid aname aemail oldStatus
         newStatus reason
       = (Throw "Failed to add status change comment", fs)).
Proof.
  intros base. split; intros Hr.
  - unfold ServiceX.addStatusChangeComment. fold base.
    match goal with
    | |- context [addDoc fs sid ?data] =>
        destruct (addDoc_reachable fs sid data Hr) as (cid & fs' & Hadd);
        set (d := data) in *
    end.
    rewrite Hadd.
    destruct (addDoc_listed _ _ _ _ _ Hadd eq_refl)
      as (Hn & Hd & Hframe & _).
    assert (Hr' : reachable fs' = true).
    { apply addDoc_Ok in Hadd as (_ & _ & ->). done. }
    destruct (getCommentsByType_listing fs' sid status_change Hr')
      as (lk & Hlk & _ & _ & Hink).
    destruct (getCommentsByType_listing fs' sid scoring Hr')
      as (ls & Hls & _ & _ & Hins).
    exists cid, fs', d, lk, ls.
    split; [done|]. split; [done|]. split; [done|]. split; [done|].
    split; [done|]. split; [done|].
    unfold metadataAt. rewrite Hd. simpl.
    split; [done|]. split; [done|]. split.
    { intros Ht. rewrite Ht. split; [done|].
      rewrite lookup_insert_ne by done. rewrite lookup_insert_ne by done.
      rewrite lookup_insert_eq. destruct reason as [r|]; [|done]. simpl in *.
      destruct (decide (r = EmptyString)) as [->|Hne]; [done|].
      by rewrite bool_decide_eq_false_2 in Ht. }
    split.
    { intros r -> Hne.
      assert (Ht : truthy (Some r) = true).
      { simpl. by rewrite bool_decide_eq_false_2. }
      rewrite Ht. split; [done|].
      rewrite lookup_insert_ne by done. rewrite lookup_insert_ne by done.
      rewrite lookup_insert_eq. simpl.
      by destruct (decide (r = EmptyString)). }
    split; [done|]. split.
    { apply Hink. split; [|done]. exists d. simpl. by split. }
    split; [by apply ServiceX_getScoringComments|].
    intros c Hc Hid. apply Hins in Hc as [(d' & Hl & _ & Hc) Hk].
    rewrite Hid, Hd in Hl. injection Hl as <-. by rewrite Hc in Hk.
  - unfold ServiceX.addStatusChangeComment. by rewrite addDoc_unreachable.
Qed.

Lemma addStatusChangeComment_logged_witness :
  ∃ cid fs' d lk ls,
    ServiceX.addStatusChangeComment demoLog "film1" "A" "Ann" "a@x" "pending"
      "approved" (Some "strong story") = (Ok cid, fs')
    ∧ comments demoLog !! ("film1", cid) = None
    ∧ comments fs' !! ("film1", cid) = Some d
    ∧ (∀ p, p ≠ ("film1", cid) → comments fs' !! p = comments demoLog !! p)
    ∧ d_adminId d = "A" ∧ d_scores d = None
    ∧ metadataAt fs' ("film1", cid) "oldStatus" = Some (MString "pending")
    ∧ metadataAt fs' ("film1", cid) "newStatus" = Some (MString "approved")
    ∧ (truthy (Some "strong story") = false →
         d_content d
         = "Status changed from " +:+ dquote +:+ "pending" +:+ dquote
             +:+ " to " +:+ dquote +:+ "approved" +:+ dquote +:+ "."
         ∧ metadataAt fs' ("film1", cid) "reason" = Some MNull)
    ∧ (∀ r, Some "strong story" = Some r → r ≠ EmptyString →
         d_content d
         = ("Status changed from " +:+ dquote +:+ "pending" +:+ dquote
              +:+ " to " +:+ dquote +:+ "approved" +:+ dquote +:+ ".")
             +:+ " Reason: " +:+ r
         ∧ metadataAt fs' ("film1", cid) "reason" = Some (MString r))
    ∧ Service.getCommentsByType fs' "film1" status_change = Ok lk
    ∧ toComment (cid, d) ∈ lk
    ∧ ServiceX.getScoringComments fs' "film1" = Ok ls
    ∧ ∀ c, c ∈ ls → c_id c ≠ cid.
Proof.
  apply (proj1 (addStatusChangeComment_logged demoLog "film1" "A" "Ann" "a@x"
                  "pending" "approved" (Some "strong story"))).
  reflexivity.
Defined.
